(** * saramin job-board backend: embedding of the route handlers and of the
      crawler's deadline normaliser, and the properties checked on them.

    The handlers are Express callbacks over Sequelize models.  A handler is
    embedded as a function from the database and the request to the new
    database and the response it sends.  A table is the list of its rows in
    insertion order together with its auto-increment counter.  The [catch]
    branches, which answer 500, are reached when the model layer refuses a
    value or the database refuses a row (a foreign key without its row, a
    unique index); those refusals are written out where the models declare
    them. *)

From stdpp Require Import gmap strings list.
From Stdlib Require Import ZArith QArith Lia.

Set Warnings "-register-all".

Open Scope Z_scope.

(** ** JavaScript values carried by request bodies and token payloads *)

Inductive jsval :=
| VUndefined
| VNull
| VBool (b : bool)
| VNum (q : Q)
| VStr (s : string)
| VArr (items : list jsval).

(** A JavaScript object used as a dictionary (request body, token payload). *)
Abbreviation jsobject := (gmap string jsval).

(** Property read [o.k]: a missing key reads as [undefined]. *)
Definition get (o : jsobject) (k : string) : jsval :=
  default VUndefined (o !! k).

(** ToBoolean. *)
Definition truthy (v : jsval) : bool :=
  match v with
  | VUndefined | VNull => false
  | VBool b => b
  | VNum q => negb (Qeq_bool q 0)
  | VStr s => negb (String.eqb s "")
  | VArr _ => true
  end.

(** Length of a string in UTF-16 code units (what [String.length] and Joi's
    [min]/[max] count), computed on its UTF-8 bytes: every byte that is not
    a continuation byte starts a code point, and a four-byte lead stands for
    a surrogate pair. *)
Fixpoint utf16_length (s : string) : Z :=
  match s with
  | EmptyString => 0
  | String c rest =>
      let b := Z.of_N (Ascii.N_of_ascii c) in
      (if (128 <=? b) && (b <? 192) then 0
       else if 240 <=? b then 2 else 1) + utf16_length rest
  end.

(** ** Responses: [res.status(code).json({status, message, data})] *)

Record response (D : Type) := Response {
  code : Z;
  status : string;
  message : option string;
  data : option D
}.
Arguments Response {D} _ _ _ _.
Arguments code {D} _.
Arguments status {D} _.
Arguments message {D} _.
Arguments data {D} _.

Definition error {D} (c : Z) (msg : string) : response D :=
  Response c "error" (Some msg) None.
Definition success {D} (c : Z) (d : D) : response D :=
  Response c "success" None (Some d).

(** ** Tables *)

(** A Sequelize model: rows carry an integer primary key [id]. *)
Class Model (R : Type) := pk : R -> Z.

Record table (R : Type) := Table {
  rows : list R;
  next_id : Z
}.
Arguments Table {R} _ _.
Arguments rows {R} _.
Arguments next_id {R} _.

Definition empty_table {R} : table R := Table [] 1.

Section Queries.
Context {R : Type} `{Model R}.

(** [Model.findOne({where})]: the first row that satisfies the condition. *)
Definition findOne (where_ : R -> bool) (t : table R) : option R :=
  List.find where_ (rows t).

(** [Model.findByPk(id)]. *)
Definition findByPk (id : Z) (t : table R) : option R :=
  findOne (fun r => pk r =? id) t.

(** [Model.findAll({where})]. *)
Definition findAll (where_ : R -> bool) (t : table R) : list R :=
  List.filter where_ (rows t).

(** [Model.create(values)]: the row receives the next auto-increment key. *)
Definition create (mk : Z -> R) (t : table R) : table R * R :=
  let r := mk (next_id t) in
  (Table (rows t ++ [r]) (next_id t + 1), r).

(** [instance.save()] and [instance.increment()]: an UPDATE of the changed
    columns on the row whose key is the instance's. *)
Definition update (id : Z) (f : R -> R) (t : table R) : table R :=
  Table (List.map (fun r => if pk r =? id then f r else r) (rows t))
        (next_id t).

(** [instance.destroy()]. *)
Definition destroy (id : Z) (t : table R) : table R :=
  Table (List.filter (fun r => negb (pk r =? id)) (rows t)) (next_id t).
End Queries.

(** ** Rows (models/) *)

Record Job := mkJob {
  job_id : Z;
  title : option string;
  company : option string;
  location : option string;
  experience : option string;
  education : option string;
  employmentType : option string;
  deadline : option string;
  techStack : option string;
  salary : option string;
  description : option string;
  link : option string;
  views : Z
}.

Record Application := mkApplication {
  app_id : Z;
  app_userId : Z;
  app_jobId : Z;
  resume : option string;
  app_status : string
}.

Record Interview := mkInterview {
  int_id : Z;
  applicationId : Z;
  int_userId : Z;
  interview_date : string;
  interview_status : string;
  feedback : option string
}.

Record JobReview := mkJobReview {
  rev_id : Z;
  rev_jobId : Z;
  rev_userId : Z;
  rating : jsval;
  review_text : jsval
}.

Record User := mkUser {
  usr_id : Z;
  email : string;
  password : string;
  name : string;
  role : string
}.

#[global] Instance Job_model : Model Job := job_id.
#[global] Instance Application_model : Model Application := app_id.
#[global] Instance Interview_model : Model Interview := int_id.
#[global] Instance JobReview_model : Model JobReview := rev_id.
#[global] Instance User_model : Model User := usr_id.

Record Db := mkDb {
  users : table User;
  jobs : table Job;
  applications : table Application;
  interviews : table Interview;
  jobreviews : table JobReview
}.

Definition with_jobs (t : table Job) (db : Db) : Db :=
  mkDb (users db) t (applications db) (interviews db) (jobreviews db).
Definition with_applications (t : table Application) (db : Db) : Db :=
  mkDb (users db) (jobs db) t (interviews db) (jobreviews db).
Definition with_interviews (t : table Interview) (db : Db) : Db :=
  mkDb (users db) (jobs db) (applications db) t (jobreviews db).
Definition with_jobreviews (t : table JobReview) (db : Db) : Db :=
  mkDb (users db) (jobs db) (applications db) (interviews db) t.

(** The identity [authenticateJWT] leaves in [req.user]: the decoded claims
    of the bearer token.  [role] is absent from tokens that carry none. *)
Record AuthUser := mkAuthUser {
  uid : Z;
  urole : option string
}.

(** The two application states. *)
Definition submitted : string := "지원 완료".
Definition withdrawn : string := "지원 취소".
(** The marker the interview update waits for. *)
Definition interview_done : string := "면접 완료".

(** ** Libraries outside the repository

    What the handlers take from Joi, express-validator, Buffer, the ORM's
    column conversion and the language's string-to-number conversion.  The
    handlers are embedded for every choice of these. *)

(** A Number as the comparisons of the handlers see it. *)
Inductive jsnum :=
| Finite (q : Q)
| NaN
| PosInf
| NegInf.

Record Externals := mkExternals {
  (** Joi: [string().uri()] on a non-empty string *)
  uri_ok : string -> bool;
  (** Joi: [date().iso()] *)
  iso_date_ok : jsval -> bool;
  (** Joi: [number()] converting a string *)
  joi_number_of_string : string -> option Q;
  (** Joi: the text of an error for which the schema gives no message *)
  joi_default_message : string -> string -> string;
  (** Sequelize: a value written to a STRING column, which is stored as a
      text or as NULL; [None] when the model layer refuses the value *)
  store_text : jsval -> option (option string);
  (** the database: [column LIKE pattern] *)
  sql_like : option string -> string -> bool;
  (** ToNumber on a string and on an array *)
  string_to_number : string -> jsnum;
  array_to_number : list jsval -> jsnum;
  (** Sequelize and the database: a non-null rating under the model's
      [validate: {min: 1, max: 5}] and the INTEGER column *)
  rating_accepted : jsval -> bool;
  (** the database: the integer an INTEGER column holds for an accepted
      value *)
  integer_column : jsval -> Z;
  (** Sequelize and the database: the instant a DATE column holds for a
      text, as the JSON of the row shows it; [None] when the text is no
      date and the statement fails *)
  date_column : string -> option string;
  (** express-validator: [isEmail()] *)
  is_email : string -> bool;
  (** [Buffer.from(s, 'base64').toString('utf-8')] *)
  base64_decode : string -> string
}.

(** A value written to a STRING or TEXT column.  Sequelize refuses an array
    for such a column before any statement is sent ("cannot be an array or
    an object"); every other value goes through [store_text]. *)
Definition string_column (ext : Externals) (v : jsval) : option (option string) :=
  match v with
  | VArr _ => None
  | _ => store_text ext v
  end.

(** Number of code points of a UTF-8 string. *)
Fixpoint codepoints (s : string) : Z :=
  match s with
  | EmptyString => 0
  | String c rest =>
      let b := Z.of_N (Ascii.N_of_ascii c) in
      (if (128 <=? b) && (b <? 192) then 0 else 1) + codepoints rest
  end.

(** Number of variation selectors U+FE0E and U+FE0F in a UTF-8 string
    (the bytes EF B8 8E and EF B8 8F). *)
Fixpoint selectors (s : string) : Z :=
  match s with
  | EmptyString => 0
  | String c1 rest =>
      match rest with
      | String c2 (String c3 _) =>
          let b c := Z.of_N (Ascii.N_of_ascii c) in
          if (b c1 =? 239) && (b c2 =? 184) && ((b c3 =? 142) || (b c3 =? 143))
          then 1 else 0
      | _ => 0
      end + selectors rest
  end.

(** The length validator.js [isLength] compares with [min]: the length in
    UTF-16 code units less the surrogate pairs and less the variation
    selectors. *)
Definition validator_length (s : string) : Z := codepoints s - selectors s.


(** ** routes/applications *)
Module Applications.

(** Body of POST /applications.  [jobId] is the integer the API documents;
    [None] stands for an absent or null field. *)
Record ApplyBody := mkApplyBody {
  jobId : option Z;
  body_resume : option string
}.

Definition set_status (s : string) (a : Application) : Application :=
  mkApplication (app_id a) (app_userId a) (app_jobId a) (resume a) s.

Definition same_pair (u j : Z) (a : Application) : bool :=
  (app_userId a =? u) && (app_jobId a =? j).

(** [!jobId] *)
Definition missing (jobId_ : option Z) : bool :=
  match jobId_ with
  | None => true
  | Some j => j =? 0
  end.

(** router.post('/').  An application refers to its user and to its
    posting (the model's two [belongsTo]); the posting has been fetched, and
    a caller without a row in the users table is refused by the database,
    which is the exception the handler answers with 500. *)
Definition post (db : Db) (user : AuthUser) (body : ApplyBody)
  : Db * response Application :=
  if missing (jobId body) then (db, error 400 "채용 공고 ID가 필요합니다.")
  else
    let j := default 0 (jobId body) in
    match findByPk j (jobs db) with
    | None => (db, error 404 "해당 채용 공고를 찾을 수 없습니다.")
    | Some _ =>
        match findOne (same_pair (uid user) j) (applications db) with
        | Some existingApplication =>
            if String.eqb (app_status existingApplication) withdrawn then
              (with_applications
                 (update (app_id existingApplication) (set_status submitted)
                         (applications db)) db,
               success 200 (set_status submitted existingApplication))
            else
              (db, error 400 "이미 해당 채용 공고에 지원하셨습니다.")
        | None =>
            if bool_decide (is_Some (findByPk (uid user) (users db))) then
              let '(t, application) :=
                create (fun id => mkApplication id (uid user) j
                                    (body_resume body) submitted)
                       (applications db) in
              (with_applications t db, success 201 application)
            else (db, error 500 "지원 중 오류가 발생했습니다.")
        end
    end.

(** Query string of GET /applications.  A parameter that is absent or
    empty is [None]; a present one is a non-empty string, hence truthy. *)
Record ListQuery := mkListQuery {
  q_status : option string;
  q_jobId : option Z;
  q_userId : option Z
}.

(** The [where] object handed to [findAll]. *)
Record Filter := mkFilter {
  f_status : option string;
  f_jobId : option Z;
  f_userId : option Z
}.

Definition opt_matches {A} (eqb : A -> A -> bool) (o : option A) (x : A) : bool :=
  match o with
  | None => true
  | Some y => eqb x y
  end.

Definition matches (f : Filter) (a : Application) : bool :=
  opt_matches String.eqb (f_status f) (app_status a)
  && opt_matches Z.eqb (f_jobId f) (app_jobId a)
  && opt_matches Z.eqb (f_userId f) (app_userId a).

(** One element of the listing: the application without its [id], the
    joined job's title and company, and, when the [User] model is
    included, the applicant's name and email. *)
Record Listed := mkListed {
  l_userId : Z;
  l_jobId : Z;
  l_resume : string;
  l_status : string;
  l_job : option (option string * option string);
  l_user : option (string * string)
}.

Definition isCompany (user : AuthUser) : bool :=
  match urole user with
  | Some r => String.eqb r "company"
  | None => false
  end.

Definition build_filter (user : AuthUser) (q : ListQuery) : Filter :=
  mkFilter (q_status q) (q_jobId q)
    (if bool_decide (is_Some (q_userId q)) && isCompany user then q_userId q
     else if negb (isCompany user) then Some (uid user)
     else None).

Definition listed (db : Db) (withUser : bool) (a : Application) : Listed :=
  mkListed (app_userId a) (app_jobId a)
    (match resume a with Some "" | None => "미등록" | Some r => r end)
    (app_status a)
    (option_map (fun j => (title j, company j)) (findByPk (app_jobId a) (jobs db)))
    (if withUser
     then option_map (fun u => (name u, email u)) (findByPk (app_userId a) (users db))
     else None).

(** router.get('/'): rows are kept in creation order, so the listing by
    [createdAt] descending is the reversed selection. *)
Definition get_list (db : Db) (user : AuthUser) (q : ListQuery)
  : response (list Listed) :=
  let applications_ := findAll (matches (build_filter user q)) (applications db) in
  success 200 (List.map (listed db (isCompany user)) (List.rev applications_)).

(** router.delete('/:id') *)
Definition delete (db : Db) (user : AuthUser) (id : Z)
  : Db * response Application :=
  let jobId := id in
  match findOne (same_pair (uid user) jobId) (applications db) with
  | None => (db, error 404 "해당 지원 내역을 찾을 수 없습니다.")
  | Some application =>
      if negb (app_userId application =? uid user) then
        (db, error 403 "해당 지원 내역을 취소 할 권한이 없습니다.")
      else
        (with_applications
           (update (app_id application) (set_status withdrawn) (applications db)) db,
         Response 200 "success" (Some "지원이 성공적으로 취소되었습니다.")
                  (Some (set_status withdrawn application)))
  end.

End Applications.

(** ** routes/interviews *)
Module Interviews.

Record CreateBody := mkCreateBody {
  b_applicationId : Z;
  b_interview_date : option string;
  b_feedback : option string
}.

Definition set_feedback (f : option string) (i : Interview) : Interview :=
  mkInterview (int_id i) (applicationId i) (int_userId i)
              (interview_date i) (interview_status i) f.

(** router.get('/') *)
Definition get_list (db : Db) (user : AuthUser) : response (list Interview) :=
  success 200 (findAll (fun _ => true) (interviews db)).

(** router.post('/').  [interview_date] is declared [allowNull: false], so
    a row without it is refused; the DATE column holds the instant the
    text denotes, and a text that is no date fails in the database; the row
    refers to its user (and to its application, which has been fetched).
    Each refusal is the exception the handler answers with 500. *)
Definition post (ext : Externals) (db : Db) (user : AuthUser) (body : CreateBody)
  : Db * response Interview :=
  let userId := uid user in
  match findOne (fun a => (app_id a =? b_applicationId body) && (app_userId a =? userId))
                (applications db) with
  | None => (db, error 403 "본인이 지원한 공고에 대해서만 인터뷰를 작성할 수 있습니다.")
  | Some application =>
      let interview_status := app_status application in
      match b_interview_date body ≫= date_column ext with
      | None => (db, error 500 "인터뷰 생성 중 오류가 발생했습니다.")
      | Some date =>
          if bool_decide (is_Some (findByPk userId (users db))) then
            let '(t, interview) :=
              create (fun id => mkInterview id (b_applicationId body) userId date
                                  interview_status (b_feedback body))
                     (interviews db) in
            (with_interviews t db, success 201 interview)
          else (db, error 500 "인터뷰 생성 중 오류가 발생했습니다.")
      end
  end.

(** The [include] with [required: true]: the interview together with the
    application it points to, when that application exists. *)
Definition joined (db : Db) (i : Interview) : option Application :=
  findByPk (applicationId i) (applications db).

(** router.put('/:applicationId') *)
Definition put (db : Db) (user : AuthUser) (applicationId_ : Z)
               (feedback_ : option string)
  : Db * response Interview :=
  let userId := uid user in
  match findOne (fun i => (applicationId i =? applicationId_)
                          && (int_userId i =? userId)
                          && bool_decide (is_Some (joined db i)))
                (interviews db) with
  | None => (db, error 404 "해당 인터뷰를 찾을 수 없습니다.")
  | Some interview =>
      match joined db interview with
      | None => (db, error 404 "해당 인터뷰를 찾을 수 없습니다.")
      | Some application =>
          if negb (String.eqb (app_status application) interview_done) then
            (db, error 403 "인터뷰 상태가 예정 상태가 아니므로 수정할 수 없습니다.")
          else
            (with_interviews
               (update (int_id interview) (set_feedback feedback_) (interviews db)) db,
             success 200 (set_feedback feedback_ interview))
      end
  end.

(** router.delete('/:id') *)
Definition delete (db : Db) (user : AuthUser) (id : Z)
  : Db * response Interview :=
  match findOne (fun i => (int_id i =? id) && (int_userId i =? uid user))
                (interviews db) with
  | None => (db, error 404 "해당 인터뷰를 찾을 수 없거나 권한이 없습니다.")
  | Some interview =>
      (with_interviews (destroy (int_id interview) (interviews db)) db,
       Response 200 "success" (Some "인터뷰가 삭제되었습니다.") None)
  end.

End Interviews.

(** ** routes/auth and the jsonwebtoken calls *)
Module Auth.

(** A token is what [jwt.sign] produced under some key, or any other
    string.  Signatures are ideal: a token verifies under the key it was
    signed with and under no other. *)
Inductive token :=
| Signed (key : string) (payload : jsobject)
| Malformed (raw : string).

Inductive verify_error :=
| TokenExpiredError
| JsonWebTokenError.

Definition defined (v : jsval) : bool :=
  match v with
  | VUndefined => false
  | _ => true
  end.

(** [jwt.sign(payload, secret, {expiresIn})] at clock [now] (seconds): the
    payload is serialised as JSON, which leaves out the keys whose value is
    [undefined], and receives [iat] and [exp]. *)
Definition sign (payload : jsobject) (secret : string) (expiresIn now : Z) : token :=
  Signed secret
    (<["exp" := VNum (inject_Z (now + expiresIn))]>
       (<["iat" := VNum (inject_Z now)]>
          (filter (fun kv => Is_true (defined kv.2)) payload))).

(** [jwt.verify(token, secret, callback)] at clock [now]. *)
Definition verify (tok : token) (secret : string) (now : Z)
  : verify_error + jsobject :=
  match tok with
  | Malformed _ => inl JsonWebTokenError
  | Signed key payload =>
      if negb (String.eqb key secret) then inl JsonWebTokenError
      else match payload !! "exp" with
           | None => inr payload
           | Some (VNum e) =>
               if Qle_bool e (inject_Z now) then inl TokenExpiredError
               else inr payload
           | Some _ => inl JsonWebTokenError
           end
  end.

Record LoginBody := mkLoginBody {
  l_email : string;
  l_password : string
}.

Record LoginData := mkLoginData {
  accessToken : token;
  refreshToken : token;
  l_user : Z * string * string
}.

(** The claims put in the tokens at login. *)
Definition login_payload (user : User) : jsobject :=
  <["id" := VNum (inject_Z (usr_id user))]>
    (<["email" := VStr (email user)]>
       (<["name" := VStr (name user)]>
          (<["role" := VStr (role user)]> ∅))).

(** router.post('/login') behind validateUserInput and handleValidationErrors *)
Definition login (ext : Externals) (secret : string) (now : Z)
                 (db : Db) (body : LoginBody) : response LoginData :=
  if negb (is_email ext (l_email body) && (6 <=? validator_length (l_password body))) then
    error 400 "입력 값이 유효하지 않습니다."
  else
    match findOne (fun u => String.eqb (email u) (l_email body)) (users db) with
    | None => error 404 "이메일에 해당하는 사용자가 없습니다."
    | Some user =>
        let decodedPassword := base64_decode ext (password user) in
        if negb (String.eqb decodedPassword (l_password body)) then
          error 400 "잘못된 비밀번호입니다."
        else
          let payload := login_payload user in
          success 200
            (mkLoginData (sign payload secret 3600 now)
                         (sign payload secret 604800 now)
                         (usr_id user, email user, name user))
    end.

(** The payload built by the refresh handler from the decoded token. *)
Definition refresh_payload (decoded : jsobject) : jsobject :=
  <["id" := get decoded "id"]>
    (<["email" := get decoded "email"]>
       (<["name" := get decoded "name"]> ∅)).

(** router.post('/refresh').  [None] is an absent or empty
    [refreshToken]. *)
Definition refresh (secret : string) (now : Z) (refreshToken_ : option token)
  : response token :=
  match refreshToken_ with
  | None => error 400 "리프레시 토큰이 필요합니다."
  | Some tok =>
      match verify tok secret now with
      | inl _ => error 403 "유효하지 않은 리프레시 토큰입니다."
      | inr decoded =>
          let payload := refresh_payload decoded in
          let newAccessToken := sign payload secret 3600 now in
          success 200 newAccessToken
      end
  end.

(** middleware/authenticateJWT: the claims a bearer token yields, or the
    status it is refused with. *)
Definition authenticateJWT (secret : string) (now : Z) (authorization : option token)
  : Z + jsobject :=
  match authorization with
  | None => inl 403
  | Some tok =>
      match verify tok secret now with
      | inl TokenExpiredError => inl 401
      | inl JsonWebTokenError => inl 403
      | inr user => inr user
      end
  end.

(** middleware/authenticateJWT: authorizeRoles(roles) on the decoded claims. *)
Definition authorizeRoles (roles : list string) (user : jsobject) : bool :=
  match get user "role" with
  | VStr r => bool_decide (r ∈ roles)
  | _ => false
  end.

End Auth.

(** ** routes/jobs *)
Module Jobs.

(** The placeholder for blank fields. *)
Definition handleEmptyField (field : option string) : string :=
  match field with
  | None | Some "" => "미기제"
  | Some f => f
  end.

(** *** The Joi schema of POST /jobs and PUT /jobs/:id *)

Inductive rule :=
| RString (min : Z) (max : option Z)   (* string().min(n)[.max(m)].required() *)
| RValid (allowed : list string)       (* string().valid(...).required() *)
| RDateIso                             (* date().iso().required() *)
| RStringArray                         (* array().items(string()).min(1).required() *)
| RNumberPositive                      (* number().positive().required() *)
| RStringUri.                          (* string().uri().required() *)

Definition string_base (v : jsval) (k : string -> list string) : list string :=
  match v with
  | VUndefined => ["any.required"]
  | VStr "" => ["string.empty"]
  | VStr s => k s
  | _ => ["string.base"]
  end.

Definition item_errors (v : jsval) : list string :=
  match v with
  | VStr "" => ["string.empty"]
  | VStr _ => []
  | VUndefined => ["array.sparse"]
  | _ => ["string.base"]
  end.

Definition positive_errors (q : Q) : list string :=
  if Qle_bool q 0 then ["number.positive"] else [].

(** The error codes a rule reports on a value ([abortEarly: false]). *)
Definition check (ext : Externals) (r : rule) (v : jsval) : list string :=
  match r with
  | RString min max =>
      string_base v (fun s =>
        (if utf16_length s <? min then ["string.min"] else [])
        ++ match max with
           | Some m => if m <? utf16_length s then ["string.max"] else []
           | None => []
           end)
  | RValid allowed =>
      match v with
      | VUndefined => ["any.required"]
      | VStr s => if bool_decide (s ∈ allowed) then []
                  else "any.only" :: string_base v (fun _ => [])
      | _ => "any.only" :: string_base v (fun _ => [])
      end
  | RDateIso =>
      match v with
      | VUndefined => ["any.required"]
      | _ => if iso_date_ok ext v then [] else ["date.format"]
      end
  | RStringArray =>
      match v with
      | VUndefined => ["any.required"]
      | VArr items =>
          List.concat (List.map item_errors items)
          ++ (if (Z.of_nat (length items) <? 1) then ["array.min"] else [])
      | _ => ["array.base"]
      end
  | RNumberPositive =>
      match v with
      | VUndefined => ["any.required"]
      | VNum q => positive_errors q
      | VStr s => match joi_number_of_string ext s with
                  | Some q => positive_errors q
                  | None => ["number.base"]
                  end
      | _ => ["number.base"]
      end
  | RStringUri =>
      string_base v (fun s => if uri_ok ext s then [] else ["string.uri"])
  end.

Definition text_rule : rule := RString 3 (Some 255).

(** The schema: key, rule, and the messages the source attaches. *)
Definition schema : list (string * rule * list (string * string)) :=
  [ ("title", text_rule,
     [("string.empty", "제목은 필수 항목입니다.");
      ("string.min", "제목은 최소 3자 이상이어야 합니다.");
      ("string.max", "제목은 최대 255자까지 가능합니다.")]);
    ("company", text_rule,
     [("string.empty", "회사명은 필수 항목입니다.");
      ("string.min", "회사명은 최소 3자 이상이어야 합니다.");
      ("string.max", "회사명은 최대 255자까지 가능합니다.")]);
    ("location", text_rule,
     [("string.empty", "위치는 필수 항목입니다.");
      ("string.min", "위치는 최소 3자 이상이어야 합니다.");
      ("string.max", "위치는 최대 255자까지 가능합니다.")]);
    ("experience", text_rule,
     [("string.empty", "경력 요구사항은 필수 항목입니다.");
      ("string.min", "경력 요구사항은 최소 3자 이상이어야 합니다.");
      ("string.max", "경력 요구사항은 최대 255자까지 가능합니다.")]);
    ("education", text_rule,
     [("string.empty", "학력 요구사항은 필수 항목입니다.");
      ("string.min", "학력 요구사항은 최소 3자 이상이어야 합니다.");
      ("string.max", "학력 요구사항은 최대 255자까지 가능합니다.")]);
    ("employmentType", RValid ["full-time"; "part-time"; "contract"; "internship"],
     [("any.only", "고용 형태는 full-time, part-time, contract, internship 중 하나여야 합니다.");
      ("string.empty", "고용 형태는 필수 항목입니다.")]);
    ("deadline", RDateIso,
     [("string.empty", "마감일은 필수 항목입니다.");
      ("date.format", "마감일은 유효한 날짜 형식이어야 합니다.")]);
    ("techStack", RStringArray,
     [("array.min", "기술 스택은 최소 1개 이상이어야 합니다.");
      ("array.base", "기술 스택은 배열 형태여야 합니다.");
      ("string.base", "기술 스택의 각 항목은 문자열이어야 합니다.")]);
    ("salary", RNumberPositive,
     [("number.base", "급여는 숫자여야 합니다.");
      ("number.positive", "급여는 양수여야 합니다.");
      ("any.required", "급여는 필수 항목입니다.")]);
    ("description", RString 10 None,
     [("string.empty", "설명은 필수 항목입니다.");
      ("string.min", "설명은 최소 10자 이상이어야 합니다.")]);
    ("link", RStringUri,
     [("string.uri", "링크는 유효한 URL 형식이어야 합니다.");
      ("string.empty", "링크는 필수 항목입니다.")]) ].

Definition message_of (ext : Externals) (key : string)
           (messages : list (string * string)) (c : string) : string :=
  match List.find (fun m => String.eqb (fst m) c) messages with
  | Some m => snd m
  | None => joi_default_message ext key c
  end.

Definition key_messages (ext : Externals) (body : jsobject)
           (entry : string * rule * list (string * string)) : list string :=
  let '(key, r, messages) := entry in
  List.map (message_of ext key messages) (check ext r (get body key)).

(** Keys of the body the schema does not know are errors of their own. *)
Definition unknown_keys (body : jsobject) : list string :=
  List.filter (fun k => negb (bool_decide (k ∈ List.map (fun e => fst (fst e)) schema)))
              (List.map fst (map_to_list body)).

(** [schema.validate(req.body, {abortEarly: false})] followed by
    [error.details.map(err => err.message)]; the empty list is "no error". *)
Definition validate (ext : Externals) (body : jsobject) : list string :=
  List.concat (List.map (key_messages ext body) schema)
  ++ List.map (fun k => joi_default_message ext k "object.unknown") (unknown_keys body).

(** [errorMessages.join(', ')] *)
Fixpoint join (sep : string) (l : list string) : string :=
  match l with
  | [] => ""
  | [x] => x
  | x :: rest => String.append x (String.append sep (join sep rest))
  end.

(** The row values both handlers take from the body, as a function of the
    key and of the view counter; [None] when a value is refused. *)
Definition job_of_body (ext : Externals) (body : jsobject) : option (Z -> Z -> Job) :=
  let col k := string_column ext (get body k) in
  title_ ← col "title";
  company_ ← col "company";
  location_ ← col "location";
  experience_ ← col "experience";
  education_ ← col "education";
  employmentType_ ← col "employmentType";
  deadline_ ← col "deadline";
  techStack_ ← col "techStack";
  salary_ ← col "salary";
  description_ ← col "description";
  link_ ← col "link";
  Some (fun id views_ =>
          mkJob id title_ company_ location_ experience_ education_
                employmentType_ deadline_ techStack_ salary_ description_
                link_ views_).

(** router.post('/') *)
Definition post (ext : Externals) (db : Db) (user : AuthUser) (body : jsobject)
  : Db * response Job :=
  match validate ext body with
  | (_ :: _) as errorMessages => (db, error 400 (join ", " errorMessages))
  | [] =>
      match job_of_body ext body with
      | None => (db, error 500 "채용 공고 등록 중 오류가 발생했습니다.")
      | Some values =>
          let '(t, newJob) := create (fun id => values id 0) (jobs db) in
          (with_jobs t db, success 201 newJob)
      end
  end.

(** router.put('/:id') *)
Definition put (ext : Externals) (db : Db) (user : AuthUser) (id : Z) (body : jsobject)
  : Db * response Job :=
  match validate ext body with
  | (_ :: _) as errorMessages => (db, error 400 (join ", " errorMessages))
  | [] =>
      match findByPk id (jobs db) with
      | None => (db, error 404 "해당 채용 공고를 찾을 수 없습니다.")
      | Some job =>
          match job_of_body ext body with
          | None => (db, error 500 "채용 공고 수정 중 오류가 발생했습니다.")
          | Some values =>
              let job' := values (job_id job) 0 in
              (with_jobs (update (job_id job) (fun _ => job') (jobs db)) db,
               Response 200 "success" (Some "채용 공고가 성공적으로 수정되었습니다.")
                        (Some job'))
          end
      end
  end.

Definition increment_views (j : Job) : Job :=
  mkJob (job_id j) (title j) (company j) (location j) (experience j)
        (education j) (employmentType j) (deadline j) (techStack j)
        (salary j) (description j) (link j) (views j + 1).

Record Detail := mkDetail {
  d_job : Job;
  relatedJobs : list (Z * string * string * string)
}.

(** The related postings: same company or a tech stack containing the
    posting's, the posting itself left out, five at most. *)
Definition related (ext : Externals) (db : Db) (job : Job) : list Job :=
  let pattern := String.append "%" (String.append (default "null" (techStack job)) "%") in
  firstn 5
    (findAll (fun r => (bool_decide (company r = company job)
                        || sql_like ext (techStack r) pattern)
                       && negb (job_id r =? job_id job))
             (jobs db)).

(** router.get('/:id'); the answer carries the posting as it was read. *)
Definition get_by_id (ext : Externals) (db : Db) (user : AuthUser) (id : Z)
  : Db * response Detail :=
  match findByPk id (jobs db) with
  | None => (db, error 404 "해당 공고를 찾을 수 없습니다.")
  | Some job =>
      let db' := with_jobs (update (job_id job) increment_views (jobs db)) db in
      let relatedJobs_ := related ext db' job in
      let h f := Some (handleEmptyField f) in
      let modifiedJob :=
        mkJob (job_id job) (h (title job)) (h (company job)) (h (location job))
              (h (experience job)) (education job) (employmentType job)
              (deadline job) (h (techStack job)) (h (salary job))
              (h (description job)) (link job) (views job) in
      (db', success 200
              (mkDetail modifiedJob
                 (List.map (fun r => (job_id r, handleEmptyField (title r),
                                      handleEmptyField (company r),
                                      handleEmptyField (deadline r)))
                           relatedJobs_)))
  end.

(** router.delete('/:id') *)
Definition delete (db : Db) (user : AuthUser) (id : Z) : Db * response Job :=
  match findByPk id (jobs db) with
  | None => (db, error 404 "해당 채용 공고를 찾을 수 없습니다.")
  | Some job =>
      (with_jobs (destroy (job_id job) (jobs db)) db,
       Response 200 "success" (Some "채용 공고가 성공적으로 삭제되었습니다.") None)
  end.

End Jobs.

(** ** routes/jobreview *)
Module JobReviews.

Record ReviewBody := mkReviewBody {
  b_jobId : option Z;
  b_review_text : jsval;
  b_rating : jsval
}.

(** ToNumber *)
Definition to_number (ext : Externals) (v : jsval) : jsnum :=
  match v with
  | VUndefined => NaN
  | VNull => Finite 0
  | VBool b => Finite (if b then 1 else 0)
  | VNum q => Finite q
  | VStr s => string_to_number ext s
  | VArr items => array_to_number ext items
  end.

(** [x < y] on Numbers: false as soon as one side is NaN. *)
Definition num_lt (x y : jsnum) : bool :=
  match x, y with
  | NaN, _ | _, NaN => false
  | Finite a, Finite b => negb (Qle_bool b a)
  | NegInf, NegInf => false
  | NegInf, _ => true
  | _, NegInf => false
  | PosInf, _ => false
  | _, PosInf => true
  end.

(** [rating < 1 || rating > 5] *)
Definition rating_out_of_range (ext : Externals) (rating_ : jsval) : bool :=
  num_lt (to_number ext rating_) (Finite 1)
  || num_lt (Finite 5) (to_number ext rating_).

(** [JobReview.create(values)] under the model definition: [jobId] and
    [rating] are [allowNull: false], [rating] is validated, [review_text]
    is a TEXT column, and the row refers to its user and to its posting; a
    refusal is the exception the handler catches.  The instance the call
    returns carries the values as given; the row stored holds what the
    columns make of them. *)
Definition JobReview_create (ext : Externals) (db : Db) (userId : Z) (body : ReviewBody)
  : option (Db * JobReview) :=
  match b_jobId body, b_rating body with
  | None, _ => None
  | _, (VUndefined | VNull) => None
  | Some j, r =>
      if rating_accepted ext r
         && bool_decide (is_Some (findByPk userId (users db)))
         && bool_decide (is_Some (findByPk j (jobs db))) then
        match string_column ext (b_review_text body) with
        | None => None
        | Some text =>
            let id := next_id (jobreviews db) in
            let stored :=
              mkJobReview id j userId (VNum (inject_Z (integer_column ext r)))
                          (from_option VStr VNull text) in
            let newReview := mkJobReview id j userId r (b_review_text body) in
            Some (with_jobreviews (Table (rows (jobreviews db) ++ [stored]) (id + 1)) db,
                  newReview)
        end
      else None
  end.

(** router.post('/') *)
Definition post (ext : Externals) (db : Db) (user : AuthUser) (body : ReviewBody)
  : Db * response JobReview :=
  if rating_out_of_range ext (b_rating body) then
    (db, error 400 "Rating은 1부터 10까지의 숫자여야 합니다.")
  else
    match JobReview_create ext db (uid user) body with
    | Some (db', newReview) => (db', success 201 newReview)
    | None => (db, error 500 "리뷰를 작성하는 중 오류가 발생했습니다.")
    end.

End JobReviews.

(** ** The requests of the system and the states they reach *)

Inductive request :=
| ApplicationsPost (user : AuthUser) (body : Applications.ApplyBody)
| ApplicationsGet (user : AuthUser) (q : Applications.ListQuery)
| ApplicationsDelete (user : AuthUser) (id : Z)
| InterviewsGet (user : AuthUser)
| InterviewsPost (user : AuthUser) (body : Interviews.CreateBody)
| InterviewsPut (user : AuthUser) (applicationId_ : Z) (feedback_ : option string)
| InterviewsDelete (user : AuthUser) (id : Z)
| JobsPost (user : AuthUser) (body : jsobject)
| JobsPut (user : AuthUser) (id : Z) (body : jsobject)
| JobsGetById (user : AuthUser) (id : Z)
| JobsDelete (user : AuthUser) (id : Z)
| JobReviewsPost (user : AuthUser) (body : JobReviews.ReviewBody).

(** The database after a request, and the status code sent. *)
Definition handle (ext : Externals) (db : Db) (r : request) : Db * Z :=
  match r with
  | ApplicationsPost u b => let '(d, res) := Applications.post db u b in (d, code res)
  | ApplicationsGet u q => (db, code (Applications.get_list db u q))
  | ApplicationsDelete u i => let '(d, res) := Applications.delete db u i in (d, code res)
  | InterviewsGet u => (db, code (Interviews.get_list db u))
  | InterviewsPost u b => let '(d, res) := Interviews.post ext db u b in (d, code res)
  | InterviewsPut u a f => let '(d, res) := Interviews.put db u a f in (d, code res)
  | InterviewsDelete u i => let '(d, res) := Interviews.delete db u i in (d, code res)
  | JobsPost u b => let '(d, res) := Jobs.post ext db u b in (d, code res)
  | JobsPut u i b => let '(d, res) := Jobs.put ext db u i b in (d, code res)
  | JobsGetById u i => let '(d, res) := Jobs.get_by_id ext db u i in (d, code res)
  | JobsDelete u i => let '(d, res) := Jobs.delete db u i in (d, code res)
  | JobReviewsPost u b => let '(d, res) := JobReviews.post ext db u b in (d, code res)
  end.

(** Requests served one after the other; the codes are listed in order. *)
Fixpoint run (ext : Externals) (db : Db) (rs : list request) : Db * list Z :=
  match rs with
  | [] => (db, [])
  | r :: rest =>
      let '(db', c) := handle ext db r in
      let '(db'', cs) := run ext db' rest in
      (db'', c :: cs)
  end.

(** The database at first start-up: no application and no interview yet;
    the job catalogue is whatever the crawler seeded. *)
Definition initial (db : Db) : Prop :=
  rows (applications db) = [] /\ rows (interviews db) = [].

Inductive reachable (ext : Externals) : Db -> Prop :=
| reachable_initial db : initial db -> reachable ext db
| reachable_step db r : reachable ext db -> reachable ext (handle ext db r).1.

(** Number of stored applications of user [u] to job [j]. *)
Definition count_pair (u j : Z) (db : Db) : nat :=
  length (findAll (Applications.same_pair u j) (applications db)).

(** ** services/crawl_saramin: the deadline normaliser *)
Module Crawler.

(** A JavaScript string as its UTF-16 code units. *)
Abbreviation jsstring := (list Z).

(** The code units of an ASCII literal. *)
Fixpoint units (s : string) : jsstring :=
  match s with
  | EmptyString => []
  | String c rest => Z.of_N (Ascii.N_of_ascii c) :: units rest
  end.

(** What a call completes with. *)
Inductive completion (A : Type) :=
| Returns (a : A)
| Throws.
Arguments Returns {A} _.
Arguments Throws {A}.

(** *** Regular expressions of the source *)

(** [\d] *)
Definition is_digit (c : Z) : bool := (48 <=? c) && (c <=? 57).

(** [\d+], greedy: the longest run of digits at the head. *)
Fixpoint take_digits (s : jsstring) : jsstring :=
  match s with
  | c :: rest => if is_digit c then c :: take_digits rest else []
  | [] => []
  end.

(** [deadline.match(/D-?(\d+)/)]: group 1 of the leftmost match. *)
Fixpoint match_dday (s : jsstring) : option jsstring :=
  match s with
  | [] => None
  | c :: rest =>
      if c =? 68 then
        let after := match rest with
                     | h :: t => if h =? 45 then t else rest
                     | [] => rest
                     end in
        match take_digits after with
        | [] => match_dday rest
        | ds => Some ds
        end
      else match_dday rest
  end.

(** [.]: any code unit but a line terminator. *)
Definition is_dot (c : Z) : bool :=
  negb ((c =? 10) || (c =? 13) || (c =? 8232) || (c =? 8233)).

(** [/~(\d{2})\.(\d{2})\((.)\)/] tried at the head of the string. *)
Definition date_here (s : jsstring) : option (jsstring * jsstring) :=
  match s with
  | t :: m1 :: m2 :: p :: d1 :: d2 :: l :: w :: r :: _ =>
      if (t =? 126) && is_digit m1 && is_digit m2 && (p =? 46)
         && is_digit d1 && is_digit d2 && (l =? 40) && is_dot w && (r =? 41)
      then Some ([m1; m2], [d1; d2])
      else None
  | _ => None
  end.

(** [deadline.match(/~(\d{2})\.(\d{2})\((.)\)/)]: groups 1 and 2 of the
    leftmost match. *)
Fixpoint match_date (s : jsstring) : option (jsstring * jsstring) :=
  match s with
  | [] => None
  | _ :: rest =>
      match date_here s with
      | Some g => Some g
      | None => match_date rest
      end
  end.

(** [parseInt(digits, 10)] on a run of decimal digits. *)
Definition parseInt (ds : jsstring) : Z :=
  fold_left (fun acc c => 10 * acc + (c - 48)) ds 0.

(** *** Date: time values are milliseconds since the epoch.  Every time
    value in range is an integer a Number holds exactly, so the arithmetic
    is done on Z and [TimeClip] marks what leaves the range. *)

Definition msPerDay : Z := 86400000.
Definition maxTime : Z := 8640000000000000.

Definition Day (t : Z) : Z := t / msPerDay.
Definition TimeWithinDay (t : Z) : Z := t mod msPerDay.

Definition DaysInYear (y : Z) : Z :=
  if negb (y mod 4 =? 0) then 365
  else if negb (y mod 100 =? 0) then 366
  else if negb (y mod 400 =? 0) then 365
  else 366.

Definition DayFromYear (y : Z) : Z :=
  365 * (y - 1970) + (y - 1969) / 4 - (y - 1901) / 100 + (y - 1601) / 400.

(** The largest year whose first day is not after the day of [t]. *)
Definition YearFromTime (t : Z) : Z :=
  let d := Day t in
  let y := 1970 + (400 * d) / 146097 in
  if DayFromYear (y + 1) <=? d then y + 1
  else if DayFromYear y <=? d then y
  else y - 1.

Definition InLeapYear (y : Z) : Z := if DaysInYear y =? 366 then 1 else 0.

Definition DayWithinYear (t : Z) : Z := Day t - DayFromYear (YearFromTime t).

(** Days of a year before month [m] (0 is January). *)
Definition days_before (leap m : Z) : Z :=
  if m <=? 0 then 0
  else if m =? 1 then 31
  else if m =? 2 then 59 + leap
  else if m =? 3 then 90 + leap
  else if m =? 4 then 120 + leap
  else if m =? 5 then 151 + leap
  else if m =? 6 then 181 + leap
  else if m =? 7 then 212 + leap
  else if m =? 8 then 243 + leap
  else if m =? 9 then 273 + leap
  else if m =? 10 then 304 + leap
  else if m =? 11 then 334 + leap
  else 365 + leap.

Definition month_of_day (leap d : Z) : Z :=
  if d <? 31 then 0
  else if d <? 59 + leap then 1
  else if d <? 90 + leap then 2
  else if d <? 120 + leap then 3
  else if d <? 151 + leap then 4
  else if d <? 181 + leap then 5
  else if d <? 212 + leap then 6
  else if d <? 243 + leap then 7
  else if d <? 273 + leap then 8
  else if d <? 304 + leap then 9
  else if d <? 334 + leap then 10
  else 11.

Definition MonthFromTime (t : Z) : Z :=
  month_of_day (InLeapYear (YearFromTime t)) (DayWithinYear t).

Definition DateFromTime (t : Z) : Z :=
  DayWithinYear t
  - days_before (InLeapYear (YearFromTime t)) (MonthFromTime t) + 1.

(** MakeDay(year, month, date): the day number of the first of the month,
    months carried into the year, plus [date - 1]. *)
Definition MakeDay (year month date : Z) : Z :=
  let ym := year + month / 12 in
  let mn := month mod 12 in
  DayFromYear ym + days_before (InLeapYear ym) mn + date - 1.

Definition MakeDate (day time : Z) : Z := day * msPerDay + time.

(** [None] is NaN, the time value of an invalid Date. *)
Definition TimeClip (t : Z) : option Z :=
  if maxTime <? Z.abs t then None else Some t.

Section Zone.
(** LocalTZA(t, isUTC) of ECMA-262: the host's offset from UTC in
    milliseconds, the one in force at the instant [t] when [isUTC] and the
    one in force at the local time [t] otherwise.  It changes where the zone
    has daylight saving time. *)
Variable LocalTZA : Z -> bool -> Z.

Definition LocalTime (t : Z) : Z := t + LocalTZA t true.
Definition UTC (t : Z) : Z := t - LocalTZA t false.

(** [date.getDate()], [date.getFullYear()] on a valid Date. *)
Definition getDate (t : Z) : Z := DateFromTime (LocalTime t).
Definition getFullYear (t : Z) : Z := YearFromTime (LocalTime t).

(** [date.setDate(dt)]: the new time value. *)
Definition setDate (t : Z) (dt : Z) : option Z :=
  let tl := LocalTime t in
  let newDate := MakeDate (MakeDay (YearFromTime tl) (MonthFromTime tl) dt)
                          (TimeWithinDay tl) in
  TimeClip (UTC newDate).

(** [new Date(year, month, day)] *)
Definition Date_ymd (year month day : Z) : option Z :=
  let yr := if (0 <=? year) && (year <=? 99) then 1900 + year else year in
  TimeClip (UTC (MakeDate (MakeDay yr month day) 0)).
End Zone.

(** [k] decimal digits of [n], zero padded. *)
Fixpoint pad (k : nat) (n : Z) : jsstring :=
  match k with
  | O => []
  | S k' => pad k' (n / 10) ++ [48 + n mod 10]
  end.

Definition year_text (y : Z) : jsstring :=
  if (0 <=? y) && (y <=? 9999) then pad 4 y
  else (if y <? 0 then 45 else 43) :: pad 6 (Z.abs y).

(** The calendar date of day number [d] as YYYY-MM-DD. *)
Definition date_text (d : Z) : jsstring :=
  let t := d * msPerDay in
  year_text (YearFromTime t) ++ [45] ++ pad 2 (MonthFromTime t + 1)
  ++ [45] ++ pad 2 (DateFromTime t).

(** [date.toISOString()]: throws a RangeError on an invalid Date. *)
Definition toISOString (tv : option Z) : completion jsstring :=
  match tv with
  | None => Throws
  | Some t =>
      let w := TimeWithinDay t in
      Returns (date_text (Day t) ++ [84]
               ++ pad 2 (w / 3600000) ++ [58] ++ pad 2 (w / 60000 mod 60)
               ++ [58] ++ pad 2 (w / 1000 mod 60) ++ [46] ++ pad 3 (w mod 1000)
               ++ [90])
  end.

(** [s.split('T')[0]] *)
Fixpoint split_T_0 (s : jsstring) : jsstring :=
  match s with
  | [] => []
  | c :: rest => if c =? 84 then [] else c :: split_T_0 rest
  end.

(** formatDeadline(deadline), run at clock reading [now] (a valid time
    value) on a host whose zone offsets are [LocalTZA]. *)
Definition formatDeadline (LocalTZA : Z -> bool -> Z) (now : Z) (deadline : jsstring)
  : completion (option jsstring) :=
  match match_dday deadline with
  | Some g1 =>
      let daysBefore := parseInt g1 in
      let today := setDate LocalTZA now (getDate LocalTZA now - daysBefore) in
      match toISOString today with
      | Throws => Throws
      | Returns iso => Returns (Some (split_T_0 iso))
      end
  | None =>
      match match_date deadline with
      | Some (g1, g2) =>
          let month := parseInt g1 - 1 in
          let day := parseInt g2 in
          let year := getFullYear LocalTZA now in
          let targetDate := Date_ymd LocalTZA year month day in
          match toISOString targetDate with
          | Throws => Throws
          | Returns iso => Returns (Some (split_T_0 iso))
          end
      | None => Returns None
      end
  end.

End Crawler.

(** ** Auxiliary notions of the statements *)

(** The withdrawal as the specification words it: the application is
    fetched by its own key, scoped to the caller.  It is compared with
    [Applications.delete], which is what the route does. *)
Definition withdraw_as_specified (db : Db) (user : AuthUser) (applicationId_ : Z)
  : Db * response Application :=
  match findOne (fun a => (app_id a =? applicationId_) && (app_userId a =? uid user))
                (applications db) with
  | None => (db, error 404 "해당 지원 내역을 찾을 수 없습니다.")
  | Some application =>
      if negb (app_userId application =? uid user) then
        (db, error 403 "해당 지원 내역을 취소 할 권한이 없습니다.")
      else
        (with_applications
           (update (app_id application) (Applications.set_status withdrawn) (applications db)) db,
         Response 200 "success" (Some "지원이 성공적으로 취소되었습니다.")
                  (Some (Applications.set_status withdrawn application)))
  end.

(** The two states of the application lifecycle hold of every stored row. *)
Definition two_states (db : Db) : Prop :=
  Forall (fun a => app_status a = submitted \/ app_status a = withdrawn)
         (rows (applications db)).

(** The claims a token carries. *)
Definition claims (t : option Auth.token) : jsobject :=
  match t with
  | Some (Auth.Signed _ payload) => payload
  | _ => ∅
  end.

(** A link Joi's [string().uri()] accepts. *)
Definition well_formed_link (ext : Externals) (v : jsval) : bool :=
  match v with
  | VStr s => negb (String.eqb s "") && uri_ok ext s
  | _ => false
  end.

(** Days of month [m] (1 is January) in year [y]. *)
Definition DaysInMonth (y m : Z) : Z :=
  Crawler.days_before (Crawler.InLeapYear y) m
  - Crawler.days_before (Crawler.InLeapYear y) (m - 1).

(** A text that holds a countdown: the letter D, a hyphen or none, and at
    least one digit. *)
Definition has_countdown (s : Crawler.jsstring) : Prop :=
  exists p h ds q,
    s = p ++ [68] ++ h ++ ds ++ q /\ (h = [] \/ h = [45])
    /\ ds <> [] /\ forallb Crawler.is_digit ds = true.

(** A text that holds a date: a tilde, two digits, a dot, two digits and
    one character between parentheses. *)
Definition has_date (s : Crawler.jsstring) : Prop :=
  exists p m1 m2 d1 d2 w q,
    s = p ++ [126; m1; m2; 46; d1; d2; 40; w; 41] ++ q
    /\ Crawler.is_digit m1 = true /\ Crawler.is_digit m2 = true
    /\ Crawler.is_digit d1 = true /\ Crawler.is_digit d2 = true
    /\ Crawler.is_dot w = true.

(** ** Base64 on the bytes of a text, for the sample data *)
Module Base64.

Definition byte (c : Ascii.ascii) : Z := Z.of_N (Ascii.N_of_ascii c).
Definition char (z : Z) : Ascii.ascii := Ascii.ascii_of_N (Z.to_N z).

(** The character of a 6-bit value: A-Z, a-z, 0-9, + and /. *)
Definition digit (i : Z) : Ascii.ascii :=
  char (if i <? 26 then 65 + i
        else if i <? 52 then 71 + i
        else if i <? 62 then i - 4
        else if i =? 62 then 43 else 47).

(** The 6-bit value of a character of the alphabet. *)
Definition value (c : Ascii.ascii) : option Z :=
  let b := byte c in
  if (65 <=? b) && (b <=? 90) then Some (b - 65)
  else if (97 <=? b) && (b <=? 122) then Some (b - 71)
  else if (48 <=? b) && (b <=? 57) then Some (b + 4)
  else if b =? 43 then Some 62
  else if b =? 47 then Some 63
  else None.

(** [Buffer.from(s).toString('base64')] *)
Fixpoint encode (s : string) : string :=
  match s with
  | EmptyString => EmptyString
  | String a rest1 =>
      match rest1 with
      | EmptyString =>
          String (digit (byte a / 4)) (String (digit (byte a mod 4 * 16)) "==")
      | String b rest2 =>
          match rest2 with
          | EmptyString =>
              String (digit (byte a / 4))
                (String (digit (byte a mod 4 * 16 + byte b / 16))
                   (String (digit (byte b mod 16 * 4)) "="))
          | String c rest =>
              String (digit (byte a / 4))
                (String (digit (byte a mod 4 * 16 + byte b / 16))
                   (String (digit (byte b mod 16 * 4 + byte c / 64))
                      (String (digit (byte c mod 64)) (encode rest))))
          end
      end
  end.

(** [Buffer.from(s, 'base64').toString()] on a padded text: groups of four
    characters, up to the padding. *)
Fixpoint decode (s : string) : string :=
  match s with
  | String c1 (String c2 (String c3 (String c4 rest))) =>
      match value c1, value c2 with
      | Some i1, Some i2 =>
          String (char (i1 * 4 + i2 / 16))
            match value c3 with
            | Some i3 =>
                String (char (i2 mod 16 * 16 + i3 / 4))
                  match value c4 with
                  | Some i4 => String (char (i3 mod 4 * 64 + i4)) (decode rest)
                  | None => EmptyString
                  end
            | None => EmptyString
            end
      | _, _ => EmptyString
      end
  | _ => EmptyString
  end.

End Base64.

(** ** Sample data *)
Module Samples.
Definition alice : AuthUser := mkAuthUser 1 (Some "user").
Definition bob : AuthUser := mkAuthUser 2 (Some "user").
Definition carol : AuthUser := mkAuthUser 3 (Some "companyuser").
Definition root : AuthUser := mkAuthUser 4 (Some "admin").
Definition dave : AuthUser := mkAuthUser 3 (Some "company").
(** The accounts; the passwords are "secret1", "secret2" and "secret3". *)
Definition user_alice : User := mkUser 1 "alice@example.com" "c2VjcmV0MQ==" "Alice" "user".
Definition user_bob : User := mkUser 2 "bob@example.com" "c2VjcmV0Mg==" "Bob" "user".
Definition user_carol : User := mkUser 3 "carol@acme.kr" "c2VjcmV0Mw==" "Carol" "companyuser".
Definition job7 : Job :=
  mkJob 7 (Some "Backend developer") (Some "Acme") (Some "Seoul") None None None
        None (Some "Node.js") None (Some "Backend developer")
        (Some "https://example.com/7") 0.
Definition job5 : Job :=
  mkJob 5 (Some "Data engineer") (Some "Acme") (Some "Busan") None None None
        None (Some "SQL") None (Some "Data engineer")
        (Some "https://example.com/5") 0.
(** Three accounts and two postings; nobody has applied yet. *)
Definition db0 : Db :=
  mkDb (Table [user_alice; user_bob; user_carol] 4) (Table [job5; job7] 8)
       empty_table empty_table empty_table.
(** Alice's application to posting 7 is the row with key 5. *)
Definition db1 : Db :=
  with_applications (Table [mkApplication 5 1 7 None submitted] 6) db0.

(** The instant of a date in the form YYYY-MM-DD, the one form the sample
    host is given. *)
Definition date_only (s : string) : option string :=
  match Crawler.units s with
  | [y1; y2; y3; y4; 45; m1; m2; 45; d1; d2] =>
      let year := Crawler.parseInt [y1; y2; y3; y4] in
      let month := Crawler.parseInt [m1; m2] in
      let day := Crawler.parseInt [d1; d2] in
      if forallb Crawler.is_digit [y1; y2; y3; y4; m1; m2; d1; d2]
         && (1 <=? month) && (month <=? 12)
         && (1 <=? day) && (day <=? DaysInMonth year month)
      then Some (String.append s "T00:00:00.000Z")
      else None
  | _ => None
  end.

(** One choice of the library functions, enough to run the samples. *)
Definition ext0 : Externals :=
  {| uri_ok := fun s => String.prefix "https://" s;
     iso_date_ok := fun v => match v with VStr _ => true | _ => false end;
     joi_number_of_string := fun _ => None;
     joi_default_message := fun key c => String.append key (String.append ": " c);
     store_text := fun v => Some (match v with VStr s => Some s | _ => None end);
     sql_like := fun _ _ => false;
     string_to_number := fun _ => NaN;
     array_to_number := fun _ => NaN;
     rating_accepted := fun v => match v with VNum _ | VBool _ => true | _ => false end;
     integer_column := fun v => match v with
                                | VNum q => (2 * Qnum q + Zpos (Qden q))
                                            / (2 * Zpos (Qden q))
                                | VBool true => 1
                                | _ => 0
                                end;
     date_column := date_only;
     is_email := fun _ => true;
     base64_decode := Base64.decode |}.

(** Alice has applied to posting 7; Carol is a company user. *)
Definition db2 : Db :=
  mkDb (Table [user_alice; user_carol] 5) (jobs db0)
       (Table [mkApplication 1 1 7 (Some "cv") submitted] 2)
       empty_table empty_table.
Definition of_user_1 : Applications.ListQuery :=
  Applications.mkListQuery None None (Some 1).

Definition secret : string := "s3cr3t".
Definition tokens : Auth.LoginData :=
  Auth.mkLoginData
    (Auth.sign (Auth.login_payload user_carol) secret 3600 1000)
    (Auth.sign (Auth.login_payload user_carol) secret 604800 1000)
    (3, "carol@acme.kr", "Carol").

Definition edit : jsobject :=
  list_to_map
    [("title", VStr "Backend developer (Node.js)");
     ("company", VStr "Acme Corp");
     ("location", VStr "Seoul");
     ("experience", VStr "3 years");
     ("education", VStr "Bachelor");
     ("employmentType", VStr "full-time");
     ("deadline", VStr "2024-12-31");
     ("techStack", VArr [VStr "Node.js"; VStr "MySQL"]);
     ("salary", VNum 5000);
     ("description", VStr "Backend developer wanted");
     ("link", VStr "https://example.com/7")].
Definition bad_link : jsobject := <["link" := VStr "not a link"]> edit.
Definition review (r : jsval) : JobReviews.ReviewBody :=
  JobReviews.mkReviewBody (Some 7) (VStr "good") r.

(** 2024-11-28T03:00:00Z *)
Definition now : Z := 1732762800000.
(** Korea Standard Time, nine hours ahead of UTC all year; Eastern Standard
    Time, five hours behind all year (Panama). *)
Definition KST : Z -> bool -> Z := fun _ _ => 32400000.
Definition EST : Z -> bool -> Z := fun _ _ => -18000000.
(** New York in 2024: four hours behind UTC from 2024-03-10T07:00Z to
    2024-11-03T06:00Z, that is from 02:00 to 02:00 on the local clock, and
    five hours behind otherwise. *)
Definition New_York (t : Z) (isUTC : bool) : Z :=
  let start := 1710054000000 in
  let stop := 1730613600000 in
  if isUTC
  then if (start <=? t) && (t <? stop) then -14400000 else -18000000
  else if (start - 18000000 <=? t) && (t <? stop - 14400000) then -14400000
       else -18000000.
(** "~12.25(수)" and "~02.30(금)" *)
Definition christmas : Crawler.jsstring :=
  Crawler.units "~12.25(" ++ [49688] ++ Crawler.units ")".
Definition feb30 : Crawler.jsstring :=
  Crawler.units "~02.30(" ++ [44552] ++ Crawler.units ")".
End Samples.

(** * Further routes and functions *)

(** ** services/crawl_saramin: validateAndNormalizeJobData *)
Module Normaliser.

(** WhiteSpace and LineTerminator code units, which [trim] strips. *)
Definition is_space (c : Z) : bool :=
  ((9 <=? c) && (c <=? 13)) || (c =? 32) || (c =? 160) || (c =? 5760)
  || ((8192 <=? c) && (c <=? 8202)) || (c =? 8232) || (c =? 8233)
  || (c =? 8239) || (c =? 8287) || (c =? 12288) || (c =? 65279).

Fixpoint trimStart (s : Crawler.jsstring) : Crawler.jsstring :=
  match s with
  | c :: rest => if is_space c then trimStart rest else s
  | [] => []
  end.

(** [s.trim()] *)
Definition trim (s : Crawler.jsstring) : Crawler.jsstring :=
  rev (trimStart (rev (trimStart s))).

(** [s || null] on a string *)
Definition or_null (s : Crawler.jsstring) : option Crawler.jsstring :=
  match s with
  | [] => None
  | _ => Some s
  end.

(** [field?.trim() || null]; [None] is an absent or null field *)
Definition trimmed_or_null (field : option Crawler.jsstring) : option Crawler.jsstring :=
  match field with
  | None => None
  | Some s => or_null (trim s)
  end.

(** [s.split(sep)] for a separator of one code unit. *)
Fixpoint split (sep : Z) (s : Crawler.jsstring) : list Crawler.jsstring :=
  match s with
  | [] => [[]]
  | c :: rest =>
      if c =? sep then [] :: split sep rest
      else match split sep rest with
           | part :: parts => (c :: part) :: parts
           | [] => [[c]]
           end
  end.

(** The record built from one listing item. *)
Record RawJob := mkRawJob {
  raw_title : Crawler.jsstring;
  raw_company : Crawler.jsstring;
  raw_link : Crawler.jsstring;
  raw_location : option Crawler.jsstring;
  raw_education : option Crawler.jsstring;
  raw_career : Crawler.jsstring;
  raw_deadline : Crawler.jsstring;
  raw_techStack : option Crawler.jsstring;
  raw_description : Crawler.jsstring;
  raw_salary : option Crawler.jsstring
}.

Record NormalizedJob := mkNormalizedJob {
  n_title : Crawler.jsstring;
  n_company : Crawler.jsstring;
  n_link : Crawler.jsstring;
  n_location : option Crawler.jsstring;
  n_education : option Crawler.jsstring;
  n_techStack : option Crawler.jsstring;
  n_description : Crawler.jsstring;
  n_salary : option Crawler.jsstring;
  n_experience : option Crawler.jsstring;
  n_employmentType : option Crawler.jsstring;
  n_deadline : option Crawler.jsstring
}.

(** [careerParts[i] || null] *)
Definition part_or_null (parts : list Crawler.jsstring) (i : nat) : option Crawler.jsstring :=
  match nth_error parts i with
  | Some p => or_null p
  | None => None
  end.

(** validateAndNormalizeJobData(rawData), run at clock reading [now] in a
    zone of offsets [LocalTZA].  [Returns None] is the [null] of a record
    that lacks a required field. *)
Definition validateAndNormalizeJobData (LocalTZA : Z -> bool -> Z) (now : Z)
           (rawData : RawJob)
  : Crawler.completion (option NormalizedJob) :=
  match raw_title rawData, raw_company rawData, raw_link rawData with
  | [], _, _ | _, [], _ | _, _, [] => Crawler.Returns None
  | _, _, _ =>
      let careerParts := List.map trim (split 183 (raw_career rawData)) in
      match Crawler.formatDeadline LocalTZA now (raw_deadline rawData) with
      | Crawler.Throws => Crawler.Throws
      | Crawler.Returns deadline_ =>
          Crawler.Returns
            (Some (mkNormalizedJob
                     (trim (raw_title rawData))
                     (trim (raw_company rawData))
                     (trim (raw_link rawData))
                     (trimmed_or_null (raw_location rawData))
                     (trimmed_or_null (raw_education rawData))
                     (trimmed_or_null (raw_techStack rawData))
                     (trim (raw_title rawData))
                     (trimmed_or_null (raw_salary rawData))
                     (part_or_null careerParts 0)
                     (part_or_null careerParts 1)
                     deadline_))
      end
  end.

(** The link of a listing item: ['https://www.saramin.co.kr' + href], where
    an absent [href] is concatenated as the text "undefined". *)
Definition link_of_href (href : option Crawler.jsstring) : Crawler.jsstring :=
  Crawler.units "https://www.saramin.co.kr"
  ++ default (Crawler.units "undefined") href.

End Normaliser.

(** ** routes/auth: register and profile *)
Module Accounts.

Record RegisterBody := mkRegisterBody {
  r_email : string;
  r_password : string;
  r_name : string
}.

(** The data of a 201 answer: id, email, name, role. *)
Definition Registered : Type := Z * string * string * string.

Section Encoding.
(** [Buffer.from(s).toString('base64')] *)
Variable base64_encode : string -> string.

(** The handlers below read and write the users table only, so they are
    given that table.  What the deletion of an account does to the rows of
    other tables that refer to it is the foreign keys' business and is not
    followed here. *)

(** router.post('/register') behind validateUserInput and
    handleValidationErrors.  A field the body lacks is the empty string.
    The row is created with the model's default role. *)
Definition register (ext : Externals) (t : table User) (body : RegisterBody)
  : table User * response Registered :=
  if negb (is_email ext (r_email body) && (6 <=? validator_length (r_password body))) then
    (t, error 400 "입력 값이 유효하지 않습니다.")
  else if String.eqb (r_email body) "" || String.eqb (r_password body) ""
          || String.eqb (r_name body) "" then
    (t, error 400 "이메일, 비밀번호, 이름은 필수 항목입니다.")
  else
    match findOne (fun u => String.eqb (email u) (r_email body)) t with
    | Some _ => (t, error 400 "이미 존재하는 이메일입니다.")
    | None =>
        let hashedPassword := base64_encode (r_password body) in
        let '(t', user) :=
          create (fun id => mkUser id (r_email body) hashedPassword (r_name body) "user")
                 t in
        (t', success 201 (usr_id user, email user, name user, role user))
    end.

(** Body of PUT /auth/profile; [None] is an absent field. *)
Record ProfileBody := mkProfileBody {
  p_email : option string;
  p_name : option string;
  p_password : option string
}.

(** ToBoolean of an optional string field *)
Definition given (field : option string) : bool :=
  match field with
  | Some s => negb (String.eqb s "")
  | None => false
  end.

(** The columns [User.update] sets: a field that is [undefined] is left as
    it is. *)
Definition apply_profile (body : ProfileBody) (u : User) : User :=
  mkUser (usr_id u)
         (default (email u) (p_email body))
         (if given (p_password body)
          then base64_encode (default "" (p_password body))
          else password u)
         (default (name u) (p_name body))
         (role u).

(** router.put('/profile').  The model validates a new email with
    [isEmail] and the table keeps emails unique; an update that breaks
    either is the exception the handler answers with 500. *)
Definition update_profile (ext : Externals) (t : table User) (user : AuthUser)
           (body : ProfileBody)
  : table User * response unit :=
  let userId := uid user in
  if negb (given (p_email body)) && negb (given (p_name body))
     && negb (given (p_password body)) then
    (t, error 400 "수정할 정보를 제공해 주세요.")
  else if match p_email body with
          | Some e => negb (is_email ext e)
          | None => false
          end then
    (t, error 500 "회원 정보 수정 중 오류가 발생했습니다.")
  else
    match findByPk userId t with
    | None => (t, error 404 "사용자 정보를 수정할 수 없습니다.")
    | Some _ =>
        if match p_email body with
           | Some e =>
               bool_decide (is_Some (findOne (fun u => String.eqb (email u) e
                                                       && negb (usr_id u =? userId))
                                             t))
           | None => false
           end then
          (t, error 500 "회원 정보 수정 중 오류가 발생했습니다.")
        else
          (update userId (apply_profile body) t,
           Response 200 "success" (Some "회원 정보가 성공적으로 수정되었습니다.") None)
    end.

(** router.delete('/profile') *)
Definition delete_profile (t : table User) (user : AuthUser)
  : table User * response unit :=
  match findByPk (uid user) t with
  | None => (t, error 404 "사용자를 찾을 수 없거나 삭제할 수 없습니다.")
  | Some _ =>
      (destroy (uid user) t,
       Response 200 "success" (Some "회원 탈퇴가 완료되었습니다.") None)
  end.

(** The requests under /auth that write the users table. *)
Inductive request :=
| Register (body : RegisterBody)
| UpdateProfile (user : AuthUser) (body : ProfileBody)
| DeleteProfile (user : AuthUser).

Definition handle (ext : Externals) (t : table User) (r : request) : table User * Z :=
  match r with
  | Register b => let '(t', res) := register ext t b in (t', code res)
  | UpdateProfile u b => let '(t', res) := update_profile ext t u b in (t', code res)
  | DeleteProfile u => let '(t', res) := delete_profile t u in (t', code res)
  end.

Fixpoint run (ext : Externals) (t : table User) (rs : list request) : table User :=
  match rs with
  | [] => t
  | r :: rest => run ext (handle ext t r).1 rest
  end.
End Encoding.

End Accounts.

(** ** routes/applications: the summary of a posting *)
Module Summary.

Record SummaryData := mkSummaryData {
  companyName : option string;
  entries : list (string * Z)
}.

(** [SELECT status, COUNT(id) ... GROUP BY status] over the selected rows:
    one entry per status that occurs, with the number of its rows.  The
    order of the groups is the database's; here, that of [remove_dups]. *)
Definition group_by_status (selected : list Application) : list (string * Z) :=
  List.map (fun s => (s, Z.of_nat (length (List.filter (fun a => String.eqb (app_status a) s)
                                                         selected))))
           (remove_dups (List.map app_status selected)).

(** authorizeRoles(['companyuser', 'admin']) on [req.user] *)
Definition authorized (user : AuthUser) : bool :=
  match urole user with
  | Some r => bool_decide (r ∈ ["companyuser"; "admin"])
  | None => false
  end.

(** router.get('/job/:jobId/summary') behind authorizeRoles *)
Definition get (db : Db) (user : AuthUser) (jobId : Z) : response SummaryData :=
  if negb (authorized user) then error 403 "권한이 없습니다."
  else
    match findByPk jobId (jobs db) with
    | None => error 403 "해당 공고에 대한 접근 권한이 없습니다."
    | Some job =>
        let applicationSummary :=
          group_by_status (findAll (fun a => app_jobId a =? jobId) (applications db)) in
        success 200 (mkSummaryData (company job) applicationSummary)
    end.

End Summary.

(** ** routes/jobs: the catalogue listing *)
Module Catalog.

(** Query string of GET /jobs.  [page] is [None] when the parameter is
    absent and the integer it spells otherwise; [sortBy] and [sortOrder] are
    [None] when absent; a filter is [None] when absent or empty. *)
Record ListQuery := mkListQuery {
  page : option Z;
  sortBy : option string;
  sortOrder : option string;
  q_location : option string;
  q_experience : option string;
  q_salary : option string;
  q_techStack : option string;
  keyword : option string;
  q_company : option string;
  position : option string
}.

Record ListData := mkListData {
  items : list (Z * string * string * string);
  totalItems : Z;
  totalPages : Z;
  currentPage : Z
}.

Definition pageSize : Z := 20.

(** [`%${s}%`] *)
Definition contains (s : string) : string :=
  String.append "%" (String.append s "%").

Definition like_if (ext : Externals) (param : option string) (wrap : string -> string)
           (column : option string) : bool :=
  match param with
  | Some s => sql_like ext column (wrap s)
  | None => true
  end.

(** The [where] of the listing. *)
Definition matches (ext : Externals) (q : ListQuery) (j : Job) : bool :=
  like_if ext (q_location q) contains (location j)
  && like_if ext (q_experience q) (fun s => s) (experience j)
  && like_if ext (q_salary q) contains (salary j)
  && like_if ext (q_techStack q) contains (techStack j)
  && match keyword q with
     | Some k => sql_like ext (title j) (contains k)
                 || sql_like ext (description j) (contains k)
     | None => true
     end
  && like_if ext (q_company q) contains (company j)
  && like_if ext (position q) contains (description j).

(** [Math.ceil(count / pageSize)] for a count that is not negative *)
Definition ceil_div (count size : Z) : Z := (count + size - 1) / size.

Section Ordering.
(** [ORDER BY sortBy sortOrder] and [LIMIT limit OFFSET offset] as the
    database applies them to the selected rows; [None] when it refuses the
    clause. *)
Variable order_by : string -> string -> list Job -> option (list Job).
Variable limit_offset : Z -> Z -> list Job -> option (list Job).

(** router.get('/') *)
Definition get_list (ext : Externals) (db : Db) (user : AuthUser) (q : ListQuery)
  : response ListData :=
  let page_ := default 1 (page q) in
  let selected := findAll (matches ext q) (jobs db) in
  match sorted ← order_by (default "id" (sortBy q)) (default "ASC" (sortOrder q)) selected;
        limit_offset pageSize ((page_ - 1) * pageSize) sorted with
  | None => error 500 "채용 공고 검색/필터링 중 오류가 발생했습니다."
  | Some rows_ =>
      let count := Z.of_nat (length selected) in
      success 200
        (mkListData
           (List.map (fun job => (job_id job, Jobs.handleEmptyField (title job),
                                  Jobs.handleEmptyField (company job),
                                  Jobs.handleEmptyField (deadline job)))
                     rows_)
           count (ceil_div count pageSize) page_)
  end.
End Ordering.

End Catalog.

(** ** routes/jobreview: the reviews of a posting *)
Module Reviews.

(** router.get('/:jobId') *)
Definition get (db : Db) (user : AuthUser) (jobId : Z) : response (list JobReview) :=
  match findAll (fun r => rev_jobId r =? jobId) (jobreviews db) with
  | [] => error 404 "해당 공고에 대한 리뷰를 찾을 수 없습니다."
  | reviews => success 200 reviews
  end.

End Reviews.

(** ** routes/bookmarks *)
Module Bookmarks.

Record Bookmark := mkBookmark {
  bm_id : Z;
  bm_userId : Z;
  bm_jobId : Z
}.

#[global] Instance Bookmark_model : Model Bookmark := bm_id.

Definition same_pair (u j : Z) (b : Bookmark) : bool :=
  (bm_userId b =? u) && (bm_jobId b =? j).

(** router.post('/'): the bookmark of the caller on the posting is removed
    when there is one and created when there is none.  The bookmarks table
    refers to the users and to the postings (the model's two [belongsTo]);
    a row that refers to neither is refused, which is the exception the
    handler answers with 500. *)
Definition post (db : Db) (t : table Bookmark) (user : AuthUser) (jobId : option Z)
  : table Bookmark * response Bookmark :=
  if Applications.missing jobId then (t, error 400 "채용 공고 ID가 필요합니다.")
  else
    let j := default 0 jobId in
    match findOne (same_pair (uid user) j) t with
    | Some existingBookmark =>
        (destroy (bm_id existingBookmark) t,
         Response 200 "success" (Some "북마크가 제거되었습니다.") None)
    | None =>
        if bool_decide (is_Some (findByPk (uid user) (users db)))
           && bool_decide (is_Some (findByPk j (jobs db))) then
          let '(t', bookmark) := create (fun id => mkBookmark id (uid user) j) t in
          (t', success 201 bookmark)
        else (t, error 500 "북마크 처리 중 오류가 발생했습니다.")
    end.

(** Whether the user has the posting bookmarked. *)
Definition bookmarked (t : table Bookmark) (u j : Z) : bool :=
  bool_decide (is_Some (findOne (same_pair u j) t)).

End Bookmarks.

(** ** routes/companies *)
Module Companies.

Record Company := mkCompany {
  co_id : Z;
  co_name : string;
  co_location : string;
  co_industry : string;
  co_website : option string;
  co_contact_number : Crawler.jsstring
}.

#[global] Instance Company_model : Model Company := co_id.

(** Body of POST /companies; a field the body lacks is [None]. *)
Record CompanyBody := mkCompanyBody {
  c_name : option string;
  c_location : option string;
  c_industry : option string;
  c_website : option string;
  c_contact_number : option Crawler.jsstring
}.

(** [[0-9]{n}] at the head of [s]: what follows the [n] digits. *)
Fixpoint digits (n : nat) (s : Crawler.jsstring) : option Crawler.jsstring :=
  match n, s with
  | O, _ => Some s
  | S n', c :: rest => if (48 <=? c) && (c <=? 57) then digits n' rest else None
  | S _, [] => None
  end.

(** [[0-9]{hi,lo}] followed by the rest of the pattern [k]: the longer run
    is tried first, the shorter one when the rest fails after it. *)
Definition digits_between (counts : list nat) (k : Crawler.jsstring -> bool)
           (s : Crawler.jsstring) : bool :=
  existsb (fun n => match digits n s with
                    | Some rest => k rest
                    | None => false
                    end) counts.

(** [-] followed by the rest of the pattern *)
Definition hyphen (k : Crawler.jsstring -> bool) (s : Crawler.jsstring) : bool :=
  match s with
  | c :: rest => (c =? 45) && k rest
  | [] => false
  end.

(** [$] *)
Definition at_end (s : Crawler.jsstring) : bool :=
  match s with
  | [] => true
  | _ => false
  end.

(** [/^[0-9]{2,3}-[0-9]{3,4}-[0-9]{4}$/.test(s)] *)
Definition contactNumberPattern (s : Crawler.jsstring) : bool :=
  digits_between [3%nat; 2%nat]
    (hyphen (digits_between [4%nat; 3%nat]
       (hyphen (digits_between [4%nat] at_end)))) s.

(** router.post('/') *)
Definition post (t : table Company) (user : AuthUser) (body : CompanyBody)
  : table Company * response Company :=
  if negb (Accounts.given (c_name body)) || negb (Accounts.given (c_location body))
     || negb (Accounts.given (c_industry body))
     || match c_contact_number body with
        | Some (_ :: _) => false
        | _ => true
        end then
    (t, error 400 "모든 필수 값을 입력해 주세요.")
  else
    let contact_number := default [] (c_contact_number body) in
    if negb (contactNumberPattern contact_number) then
      (t, error 400 "전화번호는 000-000-0000나 000-0000-0000 형식이어야 합니다.")
    else
      let '(t', newCompany) :=
        create (fun id => mkCompany id (default "" (c_name body))
                            (default "" (c_location body))
                            (default "" (c_industry body))
                            (c_website body) contact_number) t in
      (t', success 201 newCompany).

(** router.get('/:id') *)
Definition get_by_id (t : table Company) (user : AuthUser) (id : Z) : response Company :=
  match findByPk id t with
  | None => error 404 "해당 회사를 찾을 수 없습니다."
  | Some company_ => success 200 company_
  end.

End Companies.

(** ** Tables whose keys were all handed out by the counter *)

Definition keys_issued {R} `{Model R} (t : table R) : Prop :=
  NoDup (List.map pk (rows t)) /\ Forall (fun r => pk r < next_id t) (rows t).

(** An interview that points to a stored application of its own user and
    records one of the two application states. *)
Definition interview_consistent (db : Db) (i : Interview) : Prop :=
  (exists a, In a (rows (applications db))
             /\ app_id a = applicationId i /\ app_userId a = int_userId i)
  /\ (interview_status i = submitted \/ interview_status i = withdrawn).

(** A string with no white space at either end. *)
Definition trimmed (s : Crawler.jsstring) : Prop :=
  match s with
  | c :: _ => Normaliser.is_space c = false
  | [] => True
  end
  /\ match rev s with
     | c :: _ => Normaliser.is_space c = false
     | [] => True
     end.

(** A field that is null or a non-empty text with no white space at either
    end. *)
Definition null_or_text (field : option Crawler.jsstring) : Prop :=
  match field with
  | None => True
  | Some s => s <> [] /\ trimmed s
  end.

Module MoreSamples.
(** A listing item: "  Backend developer ", career "경력 3년 · 정규직" *)
Definition item : Normaliser.RawJob :=
  Normaliser.mkRawJob
    (Crawler.units "  Backend developer ")
    (Crawler.units "Acme")
    (Normaliser.link_of_href (Some (Crawler.units "/zf_user/jobs/view?rec_idx=1")))
    (Some (Crawler.units " Seoul "))
    (Some (Crawler.units "   "))
    ([44221; 47141; 32; 51; 45380; 32; 183; 32; 51221; 44508; 51649])
    (Crawler.units "D-3")
    None
    (Crawler.units "ignored")
    (Some (Crawler.units ""))
.
(** The same item with a title made of blanks only. *)
Definition blank_title : Normaliser.RawJob :=
  Normaliser.mkRawJob
    (Crawler.units "   ")
    (Normaliser.raw_company item) (Normaliser.raw_link item)
    (Normaliser.raw_location item) (Normaliser.raw_education item)
    (Normaliser.raw_career item) (Normaliser.raw_deadline item)
    (Normaliser.raw_techStack item) (Normaliser.raw_description item)
    (Normaliser.raw_salary item).

(** Carol's login. *)
Definition login_carol : Auth.LoginBody := Auth.mkLoginBody "carol@acme.kr" "secret3".
Definition register_erin : Accounts.RegisterBody :=
  Accounts.mkRegisterBody "erin@example.com" "hunter22" "Erin".
Definition erin : AuthUser := mkAuthUser 5 (Some "user").
End MoreSamples.

(** * Properties *)

(** Closed statements about sample data are settled by running the
    embedding. *)
Ltac by_evaluation :=
  intros;
  repeat match goal with |- _ /\ _ => split end;
  vm_compute; reflexivity.

Ltac div_lia := Z.to_euclidean_division_equations; lia.

Ltac split_tests :=
  repeat match goal with
         | |- context [if ?a <? ?b then _ else _] => destruct (Z.ltb_spec a b)
         | |- context [if ?a <=? ?b then _ else _] => destruct (Z.leb_spec a b)
         | |- context [if ?a =? ?b then _ else _] => destruct (Z.eqb_spec a b)
         end.

(** ** Facts about tables *)

Section TableFacts.
Context {R : Type} `{Model R}.

Lemma find_app_none (p : R -> bool) (l : list R) (x : R) :
  List.find p l = None -> List.find p (l ++ [x]) = (if p x then Some x else None).
Proof.
  induction l as [|y l IH]; simpl; [reflexivity|].
  destruct (p y); [discriminate | exact IH].
Qed.

Lemma find_app_some (p : R -> bool) (l l' : list R) (y : R) :
  List.find p l = Some y -> List.find p (l ++ l') = Some y.
Proof.
  induction l as [|z l IH]; simpl; [discriminate|].
  destruct (p z); [tauto | exact IH].
Qed.

Lemma find_none_filter (p : R -> bool) (l : list R) :
  List.find p l = None <-> List.filter p l = [].
Proof.
  induction l as [|y l IH]; simpl; [tauto|].
  destruct (p y); [split; discriminate | exact IH].
Qed.

(** A column update that leaves the selection condition alone keeps the
    selection, row for row. *)
Lemma find_map_stable (p : R -> bool) (g : R -> R) (l : list R) :
  (forall r, p (g r) = p r) ->
  List.find p (List.map g l) = option_map g (List.find p l).
Proof.
  intros Hg. induction l as [|y l IH]; simpl; [reflexivity|].
  rewrite Hg. destruct (p y); [reflexivity | exact IH].
Qed.

Lemma filter_map_stable (p : R -> bool) (g : R -> R) (l : list R) :
  (forall r, p (g r) = p r) ->
  List.filter p (List.map g l) = List.map g (List.filter p l).
Proof.
  intros Hg. induction l as [|y l IH]; simpl; [reflexivity|].
  rewrite Hg. destruct (p y); simpl; congruence.
Qed.

Lemma findByPk_pk (id : Z) (t : table R) (r : R) :
  findByPk id t = Some r -> pk r = id.
Proof.
  unfold findByPk, findOne. intros Hf.
  apply List.find_some in Hf as [_ Hf]. lia.
Qed.

Lemma findByPk_update (id : Z) (f : R -> R) (t : table R) (r : R) :
  (forall x, pk x = id -> pk (f x) = id) ->
  findByPk id t = Some r -> findByPk id (update id f t) = Some (f r).
Proof.
  intros Hf. unfold findByPk, findOne, update. simpl.
  induction (rows t) as [|y l IH]; simpl; [discriminate|].
  destruct (pk y =? id) eqn:E.
  - intros [= ->]. apply Z.eqb_eq in E. apply Hf in E.
    apply Z.eqb_eq in E. rewrite E. reflexivity.
  - rewrite E. exact IH.
Qed.
End TableFacts.

(** ** Base64: decoding undoes encoding *)

Section Base64Facts.
Import Base64.

Lemma byte_range c : 0 <= byte c < 256.
Proof.
  unfold byte. pose proof (Ascii.N_ascii_bounded c). lia.
Qed.

Lemma char_byte c : char (byte c) = c.
Proof.
  unfold char, byte. rewrite N2Z.id. apply Ascii.ascii_N_embedding.
Qed.

Lemma value_digit i : 0 <= i < 64 -> value (digit i) = Some i.
Proof.
  intros Hi.
  assert (Hall : forallb (fun j => match value (digit j) with
                                   | Some k => k =? j
                                   | None => false
                                   end) (seqZ 0 64) = true)
    by (vm_compute; reflexivity).
  rewrite forallb_forall in Hall.
  assert (Hin : In i (seqZ 0 64)) by (apply list_elem_of_In, elem_of_seqZ; lia).
  apply Hall in Hin. destruct (value (digit i)) as [k|]; [|discriminate].
  f_equal. lia.
Qed.

Lemma value_padding :
  value (Ascii.Ascii true false true true true true false false) = None.
Proof. reflexivity. Qed.

Lemma string_ind3 (P : string -> Prop) :
  P EmptyString ->
  (forall a, P (String a EmptyString)) ->
  (forall a b, P (String a (String b EmptyString))) ->
  (forall a b c s, P s -> P (String a (String b (String c s)))) ->
  forall s, P s.
Proof.
  intros H0 H1 H2 H3 s.
  assert (H : P s /\ (forall a, P (String a s)) /\ (forall a b, P (String a (String b s)))).
  { induction s as [|c s (IH0 & IH1 & IH2)].
    - auto.
    - split; [apply IH1|]. split; [intros a; apply IH2|].
      intros a b. apply H3, IH0. }
  apply H.
Qed.

Lemma decode_encode s : decode (encode s) = s.
Proof.
  induction s as [|a|a b|a b c s IH] using string_ind3.
  - reflexivity.
  - pose proof (byte_range a) as Ha.
    cbn [encode decode].
    rewrite !value_digit by div_lia. rewrite value_padding.
    replace (byte a / 4 * 4 + byte a mod 4 * 16 / 16) with (byte a) by div_lia.
    rewrite char_byte. reflexivity.
  - pose proof (byte_range a) as Ha. pose proof (byte_range b) as Hb.
    cbn [encode decode].
    rewrite !value_digit by div_lia. rewrite value_padding.
    replace (byte a / 4 * 4 + (byte a mod 4 * 16 + byte b / 16) / 16) with (byte a)
      by div_lia.
    replace ((byte a mod 4 * 16 + byte b / 16) mod 16 * 16 + byte b mod 16 * 4 / 4)
      with (byte b) by div_lia.
    rewrite !char_byte. reflexivity.
  - pose proof (byte_range a) as Ha. pose proof (byte_range b) as Hb.
    pose proof (byte_range c) as Hc.
    cbn [encode decode].
    rewrite !value_digit by div_lia.
    replace (byte a / 4 * 4 + (byte a mod 4 * 16 + byte b / 16) / 16) with (byte a)
      by div_lia.
    replace ((byte a mod 4 * 16 + byte b / 16) mod 16 * 16
             + (byte b mod 16 * 4 + byte c / 64) / 4)
      with (byte b) by div_lia.
    replace ((byte b mod 16 * 4 + byte c / 64) mod 4 * 64 + byte c mod 64)
      with (byte c) by div_lia.
    rewrite !char_byte, IH. reflexivity.
Qed.

End Base64Facts.

Section ApplicationFacts.
Import Applications.

(** ** Applications *)

Lemma same_pair_set_status u j s a :
  same_pair u j (set_status s a) = same_pair u j a.
Proof. reflexivity. Qed.

Lemma count_pair_zero u j db :
  count_pair u j db = 0%nat <->
  findOne (same_pair u j) (applications db) = None.
Proof.
  unfold count_pair, findAll, findOne. rewrite find_none_filter.
  split; [apply length_zero_iff_nil | intros ->; reflexivity].
Qed.

Lemma same_pair_update u j id s (t : table Application) :
  findAll (same_pair u j) (update id (set_status s) t)
  = List.map (fun r => if pk r =? id then set_status s r else r)
             (findAll (same_pair u j) t).
Proof.
  unfold findAll, update. simpl. apply filter_map_stable.
  intros r. destruct (pk r =? id); reflexivity.
Qed.

Lemma findOne_pair_update u j id s (t : table Application) :
  findOne (same_pair u j) (update id (set_status s) t)
  = option_map (fun r => if pk r =? id then set_status s r else r)
               (findOne (same_pair u j) t).
Proof.
  unfold findOne, update. simpl. apply find_map_stable.
  intros r. destruct (pk r =? id); reflexivity.
Qed.

Lemma post_jobId_falsy db user body :
  jobId body = None \/ jobId body = Some 0 ->
  post db user body = (db, error 400 "채용 공고 ID가 필요합니다.").
Proof. unfold post. intros [-> | ->]; reflexivity. Qed.

(** The branches of POST /applications once the posting is found. *)
Lemma post_cases db user j r job :
  j <> 0 -> findByPk j (jobs db) = Some job ->
  post db user (mkApplyBody (Some j) r) =
  match findOne (same_pair (uid user) j) (applications db) with
  | Some a =>
      if String.eqb (app_status a) withdrawn then
        (with_applications (update (app_id a) (set_status submitted) (applications db)) db,
         success 200 (set_status submitted a))
      else (db, error 400 "이미 해당 채용 공고에 지원하셨습니다.")
  | None =>
      if bool_decide (is_Some (findByPk (uid user) (users db))) then
        let a := mkApplication (next_id (applications db)) (uid user) j r submitted in
        (with_applications (Table (rows (applications db) ++ [a])
                                  (next_id (applications db) + 1)) db,
         success 201 a)
      else (db, error 500 "지원 중 오류가 발생했습니다.")
  end.
Proof.
  intros Hj Hjob. unfold post. simpl.
  apply Z.eqb_neq in Hj. rewrite Hj, Hjob. reflexivity.
Qed.

(** The row [a] with its state set to "지원 완료", column by column. *)
Lemma set_status_submitted a :
  set_status submitted a
  = mkApplication (app_id a) (app_userId a) (app_jobId a) (resume a) "지원 완료".
Proof. reflexivity. Qed.

(** C1. POST /applications, for a posting that exists.  With no application
    of the caller to it, and the caller's account in the users table, a row
    in state "지원 완료" is appended under the next key and 201 is answered.
    When the caller's application is in state "지원 취소", that row (same
    key, same place, same resume) is stored in state "지원 완료", no other row
    changes, and 200 is answered with the row as stored.  When it is in
    state "지원 완료", 400 is answered and the database is unchanged. *)
Theorem applications_post_transition (db : Db) (user : AuthUser) (j : Z) (r : option string) :
  j <> 0 -> is_Some (findByPk j (jobs db)) ->
  let body := mkApplyBody (Some j) r in
  let u := uid user in
  (count_pair u j db = 0%nat -> is_Some (findByPk u (users db)) ->
   let a := mkApplication (next_id (applications db)) u j r "지원 완료" in
   post db user body
   = (with_applications (Table (rows (applications db) ++ [a])
                               (next_id (applications db) + 1)) db,
      success 201 a))
  /\ (forall a, findOne (same_pair u j) (applications db) = Some a ->
      app_status a = "지원 취소" ->
      let a' := mkApplication (app_id a) u j (resume a) "지원 완료" in
      let flip x :=
        if app_id x =? app_id a
        then mkApplication (app_id x) (app_userId x) (app_jobId x) (resume x) "지원 완료"
        else x in
      let db' := with_applications
                   (Table (List.map flip (rows (applications db)))
                          (next_id (applications db))) db in
      post db user body = (db', success 200 a')
      /\ findOne (same_pair u j) (applications db') = Some a'
      /\ count_pair u j db' = count_pair u j db)
  /\ (forall a, findOne (same_pair u j) (applications db) = Some a ->
      app_status a = "지원 완료" ->
      post db user body = (db, error 400 "이미 해당 채용 공고에 지원하셨습니다.")).
Proof.
  intros Hj [job Hjob] body u. subst body u.
  pose proof (post_cases db user j r job Hj Hjob) as Hpost.
  split; [|split].
  - intros Hc Hu a. apply count_pair_zero in Hc. rewrite Hc in Hpost.
    rewrite (bool_decide_eq_true_2 _ Hu) in Hpost. exact Hpost.
  - intros a Ha Hst a' flip db'. rewrite Ha, Hst in Hpost. simpl in Hpost.
    apply List.find_some in Ha as Hpair. destruct Hpair as [_ Hpair].
    unfold same_pair in Hpair. apply andb_true_iff in Hpair as [Hu Hjb].
    apply Z.eqb_eq in Hu, Hjb.
    assert (Ha' : set_status submitted a = a').
    { subst a'. rewrite set_status_submitted, Hu, Hjb. reflexivity. }
    assert (Hdb' : with_applications
                     (update (app_id a) (set_status submitted) (applications db)) db = db').
    { reflexivity. }
    rewrite Ha', Hdb' in Hpost.
    split; [exact Hpost|]. rewrite <- Hdb', <- Ha'. simpl. split.
    + rewrite findOne_pair_update, Ha. simpl.
      change (pk a) with (app_id a). rewrite Z.eqb_refl. reflexivity.
    + unfold count_pair. simpl. rewrite same_pair_update.
      apply length_map.
  - intros a Ha Hst. rewrite Ha, Hst in Hpost. exact Hpost.
Qed.

Lemma delete_cases db user id :
  Applications.delete db user id =
  match findOne (same_pair (uid user) id) (applications db) with
  | None => (db, error 404 "해당 지원 내역을 찾을 수 없습니다.")
  | Some a =>
      (with_applications (update (app_id a) (set_status withdrawn) (applications db)) db,
       Response 200 "success" (Some "지원이 성공적으로 취소되었습니다.")
                (Some (set_status withdrawn a)))
  end.
Proof.
  unfold Applications.delete.
  destruct (findOne _ _) as [a|] eqn:Ha; [|reflexivity].
  apply List.find_some in Ha as [_ Ha]. unfold same_pair in Ha.
  apply andb_true_iff in Ha as [Hu _]. rewrite Hu. reflexivity.
Qed.

Lemma update_keeps_other_keys (id : Z) (f : Application -> Application)
      (t : table Application) (b : Application) :
  In b (rows t) -> app_id b <> id -> In b (rows (update id f t)).
Proof.
  intros Hin Hne. unfold update. simpl. apply in_map_iff.
  exists b. split; [|exact Hin].
  change (pk b) with (app_id b).
  destruct (app_id b =? id) eqn:E; [lia | reflexivity].
Qed.

Lemma NoDup_pk_eq (l : list Application) (a b : Application) :
  NoDup (List.map app_id l) -> In a l -> In b l -> app_id a = app_id b -> a = b.
Proof.
  induction l as [|x l IH]; simpl; [tauto|].
  intros Hnd [-> | Ha] [-> | Hb] Heq; try reflexivity.
  - apply NoDup_cons in Hnd as [Hx _]. exfalso. apply Hx.
    rewrite Heq. apply list_elem_of_In, in_map, Hb.
  - apply NoDup_cons in Hnd as [Hx _]. exfalso. apply Hx.
    rewrite <- Heq. apply list_elem_of_In, in_map, Ha.
  - apply NoDup_cons in Hnd as [_ Hnd]. eauto.
Qed.

(** What the handler does.  DELETE /applications/:id reads [id] as a
    posting's key: it fetches the caller's application to posting [id]; when
    there is none it answers 404 and changes nothing; otherwise it sets that
    application to "지원 취소" and answers 200.  The 403 branch is never
    taken, and no application of another user is touched. *)
Theorem applications_delete_scoped_by_job (db : Db) (user : AuthUser) (id : Z) :
  NoDup (List.map app_id (rows (applications db))) ->
  let u := uid user in
  match findOne (same_pair u id) (applications db) with
  | None => Applications.delete db user id = (db, error 404 "해당 지원 내역을 찾을 수 없습니다.")
  | Some a =>
      app_userId a = u /\ app_jobId a = id
      /\ Applications.delete db user id
         = (with_applications
              (update (app_id a) (set_status withdrawn) (applications db)) db,
            Response 200 "success" (Some "지원이 성공적으로 취소되었습니다.")
                     (Some (set_status withdrawn a)))
      /\ findByPk (app_id a) (applications (Applications.delete db user id).1)
         = Some (set_status withdrawn a)
  end
  /\ code (Applications.delete db user id).2 <> 403
  /\ (forall b, In b (rows (applications db)) -> app_userId b <> u ->
      In b (rows (applications (Applications.delete db user id).1))).
Proof.
  intros Hnd u. subst u. rewrite delete_cases.
  destruct (findOne _ _) as [a|] eqn:Ha.
  - pose proof Ha as Hfind.
    apply List.find_some in Ha as [Hin Hp]. unfold same_pair in Hp.
    apply andb_true_iff in Hp as [Hu Hj].
    apply Z.eqb_eq in Hu, Hj. simpl.
    split; [|split].
    + repeat split; try assumption.
      assert (Hpk : findByPk (app_id a) (applications db) = Some a).
      { unfold findByPk, findOne.
        destruct (List.find _ _) as [b|] eqn:Hb.
        - apply List.find_some in Hb as [Hbin Hbpk].
          f_equal. apply (NoDup_pk_eq _ _ _ Hnd Hbin Hin).
          change (pk b) with (app_id b) in Hbpk. lia.
        - exfalso. apply (List.find_none _ _ Hb) in Hin.
          change (pk a) with (app_id a) in Hin. lia. }
      apply (findByPk_update (app_id a) (set_status withdrawn)); [auto | exact Hpk].
    + discriminate.
    + intros b Hb Hne. apply update_keeps_other_keys; [exact Hb|].
      intros Heq. apply Hne. rewrite <- Hu. f_equal.
      apply (NoDup_pk_eq _ _ _ Hnd Hb Hin Heq).
  - simpl. split; [reflexivity|]. split; [discriminate | auto].
Qed.

(** C2.  The route's documentation calls [:id] the key of the application
    and lists a 403.  The handler reads it as the key of a posting: the
    application whose key is 5 belongs to the caller, yet DELETE
    /applications/5 answers 404 and leaves it submitted, where fetching by
    application key would withdraw it; DELETE /applications/7, the key of
    the posting, is what withdraws it. *)
Lemma applications_delete_not_by_application_key :
  findByPk 5 (applications Samples.db1) = Some (mkApplication 5 1 7 None "지원 완료")
  /\ code (withdraw_as_specified Samples.db1 Samples.alice 5).2 = 200
  /\ code (Applications.delete Samples.db1 Samples.alice 5).2 = 404
  /\ (Applications.delete Samples.db1 Samples.alice 5).1 = Samples.db1
  /\ code (Applications.delete Samples.db1 Samples.alice 7).2 = 200
  /\ rows (applications (Applications.delete Samples.db1 Samples.alice 7).1)
     = [mkApplication 5 1 7 None "지원 취소"].
Proof. by_evaluation. Qed.

Lemma applications_delete_scoped_by_job_witness :
  NoDup (List.map app_id (rows (applications Samples.db1)))
  /\ code (Applications.delete Samples.db1 Samples.alice 7).2 = 200
  /\ findByPk 5 (applications (Applications.delete Samples.db1 Samples.alice 7).1)
     = Some (mkApplication 5 1 7 None withdrawn).
Proof.
  assert (Hnd : NoDup (List.map app_id (rows (applications Samples.db1)))).
  { simpl. apply NoDup_cons. split; [apply not_elem_of_nil | apply NoDup_nil_2]. }
  split; [exact Hnd|].
  pose proof (applications_delete_scoped_by_job Samples.db1 Samples.alice 7 Hnd) as H.
  simpl in H. destruct H as [[_ [_ [Hd Hf]]] _].
  split; [rewrite Hd; reflexivity | exact Hf].
Defined.

Lemma applications_post_transition_witness :
  7 <> 0 /\ is_Some (findByPk 7 (jobs Samples.db0))
  /\ is_Some (findByPk 1 (users Samples.db0))
  /\ Applications.post Samples.db0 Samples.alice (mkApplyBody (Some 7) None)
     = (with_applications (Table [mkApplication 1 1 7 None "지원 완료"] 2) Samples.db0,
        success 201 (mkApplication 1 1 7 None "지원 완료")).
Proof.
  assert (H7 : 7 <> 0) by lia.
  assert (Hjob : is_Some (findByPk 7 (jobs Samples.db0))) by (eexists; reflexivity).
  assert (Hu : is_Some (findByPk 1 (users Samples.db0))) by (eexists; reflexivity).
  split; [exact H7|]. split; [exact Hjob|]. split; [exact Hu|].
  destruct (applications_post_transition Samples.db0 Samples.alice 7 None H7 Hjob)
    as [Hnew _].
  exact (Hnew eq_refl Hu).
Defined.

(** ** One application per user and posting *)

Lemma applications_with_applications t db :
  applications (with_applications t db) = t.
Proof. reflexivity. Qed.

Lemma count_pair_append u j db a n :
  count_pair u j (with_applications (Table (rows (applications db) ++ [a]) n) db)
  = (count_pair u j db + (if same_pair u j a then 1 else 0))%nat.
Proof.
  unfold count_pair, findAll. simpl. rewrite List.filter_app, length_app. simpl.
  destruct (same_pair u j a); reflexivity.
Qed.

Lemma count_pair_update u j db id s :
  count_pair u j (with_applications (update id (set_status s) (applications db)) db)
  = count_pair u j db.
Proof.
  unfold count_pair. simpl. rewrite same_pair_update. apply length_map.
Qed.

Lemma same_pair_inj u j u' j' a :
  same_pair u j a = true -> same_pair u' j' a = true -> u = u' /\ j = j'.
Proof. unfold same_pair. lia. Qed.

(** What POST /applications can do to the database. *)
Lemma post_effect db user body :
  (Applications.post db user body).1 = db
  \/ (exists id,
        (Applications.post db user body).1
        = with_applications (update id (set_status submitted) (applications db)) db)
  \/ (exists j a,
        findOne (same_pair (uid user) j) (applications db) = None
        /\ app_userId a = uid user /\ app_jobId a = j /\ app_status a = submitted
        /\ (Applications.post db user body).1
           = with_applications (Table (rows (applications db) ++ [a])
                                      (next_id (applications db) + 1)) db).
Proof.
  unfold Applications.post.
  destruct (missing (jobId body)); [left; reflexivity|].
  set (j := default 0 (jobId body)).
  destruct (findByPk j (jobs db)); [|left; reflexivity].
  destruct (findOne _ (applications db)) as [a|] eqn:Ha.
  - destruct (String.eqb (app_status a) withdrawn); [|left; reflexivity].
    right. left. eexists. reflexivity.
  - destruct (bool_decide _); [|left; reflexivity]. right. right.
    exists j, (mkApplication (next_id (applications db)) (uid user) j
                             (body_resume body) submitted).
    split; [exact Ha|]. repeat split.
Qed.

Lemma count_pair_post u j db user body :
  (count_pair u j db <= 1)%nat ->
  (count_pair u j (Applications.post db user body).1 <= 1)%nat.
Proof.
  intros Hc.
  destruct (post_effect db user body) as [-> | [[id ->] | (j' & a & Hnone & Hu & Hj' & _ & ->)]].
  - exact Hc.
  - rewrite count_pair_update. exact Hc.
  - rewrite count_pair_append.
    destruct (same_pair u j a) eqn:E; [|lia].
    unfold same_pair in E. apply andb_true_iff in E as [Eu Ej].
    apply Z.eqb_eq in Eu, Ej.
    assert (Hz : count_pair u j db = 0%nat).
    { apply count_pair_zero. rewrite <- Eu, <- Ej, Hu, Hj'. exact Hnone. }
    rewrite Hz. lia.
Qed.

Lemma count_pair_delete u j db user id :
  count_pair u j (Applications.delete db user id).1 = count_pair u j db.
Proof.
  rewrite delete_cases. destruct (findOne _ _); simpl; [|reflexivity].
  apply count_pair_update.
Qed.

(** What POST /interviews and POST /jobreview do to the database. *)
Lemma interviews_post_effect ext db user body :
  (Interviews.post ext db user body).1 = db
  \/ (exists a date,
        In a (rows (applications db))
        /\ app_id a = Interviews.b_applicationId body /\ app_userId a = uid user
        /\ Interviews.b_interview_date body ≫= date_column ext = Some date
        /\ is_Some (findByPk (uid user) (users db))
        /\ (Interviews.post ext db user body)
           = (with_interviews
                (Table (rows (interviews db)
                        ++ [mkInterview (next_id (interviews db))
                                        (Interviews.b_applicationId body)
                                        (uid user) date (app_status a)
                                        (Interviews.b_feedback body)])
                       (next_id (interviews db) + 1)) db,
              success 201
                (mkInterview (next_id (interviews db)) (Interviews.b_applicationId body)
                             (uid user) date (app_status a)
                             (Interviews.b_feedback body)))).
Proof.
  unfold Interviews.post. cbv zeta.
  destruct (findOne _ (applications db)) as [a|] eqn:Ha; [|left; reflexivity].
  destruct (Interviews.b_interview_date body ≫= date_column ext) as [date|];
    [|left; reflexivity].
  destruct (bool_decide (is_Some _)) eqn:Hu; [|left; reflexivity].
  right. exists a, date.
  apply List.find_some in Ha as [Hin Hc].
  apply andb_true_iff in Hc as [Hid Hus].
  apply bool_decide_eq_true_1 in Hu.
  repeat split; [exact Hin | lia | lia | exact Hu].
Qed.

Lemma jobreviews_post_effect ext db user body :
  (JobReviews.post ext db user body).1 = db
  \/ exists stored,
       (JobReviews.post ext db user body).1
       = with_jobreviews (Table (rows (jobreviews db) ++ [stored])
                                (next_id (jobreviews db) + 1)) db.
Proof.
  unfold JobReviews.post.
  destruct (JobReviews.rating_out_of_range _ _); [left; reflexivity|].
  unfold JobReviews.JobReview_create.
  destruct (JobReviews.b_jobId body); [|left; reflexivity].
  destruct (JobReviews.b_rating body); try (left; reflexivity).
  all: destruct (_ && _ && _); [|left; reflexivity].
  all: destruct (string_column ext _); [|left; reflexivity].
  all: right; eexists; reflexivity.
Qed.

(** The handlers of the other routes leave the applications table alone. *)
Lemma handle_applications ext db r :
  match r with
  | ApplicationsPost _ _ | ApplicationsDelete _ _ => True
  | _ => applications (handle ext db r).1 = applications db
  end.
Proof.
  destruct r; simpl; try exact I; try reflexivity.
  - destruct (interviews_post_effect ext db user body) as [E | (a & d & _ & _ & _ & _ & _ & E)];
      destruct (Interviews.post ext db user body) as [d' res];
      simpl in E; [|injection E as -> _]; subst; reflexivity.
  - unfold Interviews.put.
    destruct (findOne _ _) as [i|]; [|reflexivity].
    destruct (Interviews.joined db i); [|reflexivity].
    destruct (negb _); reflexivity.
  - unfold Interviews.delete. destruct (findOne _ _); reflexivity.
  - unfold Jobs.post. destruct (Jobs.validate ext body); [|reflexivity].
    destruct (Jobs.job_of_body ext body); reflexivity.
  - unfold Jobs.put. destruct (Jobs.validate ext body); [|reflexivity].
    destruct (findByPk id (jobs db)); [|reflexivity].
    destruct (Jobs.job_of_body ext body); reflexivity.
  - unfold Jobs.get_by_id. destruct (findByPk id (jobs db)); reflexivity.
  - unfold Jobs.delete. destruct (findByPk id (jobs db)); reflexivity.
  - destruct (jobreviews_post_effect ext db user body) as [E | [stored E]];
      destruct (JobReviews.post ext db user body) as [d' res];
      simpl in E; subst; reflexivity.
Qed.

Lemma handle_fst_post ext db u b :
  (handle ext db (ApplicationsPost u b)).1 = (Applications.post db u b).1.
Proof. simpl. destruct (Applications.post db u b). reflexivity. Qed.

Lemma handle_fst_delete ext db u i :
  (handle ext db (ApplicationsDelete u i)).1 = (Applications.delete db u i).1.
Proof. simpl. destruct (Applications.delete db u i). reflexivity. Qed.

Lemma count_pair_handle ext u j db r :
  (count_pair u j db <= 1)%nat -> (count_pair u j (handle ext db r).1 <= 1)%nat.
Proof.
  intros Hc. pose proof (handle_applications ext db r) as Hr.
  destruct r;
    try (unfold count_pair in *; rewrite Hr; exact Hc).
  - rewrite handle_fst_post. apply count_pair_post, Hc.
  - rewrite handle_fst_delete, count_pair_delete. exact Hc.
Qed.

Lemma run_cons ext db r rs :
  run ext db (r :: rs)
  = ((run ext (handle ext db r).1 rs).1,
     (handle ext db r).2 :: (run ext (handle ext db r).1 rs).2).
Proof.
  simpl. destruct (handle ext db r) as [d c]. simpl.
  destruct (run ext d rs). reflexivity.
Qed.

Lemma count_pair_run ext u j rs : forall db,
  (count_pair u j db <= 1)%nat -> (count_pair u j (run ext db rs).1 <= 1)%nat.
Proof.
  induction rs as [|r rs IH]; intros db Hc; [exact Hc|].
  rewrite run_cons. simpl. apply IH, count_pair_handle, Hc.
Qed.

(** C3. From a database holding no application of [u] to [j], requests
    served in any number and order leave at most one such application.
    When the posting and the caller's account exist, applying twice answers
    201 then 400 and stores exactly one row; applying, withdrawing and
    applying again answers 201, 200, 200 and stores exactly one row, the
    one created by the first request, back in state "지원 완료". *)
Theorem applications_one_row_per_pair (ext : Externals) (db : Db) (user : AuthUser)
        (j : Z) (r : option string) :
  count_pair (uid user) j db = 0%nat ->
  j <> 0 -> is_Some (findByPk j (jobs db)) ->
  is_Some (findByPk (uid user) (users db)) ->
  let u := uid user in
  let apply := ApplicationsPost user (mkApplyBody (Some j) r) in
  let withdraw := ApplicationsDelete user j in
  let created := mkApplication (next_id (applications db)) u j r "지원 완료" in
  (forall rs, (count_pair u j (run ext db rs).1 <= 1)%nat)
  /\ ((run ext db [apply; apply]).2 = [201; 400]
      /\ findAll (same_pair u j) (applications (run ext db [apply; apply]).1) = [created])
  /\ ((run ext db [apply; withdraw; apply]).2 = [201; 200; 200]
      /\ findAll (same_pair u j) (applications (run ext db [apply; withdraw; apply]).1)
         = [created]).
Proof.
  intros Hc Hj [job Hjob] Hu u apply withdraw created.
  subst u apply withdraw.
  split; [intros rs; apply count_pair_run; rewrite Hc; lia|].
  pose proof Hc as Hnone. apply count_pair_zero in Hnone.
  set (db1 := with_applications (Table (rows (applications db) ++ [created])
                                       (next_id (applications db) + 1)) db).
  assert (H1 : Applications.post db user (mkApplyBody (Some j) r) = (db1, success 201 created)).
  { rewrite (post_cases db user j r job Hj Hjob), Hnone.
    rewrite (bool_decide_eq_true_2 _ Hu). reflexivity. }
  assert (Hpair : same_pair (uid user) j created = true).
  { unfold same_pair, created. simpl. lia. }
  assert (Hall1 : findAll (same_pair (uid user) j) (applications db1) = [created]).
  { unfold findAll, db1. simpl. rewrite List.filter_app. simpl. rewrite Hpair.
    apply find_none_filter in Hnone. rewrite Hnone. reflexivity. }
  assert (Hone1 : findOne (same_pair (uid user) j) (applications db1) = Some created).
  { unfold findOne, db1. simpl. rewrite (find_app_none _ _ _ Hnone).
    rewrite Hpair. reflexivity. }
  assert (Hjob1 : findByPk j (jobs db1) = Some job) by exact Hjob.
  assert (H2 : Applications.post db1 user (mkApplyBody (Some j) r)
               = (db1, error 400 "이미 해당 채용 공고에 지원하셨습니다.")).
  { rewrite (post_cases db1 user j r job Hj Hjob1). rewrite Hone1. reflexivity. }
  split.
  - rewrite !run_cons. simpl run. simpl handle.
    rewrite H1. simpl. rewrite H2. simpl. split; [reflexivity | exact Hall1].
  - set (db2 := with_applications
                  (update (app_id created) (set_status withdrawn) (applications db1)) db1).
    assert (Hd : Applications.delete db1 user j
                 = (db2, Response 200 "success" (Some "지원이 성공적으로 취소되었습니다.")
                                  (Some (set_status withdrawn created)))).
    { rewrite delete_cases. rewrite Hone1. reflexivity. }
    assert (Hone2 : findOne (same_pair (uid user) j) (applications db2)
                    = Some (set_status withdrawn created)).
    { unfold db2. rewrite applications_with_applications.
      rewrite findOne_pair_update, Hone1. simpl.
      rewrite Z.eqb_refl. reflexivity. }
    assert (Hjob2 : findByPk j (jobs db2) = Some job) by exact Hjob.
    set (db3 := with_applications
                  (update (app_id created) (set_status submitted) (applications db2)) db2).
    assert (H3 : Applications.post db2 user (mkApplyBody (Some j) r)
                 = (db3, success 200 created)).
    { rewrite (post_cases db2 user j r job Hj Hjob2). rewrite Hone2. reflexivity. }
    rewrite !run_cons. simpl run. simpl handle.
    rewrite H1. simpl. rewrite Hd. simpl. rewrite H3. simpl.
    split; [reflexivity|].
    rewrite !same_pair_update.
    change (Table (rows (applications db) ++ [created]) (next_id (applications db) + 1))
      with (applications db1).
    rewrite Hall1. simpl.
    rewrite Z.eqb_refl. simpl. rewrite Z.eqb_refl. reflexivity.
Qed.

Lemma applications_one_row_per_pair_witness :
  count_pair 1 7 Samples.db0 = 0%nat /\ 7 <> 0
  /\ is_Some (findByPk 7 (jobs Samples.db0))
  /\ is_Some (findByPk 1 (users Samples.db0))
  /\ forall ext,
      (run ext Samples.db0
           [ApplicationsPost Samples.alice (mkApplyBody (Some 7) None);
            ApplicationsDelete Samples.alice 7;
            ApplicationsPost Samples.alice (mkApplyBody (Some 7) None)]).2
      = [201; 200; 200].
Proof.
  assert (Hc : count_pair (uid Samples.alice) 7 Samples.db0 = 0%nat) by reflexivity.
  assert (H7 : 7 <> 0) by lia.
  assert (Hjob : is_Some (findByPk 7 (jobs Samples.db0))) by (eexists; reflexivity).
  assert (Hu : is_Some (findByPk 1 (users Samples.db0))) by (eexists; reflexivity).
  split; [exact Hc|]. split; [exact H7|]. split; [exact Hjob|]. split; [exact Hu|].
  intros ext.
  exact (proj1 (proj2 (proj2
           (applications_one_row_per_pair ext Samples.db0 Samples.alice 7 None
              Hc H7 Hjob Hu)))).
Defined.

(** ** The states of an application *)

Lemma two_states_update db id s :
  s = submitted \/ s = withdrawn ->
  two_states db ->
  two_states (with_applications (update id (set_status s) (applications db)) db).
Proof.
  intros Hs Hdb. unfold two_states, update. simpl.
  apply Forall_forall. intros x Hx. apply list_elem_of_In, in_map_iff in Hx.
  destruct Hx as [a [<- Ha]].
  destruct (pk a =? id); [exact Hs|].
  unfold two_states in Hdb. rewrite Forall_forall in Hdb.
  apply Hdb, list_elem_of_In, Ha.
Qed.

Lemma two_states_handle ext db r :
  two_states db -> two_states (handle ext db r).1.
Proof.
  intros Hdb. pose proof (handle_applications ext db r) as Hr.
  destruct r; try (unfold two_states in *; rewrite Hr; exact Hdb).
  - rewrite handle_fst_post.
    destruct (post_effect db user body)
      as [-> | [[id ->] | (j' & a & _ & _ & _ & Hst & ->)]].
    + exact Hdb.
    + apply two_states_update; [left; reflexivity | exact Hdb].
    + unfold two_states. simpl. apply Forall_app. split; [exact Hdb|].
      apply Forall_cons. split; [left; exact Hst | apply Forall_nil_2].
  - rewrite handle_fst_delete, delete_cases.
    destruct (findOne _ _); [|exact Hdb].
    apply two_states_update; [right; reflexivity | exact Hdb].
Qed.

Lemma reachable_two_states ext db : reachable ext db -> two_states db.
Proof.
  induction 1 as [db [Happ _] | db r _ IH].
  - unfold two_states. rewrite Happ. apply Forall_nil_2.
  - apply two_states_handle, IH.
Qed.

(** C4. In every state the system reaches from start-up, every stored
    application is in state "지원 완료" or "지원 취소"; hence PUT
    /interviews/:applicationId, which edits the feedback only when the
    linked application's state is "면접 완료", answers 404 or 403 to every
    request and leaves the database, and so every interview's feedback, as
    it was. *)
Theorem interviews_put_never_succeeds (ext : Externals) (db : Db) :
  reachable ext db ->
  Forall (fun a => app_status a = submitted \/ app_status a = withdrawn)
         (rows (applications db))
  /\ forall user applicationId_ feedback_,
      (Interviews.put db user applicationId_ feedback_).1 = db
      /\ (code (Interviews.put db user applicationId_ feedback_).2 = 404
          \/ code (Interviews.put db user applicationId_ feedback_).2 = 403).
Proof.
  intros Hreach. pose proof (reachable_two_states ext db Hreach) as Hinv.
  split; [exact Hinv|].
  intros user applicationId_ feedback_. unfold Interviews.put.
  destruct (findOne _ (interviews db)) as [i|]; [|split; [reflexivity | left; reflexivity]].
  destruct (Interviews.joined db i) as [a|] eqn:Ha;
    [|split; [reflexivity | left; reflexivity]].
  unfold Interviews.joined, findByPk, findOne in Ha.
  apply List.find_some in Ha as [Hin _].
  unfold two_states in Hinv. rewrite Forall_forall in Hinv.
  apply list_elem_of_In, Hinv in Hin.
  destruct Hin as [-> | ->]; simpl; split; auto.
Qed.

Lemma interviews_put_never_succeeds_witness :
  let r1 := ApplicationsPost Samples.alice (mkApplyBody (Some 7) None) in
  let r2 := InterviewsPost Samples.alice
              (Interviews.mkCreateBody 1 (Some "2024-12-20") None) in
  let db := (handle Samples.ext0 (handle Samples.ext0 Samples.db0 r1).1 r2).1 in
  reachable Samples.ext0 db
  /\ rows (interviews db) = [mkInterview 1 1 1 "2024-12-20T00:00:00.000Z" submitted None]
  /\ (Interviews.put db Samples.alice 1 (Some "passed")).1 = db
  /\ (code (Interviews.put db Samples.alice 1 (Some "passed")).2 = 404
      \/ code (Interviews.put db Samples.alice 1 (Some "passed")).2 = 403).
Proof.
  intros r1 r2 db.
  assert (Hreach : reachable Samples.ext0 db).
  { apply reachable_step, reachable_step, reachable_initial. split; reflexivity. }
  split; [exact Hreach|]. split; [reflexivity|].
  exact (proj2 (interviews_put_never_succeeds Samples.ext0 db Hreach)
               Samples.alice 1 (Some "passed")).
Defined.

End ApplicationFacts.

(** ** GET /applications *)

Lemma matches_userId f a :
  Applications.matches f a = true ->
  forall u, Applications.f_userId f = Some u -> app_userId a = u.
Proof.
  unfold Applications.matches. intros Hm u Hu. rewrite Hu in Hm.
  simpl in Hm. lia.
Qed.

(** A caller whose role is not the string "company" is shown applications
    of their own only, each without the applicant's name and email. *)
Lemma applications_list_own_only db user q l :
  Applications.isCompany user = false ->
  data (Applications.get_list db user q) = Some l ->
  Forall (fun x => Applications.l_userId x = uid user
                   /\ Applications.l_user x = None) l.
Proof.
  intros Hc. unfold Applications.get_list. rewrite Hc. simpl. intros [= <-].
  apply Forall_forall. intros x Hx.
  apply list_elem_of_In, in_map_iff in Hx. destruct Hx as [a [<- Ha]].
  apply in_rev, filter_In in Ha. destruct Ha as [_ Hm].
  split; [|reflexivity]. simpl.
  apply (matches_userId _ _ Hm). unfold Applications.build_filter. simpl.
  rewrite Hc. rewrite andb_false_r. reflexivity.
Qed.

(** C5 fails on the code.  A caller whose role is "companyuser" or "admin"
    asks for the applications of user 1: the filter is forced back to the
    caller's own id and the listing is empty, where the caller should have
    received user 1's application with the applicant's name and email.
    Only the role string "company", which the role list of the summary
    route does not contain, opens that branch. *)
Theorem applications_list_companyuser_treated_as_plain :
  Applications.build_filter Samples.carol Samples.of_user_1
  = Applications.mkFilter None None (Some 3)
  /\ Applications.get_list Samples.db2 Samples.carol Samples.of_user_1 = success 200 []
  /\ Applications.get_list Samples.db2 Samples.root Samples.of_user_1 = success 200 []
  /\ Auth.authorizeRoles ["companyuser"; "admin"]
       (<["role" := VStr "companyuser"]> ∅) = true
  /\ Applications.get_list Samples.db2 Samples.dave Samples.of_user_1
     = success 200
         [Applications.mkListed 1 7 "cv" submitted
            (Some (Some "Backend developer", Some "Acme"))
            (Some ("Alice", "alice@example.com"))].
Proof. by_evaluation. Qed.

(** ** POST /auth/refresh *)

Lemma refresh_valid secret now tok decoded :
  Auth.verify tok secret now = inr decoded ->
  Auth.refresh secret now (Some tok)
  = success 200 (Auth.sign (Auth.refresh_payload decoded) secret 3600 now).
Proof. intros Hv. unfold Auth.refresh. rewrite Hv. reflexivity. Qed.

Lemma refresh_invalid secret now tok e :
  Auth.verify tok secret now = inl e ->
  Auth.refresh secret now (Some tok)
  = error 403 "유효하지 않은 리프레시 토큰입니다.".
Proof. intros Hv. unfold Auth.refresh. rewrite Hv. reflexivity. Qed.

(** The serialised payload of a refreshed token never has a role. *)
Lemma refreshed_payload_has_no_role decoded secret now :
  claims (Some (Auth.sign (Auth.refresh_payload decoded) secret 3600 now)) !! "role"
  = None.
Proof.
  unfold Auth.sign, claims.
  rewrite lookup_insert_ne by discriminate.
  rewrite lookup_insert_ne by discriminate.
  apply map_lookup_filter_None. left.
  unfold Auth.refresh_payload.
  rewrite !lookup_insert_ne by discriminate. apply lookup_empty.
Qed.

(** C6 fails on the code.  Carol, a company user, logs in at time 1000 and
    refreshes at time 2000 with the refresh token she received.  The token
    issued at login carries id, email, name and role; the access token the
    refresh issues carries id, email and name only, and the role check that
    accepted the first token refuses the second. *)
Theorem refresh_drops_role :
  let refreshToken := Auth.refreshToken Samples.tokens in
  let answer := Auth.refresh Samples.secret 2000 (Some refreshToken) in
  let old := claims (Some refreshToken) in
  let new := claims (data answer) in
  code answer = 200
  /\ old !! "role" = Some (VStr "companyuser")
  /\ new !! "role" = None
  /\ new !! "id" = old !! "id"
  /\ new !! "email" = old !! "email"
  /\ new !! "name" = old !! "name"
  /\ Auth.authorizeRoles ["companyuser"; "admin"] old = true
  /\ Auth.authorizeRoles ["companyuser"; "admin"] new = false.
Proof. by_evaluation. Qed.

(** ** Jobs: the view counter *)

Lemma get_by_id_found ext db user id job :
  findByPk id (jobs db) = Some job ->
  (Jobs.get_by_id ext db user id).1
  = with_jobs (update id Jobs.increment_views (jobs db)) db
  /\ code (Jobs.get_by_id ext db user id).2 = 200.
Proof.
  intros Hf. unfold Jobs.get_by_id. rewrite Hf. simpl.
  apply findByPk_pk in Hf. change (pk job) with (job_id job) in Hf.
  rewrite Hf. split; reflexivity.
Qed.

(** A body without error satisfies every rule of the schema. *)
Lemma validate_check ext body key r msgs :
  In (key, r, msgs) Jobs.schema -> Jobs.validate ext body = [] ->
  Jobs.check ext r (get body key) = [].
Proof.
  intros Hin Hv.
  destruct (Jobs.check ext r (get body key)) as [|c cs] eqn:Hc; [reflexivity|].
  exfalso.
  assert (Hm : In (Jobs.message_of ext key msgs c) (Jobs.validate ext body)).
  { unfold Jobs.validate. apply in_app_iff. left. apply in_concat.
    exists (Jobs.key_messages ext body (key, r, msgs)). split.
    - apply in_map, Hin.
    - unfold Jobs.key_messages. rewrite Hc. left. reflexivity. }
  rewrite Hv in Hm. exact Hm.
Qed.

(** The schema lets the tech stack through only as an array. *)
Lemma validate_techStack ext body :
  Jobs.validate ext body = [] -> exists items, get body "techStack" = VArr items.
Proof.
  intros Hv.
  assert (Hc : Jobs.check ext Jobs.RStringArray (get body "techStack") = []).
  { eapply validate_check; [|exact Hv]. unfold Jobs.schema.
    do 7 right. left. reflexivity. }
  unfold Jobs.check in Hc.
  destruct (get body "techStack") as [| | | | |items]; try discriminate.
  exists items. reflexivity.
Qed.

(** The model layer takes no array for the techStack column, so no row is
    built from a body whose tech stack is one. *)
Lemma job_of_body_array ext body items :
  get body "techStack" = VArr items -> Jobs.job_of_body ext body = None.
Proof.
  intros Ht. unfold Jobs.job_of_body. rewrite Ht.
  destruct (string_column ext (get body "title")); [|reflexivity].
  destruct (string_column ext (get body "company")); [|reflexivity].
  destruct (string_column ext (get body "location")); [|reflexivity].
  destruct (string_column ext (get body "experience")); [|reflexivity].
  destruct (string_column ext (get body "education")); [|reflexivity].
  destruct (string_column ext (get body "employmentType")); [|reflexivity].
  destruct (string_column ext (get body "deadline")); reflexivity.
Qed.

(** Every answer of PUT /jobs/:id, with the database as it was. *)
Lemma put_cases ext db user id body :
  Jobs.put ext db user id body
  = match Jobs.validate ext body with
    | [] =>
        match findByPk id (jobs db) with
        | None => (db, error 404 "해당 채용 공고를 찾을 수 없습니다.")
        | Some _ => (db, error 500 "채용 공고 수정 중 오류가 발생했습니다.")
        end
    | errorMessages => (db, error 400 (Jobs.join ", " errorMessages))
    end.
Proof.
  unfold Jobs.put. destruct (Jobs.validate ext body) eqn:Hv; [|reflexivity].
  destruct (findByPk id (jobs db)); [|reflexivity].
  destruct (validate_techStack ext body Hv) as [items Ht].
  rewrite (job_of_body_array ext body items Ht). reflexivity.
Qed.



(** ** Validation *)

Lemma check_link ext v :
  well_formed_link ext v = false -> Jobs.check ext Jobs.RStringUri v <> [].
Proof.
  unfold well_formed_link, Jobs.check, Jobs.string_base.
  destruct v as [| | | |s|]; try discriminate.
  destruct s as [|c s]; [discriminate|]. simpl.
  intros ->. discriminate.
Qed.

Lemma validate_link ext body :
  well_formed_link ext (get body "link") = false -> Jobs.validate ext body <> [].
Proof.
  intros Hl Hv. apply check_link in Hl.
  destruct (Jobs.check ext Jobs.RStringUri (get body "link")) as [|c cs] eqn:Hc;
    [congruence|].
  assert (Hin : In (Jobs.message_of ext "link"
                      [("string.uri", "링크는 유효한 URL 형식이어야 합니다.");
                       ("string.empty", "링크는 필수 항목입니다.")] c)
                   (Jobs.validate ext body)).
  { unfold Jobs.validate. apply in_app_iff. left. apply in_concat.
    eexists. split.
    - apply in_map. unfold Jobs.schema.
      do 10 right. left. reflexivity.
    - unfold Jobs.key_messages. rewrite Hc. left. reflexivity. }
  rewrite Hv in Hin. exact Hin.
Qed.

Lemma rating_number_out_of_range ext q :
  (q < 1 \/ 5 < q)%Q -> JobReviews.rating_out_of_range ext (VNum q) = true.
Proof.
  unfold JobReviews.rating_out_of_range, JobReviews.to_number, JobReviews.num_lt.
  intros [H | H]; apply orb_true_iff; [left | right]; apply negb_true_iff;
    apply not_true_is_false; rewrite Qle_bool_iff; apply Qlt_not_le; exact H.
Qed.

(** C8. POST /jobs with a link that is not a well-formed URI answers 400,
    and POST /jobreviews with a number below 1 or above 5 as rating answers
    400; in both cases the database is left as it was, no row created. *)
Theorem invalid_input_rejected (ext : Externals) (db : Db) (user : AuthUser) :
  (forall body, well_formed_link ext (get body "link") = false ->
     (Jobs.post ext db user body).1 = db
     /\ code (Jobs.post ext db user body).2 = 400)
  /\ (forall body q, JobReviews.b_rating body = VNum q -> (q < 1 \/ 5 < q)%Q ->
     JobReviews.post ext db user body
     = (db, error 400 "Rating은 1부터 10까지의 숫자여야 합니다.")).
Proof.
  split.
  - intros body Hl. apply validate_link in Hl. unfold Jobs.post.
    destruct (Jobs.validate ext body); [congruence|]. split; reflexivity.
  - intros body q Hr Hq. unfold JobReviews.post.
    rewrite Hr, (rating_number_out_of_range ext q Hq). reflexivity.
Qed.

Lemma invalid_input_rejected_witness :
  well_formed_link Samples.ext0 (get Samples.bad_link "link") = false
  /\ (6 < 1 \/ 5 < 6)%Q
  /\ Jobs.validate Samples.ext0 Samples.edit = []
  /\ (Jobs.post Samples.ext0 Samples.db0 Samples.alice Samples.bad_link).1 = Samples.db0
  /\ code (Jobs.post Samples.ext0 Samples.db0 Samples.alice Samples.bad_link).2 = 400
  /\ JobReviews.post Samples.ext0 Samples.db0 Samples.alice (Samples.review (VNum 6))
     = (Samples.db0, error 400 "Rating은 1부터 10까지의 숫자여야 합니다.").
Proof.
  assert (Hl : well_formed_link Samples.ext0 (get Samples.bad_link "link") = false)
    by (vm_compute; reflexivity).
  assert (Hq : (6 < 1 \/ 5 < 6)%Q) by (right; reflexivity).
  split; [exact Hl|]. split; [exact Hq|]. split; [vm_compute; reflexivity|].
  destruct (invalid_input_rejected Samples.ext0 Samples.db0 Samples.alice) as [Hjob Hrev].
  destruct (Hjob Samples.bad_link Hl) as [Hdb Hcode].
  split; [exact Hdb|]. split; [exact Hcode|].
  exact (Hrev (Samples.review (VNum 6)) 6%Q eq_refl Hq).
Defined.

(** C10. A review whose rating is absent passes the range guard of POST
    /jobreviews: neither [rating < 1] nor [rating > 5] holds of
    [undefined], the handler does not answer 400, and what it answers is
    the outcome of [JobReview.create] (which the model's [allowNull: false]
    on [rating] turns into the 500 of the [catch] branch). *)
Theorem missing_rating_passes_guard (ext : Externals) (db : Db) (user : AuthUser)
        (body : JobReviews.ReviewBody) :
  JobReviews.b_rating body = VUndefined ->
  JobReviews.rating_out_of_range ext (JobReviews.b_rating body) = false
  /\ JobReviews.post ext db user body
     = match JobReviews.JobReview_create ext db (uid user) body with
       | Some (db', newReview) => (db', success 201 newReview)
       | None => (db, error 500 "리뷰를 작성하는 중 오류가 발생했습니다.")
       end
  /\ code (JobReviews.post ext db user body).2 <> 400.
Proof.
  intros Hr. unfold JobReviews.post. rewrite Hr. simpl.
  split; [reflexivity|]. split; [reflexivity|].
  unfold JobReviews.JobReview_create. rewrite Hr.
  destruct (JobReviews.b_jobId body); simpl; discriminate.
Qed.

Lemma missing_rating_passes_guard_witness :
  JobReviews.b_rating (Samples.review VUndefined) = VUndefined
  /\ code (JobReviews.post Samples.ext0 Samples.db0 Samples.alice
             (Samples.review VUndefined)).2 <> 400.
Proof.
  split; [reflexivity|].
  exact (proj2 (proj2 (missing_rating_passes_guard Samples.ext0 Samples.db0 Samples.alice
                         (Samples.review VUndefined) eq_refl))).
Defined.

Section CrawlerFacts.
Import Crawler.

(** ** The deadline normaliser *)

Lemma is_digit_range c : is_digit c = true <-> 48 <= c <= 57.
Proof. unfold is_digit. lia. Qed.

Lemma take_digits_all ds : forallb is_digit ds = true -> take_digits ds = ds.
Proof.
  induction ds as [|c ds IH]; simpl; [reflexivity|].
  intros H. apply andb_true_iff in H as [Hc Hds].
  rewrite Hc, IH by exact Hds. reflexivity.
Qed.

Lemma match_dday_countdown ds :
  ds <> [] -> forallb is_digit ds = true ->
  match_dday (units "D-" ++ ds) = Some ds.
Proof.
  intros Hne Hds. simpl. rewrite (take_digits_all ds Hds).
  destruct ds; [congruence | reflexivity].
Qed.

(** *** Calendar arithmetic *)

Lemma DayFromYear_bounds y :
  146097 * (y - 1970) - 800 <= 400 * DayFromYear y <= 146097 * (y - 1970) + 800.
Proof. unfold DayFromYear. div_lia. Qed.

Lemma DayFromYear_mono y y' :
  y <= y' -> DayFromYear y + 365 * (y' - y) <= DayFromYear y'.
Proof. unfold DayFromYear. div_lia. Qed.

Lemma DayFromYear_next y : DayFromYear (y + 1) = DayFromYear y + DaysInYear y.
Proof.
  unfold DayFromYear, DaysInYear.
  destruct (Z.eqb_spec (y mod 4) 0), (Z.eqb_spec (y mod 100) 0),
           (Z.eqb_spec (y mod 400) 0); simpl; div_lia.
Qed.

Lemma InLeapYear_days y : DaysInYear y = 365 + InLeapYear y.
Proof.
  unfold InLeapYear, DaysInYear.
  destruct (negb (y mod 4 =? 0)), (negb (y mod 100 =? 0)), (negb (y mod 400 =? 0));
    reflexivity.
Qed.

Lemma InLeapYear_range y : InLeapYear y = 0 \/ InLeapYear y = 1.
Proof. unfold InLeapYear. destruct (DaysInYear y =? 366); auto. Qed.

Lemma Day_of_day d r : 0 <= r < msPerDay -> Day (d * msPerDay + r) = d.
Proof. unfold Day, msPerDay. intros Hr. div_lia. Qed.

(** [YearFromTime] is the year whose days contain the day of [t]. *)
Lemma YearFromTime_spec d y r :
  DayFromYear y <= d < DayFromYear (y + 1) -> 0 <= r < msPerDay ->
  YearFromTime (d * msPerDay + r) = y.
Proof.
  intros Hd Hr. unfold YearFromTime. rewrite (Day_of_day d r Hr).
  set (y0 := 1970 + 400 * d / 146097).
  pose proof (DayFromYear_bounds y) as B1.
  pose proof (DayFromYear_bounds (y + 1)) as B2.
  assert (Hy0 : y - 1 <= y0 <= y + 1) by (unfold y0; div_lia).
  destruct (Z.leb_spec (DayFromYear (y0 + 1)) d) as [H1|H1].
  - pose proof (DayFromYear_mono (y + 1) (y0 + 1)). lia.
  - destruct (Z.leb_spec (DayFromYear y0) d) as [H2|H2].
    + pose proof (DayFromYear_mono (y0 + 1) y).
      pose proof (DayFromYear_mono (y + 1) y0). lia.
    + pose proof (DayFromYear_mono y0 y). lia.
Qed.

Lemma month_of_day_range leap d : 0 <= month_of_day leap d <= 11.
Proof. unfold month_of_day. split_tests; lia. Qed.

Lemma month_of_day_days_before leap m day :
  (leap = 0 \/ leap = 1) -> 0 <= m <= 11 ->
  1 <= day <= days_before leap (m + 1) - days_before leap m ->
  month_of_day leap (days_before leap m + day - 1) = m
  /\ 0 <= days_before leap m + day - 1 < 365 + leap.
Proof.
  intros Hl Hm. 
  assert (Hcases : m = 0 \/ m = 1 \/ m = 2 \/ m = 3 \/ m = 4 \/ m = 5 \/ m = 6
                   \/ m = 7 \/ m = 8 \/ m = 9 \/ m = 10 \/ m = 11) by lia.
  destruct Hl as [-> | ->];
    repeat (destruct Hcases as [-> | Hcases]); try subst m;
    unfold days_before, month_of_day; simpl; intros Hday; split_tests; lia.
Qed.

(** Setting the day of the month to today's minus [n] moves the date back
    by [n] days. *)
Lemma MakeDay_back t n :
  MakeDay (YearFromTime t) (MonthFromTime t) (DateFromTime t - n) = Day t - n.
Proof.
  unfold MakeDay, DateFromTime, DayWithinYear.
  pose proof (month_of_day_range (InLeapYear (YearFromTime t))
                (Day t - DayFromYear (YearFromTime t))) as Hm.
  fold (DayWithinYear t) in Hm. fold (MonthFromTime t) in Hm.
  rewrite Z.div_small, Z.mod_small, Z.add_0_r by lia.
  unfold DayWithinYear. lia.
Qed.

Lemma setDate_back tza now n :
  let target := now + tza now true - n * msPerDay in
  Z.abs (target - tza target false) <= maxTime ->
  setDate tza now (getDate tza now - n) = Some (target - tza target false).
Proof.
  intros target Hrange. unfold setDate, getDate, TimeClip, UTC, MakeDate.
  rewrite MakeDay_back.
  replace ((Day (LocalTime tza now) - n) * msPerDay + TimeWithinDay (LocalTime tza now))
    with target
    by (unfold target, Day, TimeWithinDay, LocalTime, msPerDay; div_lia).
  destruct (Z.ltb_spec maxTime (Z.abs (target - tza target false))); [lia | reflexivity].
Qed.

(** *** The text of a date *)

Lemma pad_digits k n : Forall (fun c => 48 <= c <= 57) (pad k n).
Proof.
  revert n. induction k as [|k IH]; intros n; simpl; [apply Forall_nil_2|].
  apply Forall_app. split; [apply IH|].
  apply Forall_cons. split; [div_lia | apply Forall_nil_2].
Qed.

Lemma year_text_no_T y : Forall (fun c => c <> 84) (year_text y).
Proof.
  assert (Hpad : forall k n, Forall (fun c => c <> 84) (pad k n)).
  { intros k n. eapply Forall_impl; [apply pad_digits|]. simpl. lia. }
  unfold year_text. destruct ((0 <=? y) && (y <=? 9999)); [apply Hpad|].
  apply Forall_cons. split; [destruct (y <? 0); lia | apply Hpad].
Qed.

Lemma date_text_no_T d : Forall (fun c => c <> 84) (date_text d).
Proof.
  assert (Hpad : forall k n, Forall (fun c => c <> 84) (pad k n)).
  { intros k n. eapply Forall_impl; [apply pad_digits|]. simpl. lia. }
  unfold date_text.
  apply Forall_app. split; [apply year_text_no_T|].
  apply Forall_cons. split; [lia|].
  apply Forall_app. split; [apply Hpad|].
  apply Forall_cons. split; [lia | apply Hpad].
Qed.

Lemma split_T_0_app l rest :
  Forall (fun c => c <> 84) l -> split_T_0 (l ++ 84 :: rest) = l.
Proof.
  induction l as [|c l IH]; simpl; intros Hl; [reflexivity|].
  apply Forall_cons in Hl as [Hc Hl].
  destruct (Z.eqb_spec c 84); [contradiction|]. rewrite IH by exact Hl. reflexivity.
Qed.

Lemma date_of_ISO t :
  match toISOString (Some t) with
  | Returns iso => split_T_0 iso = date_text (Day t)
  | Throws => False
  end.
Proof.
  unfold toISOString.
  apply (split_T_0_app (date_text (Day t))), date_text_no_T.
Qed.

Lemma pad_two a b :
  0 <= a <= 9 -> 0 <= b <= 9 -> pad 2 (10 * a + b) = [48 + a; 48 + b].
Proof.
  intros Ha Hb. simpl.
  replace ((10 * a + b) / 10) with a by div_lia.
  replace (a mod 10) with a by div_lia.
  replace ((10 * a + b) mod 10) with b by div_lia.
  reflexivity.
Qed.

Lemma parseInt_two a b : parseInt [a; b] = 10 * (a - 48) + (b - 48).
Proof. unfold parseInt. simpl. lia. Qed.

(** The day number of a date of the calendar reads back as that date. *)
Lemma date_text_MakeDay y m day :
  0 <= y <= 9999 -> 1 <= m <= 12 -> 1 <= day <= DaysInMonth y m ->
  date_text (MakeDay y (m - 1) day) = pad 4 y ++ [45] ++ pad 2 m ++ [45] ++ pad 2 day.
Proof.
  intros Hy Hm Hday. unfold DaysInMonth in Hday.
  replace m with (m - 1 + 1) in Hday at 1 by lia.
  destruct (month_of_day_days_before (InLeapYear y) (m - 1) day
              (InLeapYear_range y) ltac:(lia) Hday) as [Hmonth Hdw].
  unfold MakeDay. rewrite Z.div_small, Z.mod_small, Z.add_0_r by lia.
  set (dw := days_before (InLeapYear y) (m - 1) + day - 1) in *.
  replace (DayFromYear y + days_before (InLeapYear y) (m - 1) + day - 1)
    with (DayFromYear y + dw) by (unfold dw; lia).
  assert (Hyear : YearFromTime ((DayFromYear y + dw) * msPerDay) = y).
  { rewrite <- (Z.add_0_r (_ * msPerDay)). apply YearFromTime_spec.
    - rewrite DayFromYear_next, InLeapYear_days. lia.
    - unfold msPerDay. lia. }
  assert (Hd : Day ((DayFromYear y + dw) * msPerDay) = DayFromYear y + dw).
  { rewrite <- (Z.add_0_r (_ * msPerDay)). apply Day_of_day. unfold msPerDay. lia. }
  assert (HM : MonthFromTime ((DayFromYear y + dw) * msPerDay) = m - 1).
  { unfold MonthFromTime, DayWithinYear. rewrite Hyear, Hd.
    replace (DayFromYear y + dw - DayFromYear y) with dw by lia. exact Hmonth. }
  assert (HD : DateFromTime ((DayFromYear y + dw) * msPerDay) = day).
  { unfold DateFromTime. rewrite HM. unfold DayWithinYear. rewrite Hyear, Hd.
    unfold dw. lia. }
  unfold date_text, year_text. rewrite Hyear, HM, HD.
  replace (m - 1 + 1) with m by lia.
  destruct (Z.leb_spec 0 y), (Z.leb_spec y 9999); try lia. reflexivity.
Qed.

Lemma fold_digits_nonneg ds : forall acc,
  0 <= acc -> forallb is_digit ds = true ->
  0 <= fold_left (fun a c => 10 * a + (c - 48)) ds acc.
Proof.
  induction ds as [|c ds IH]; simpl; intros acc Hacc Hds; [exact Hacc|].
  apply andb_true_iff in Hds as [Hc Hds]. apply is_digit_range in Hc.
  apply IH; [lia | exact Hds].
Qed.

Lemma parseInt_nonneg ds : forallb is_digit ds = true -> 0 <= parseInt ds.
Proof. apply fold_digits_nonneg. lia. Qed.

Lemma match_dday_absolute m1 m2 d1 d2 w :
  is_digit m1 = true -> is_digit m2 = true ->
  is_digit d1 = true -> is_digit d2 = true ->
  match_dday [126; m1; m2; 46; d1; d2; 40; w; 41] = None.
Proof.
  rewrite !is_digit_range. intros H1 H2 H3 H4. simpl.
  destruct (Z.eqb_spec m1 68); [lia|].
  destruct (Z.eqb_spec m2 68); [lia|].
  destruct (Z.eqb_spec d1 68); [lia|].
  destruct (Z.eqb_spec d2 68); [lia|].
  destruct (w =? 68); reflexivity.
Qed.

Lemma match_date_absolute m1 m2 d1 d2 w :
  is_digit m1 = true -> is_digit m2 = true ->
  is_digit d1 = true -> is_digit d2 = true -> is_dot w = true ->
  match_date [126; m1; m2; 46; d1; d2; 40; w; 41] = Some ([m1; m2], [d1; d2]).
Proof.
  intros H1 H2 H3 H4 Hw. unfold match_date, date_here.
  rewrite H1, H2, H3, H4, Hw. reflexivity.
Qed.

Lemma MakeDay_range y m day :
  1 <= m <= 12 -> 1 <= day <= DaysInMonth y m ->
  DayFromYear y <= MakeDay y (m - 1) day < DayFromYear y + 366.
Proof.
  intros Hm Hday. unfold DaysInMonth in Hday.
  replace m with (m - 1 + 1) in Hday at 1 by lia.
  destruct (month_of_day_days_before (InLeapYear y) (m - 1) day
              (InLeapYear_range y) ltac:(lia) Hday) as [_ Hdw].
  unfold MakeDay. rewrite Z.div_small, Z.mod_small, Z.add_0_r by lia.
  destruct (InLeapYear_range y) as [Hl | Hl]; rewrite Hl in *; lia.
Qed.

(** The matchers find what the expressions describe. *)
Lemma take_digits_split s :
  exists q, s = take_digits s ++ q /\ forallb is_digit (take_digits s) = true.
Proof.
  induction s as [|c s [q [Hs Hd]]]; [exists []; split; reflexivity|].
  simpl. destruct (is_digit c) eqn:Hc.
  - exists q. simpl. rewrite Hc, Hd. split; [f_equal; exact Hs | reflexivity].
  - exists (c :: s). split; reflexivity.
Qed.

Lemma match_dday_found s g : match_dday s = Some g -> has_countdown s.
Proof.
  induction s as [|c s IH]; [discriminate|]. simpl.
  assert (Hrest : match_dday s = Some g -> has_countdown (c :: s)).
  { intros H. destruct (IH H) as (p & h & ds & q & -> & Hh & Hne & Hd).
    exists (c :: p), h, ds, q. repeat split; assumption. }
  destruct (Z.eqb_spec c 68) as [-> | _]; [|exact Hrest].
  destruct s as [|h t]; [exact Hrest|].
  destruct (Z.eqb_spec h 45) as [-> | _].
  - destruct (take_digits t) as [|d ds] eqn:Hds; [exact Hrest|]. intros _.
    destruct (take_digits_split t) as (q & Hq & Hd). rewrite Hds in Hq, Hd.
    exists [], [45], (d :: ds), q.
    split; [simpl; do 2 f_equal; exact Hq|].
    split; [right; reflexivity|]. split; [discriminate | exact Hd].
  - destruct (take_digits (h :: t)) as [|d ds] eqn:Hds; [exact Hrest|]. intros _.
    destruct (take_digits_split (h :: t)) as (q & Hq & Hd). rewrite Hds in Hq, Hd.
    exists [], [], (d :: ds), q.
    split; [simpl; f_equal; exact Hq|].
    split; [left; reflexivity|]. split; [discriminate | exact Hd].
Qed.

Lemma match_date_found s g : match_date s = Some g -> has_date s.
Proof.
  induction s as [|c s IH]; [discriminate|].
  cbn [match_date]. destruct (date_here (c :: s)) as [g'|] eqn:Hh.
  - intros _. unfold date_here in Hh.
    destruct s as [|m1 [|m2 [|p [|d1 [|d2 [|l [|w [|r q]]]]]]]]; try discriminate.
    destruct (_ && _) eqn:Hc in Hh; [|discriminate].
    repeat (apply andb_true_iff in Hc as [Hc ?]).
    exists [], m1, m2, d1, d2, w, q.
    replace c with 126 by lia. replace p with 46 by lia.
    replace l with 40 by lia. replace r with 41 by lia.
    repeat split; assumption.
  - intros H. destruct (IH H) as (p & m1 & m2 & d1 & d2 & w & q & -> & Hd).
    exists (c :: p), m1, m2, d1, d2, w, q. split; [reflexivity | exact Hd].
Qed.

(** C9, as the code has it.  At clock reading [now], on a host whose zone
    offsets are [tza]:
    - "D-n" yields the UTC calendar date [n] days before that of the
      instant [now + shift], a date not after it, where [shift] is the
      host's offset now less its offset at the local time [n] days back
      (zero unless the offset changed in between), provided the resulting
      instant is a time value a Date can hold;
    - "~MM.DD(w)" yields month MM, day DD of the current local year when
      that is a date of the calendar, the year has four digits, and the
      host is not ahead of UTC at the beginning of that day;
    - a text that holds neither a countdown nor a date yields null. *)
Theorem formatDeadline_normalises (tza : Z -> bool -> Z) (now : Z) :
  (forall ds, ds <> [] -> forallb is_digit ds = true ->
     let n := parseInt ds in
     let shift := tza now true - tza (now + tza now true - n * msPerDay) false in
     Z.abs (now + shift - n * msPerDay) <= maxTime ->
     formatDeadline tza now (units "D-" ++ ds)
     = Returns (Some (date_text (Day (now + shift) - n)))
     /\ Day (now + shift) - n <= Day (now + shift)
     /\ (shift = 0 -> Day (now + shift) - n = Day now - n))
  /\ (forall m1 m2 d1 d2 w,
        is_digit m1 = true -> is_digit m2 = true ->
        is_digit d1 = true -> is_digit d2 = true -> is_dot w = true ->
        let month := parseInt [m1; m2] in
        let day := parseInt [d1; d2] in
        let year := getFullYear tza now in
        1 <= month <= 12 -> 1 <= day <= DaysInMonth year month ->
        100 <= year <= 9999 ->
        - msPerDay < tza (MakeDay year (month - 1) day * msPerDay) false <= 0 ->
        formatDeadline tza now [126; m1; m2; 46; d1; d2; 40; w; 41]
        = Returns (Some (pad 4 year ++ [45; m1; m2; 45; d1; d2])))
  /\ (forall s, ~ has_countdown s -> ~ has_date s ->
        formatDeadline tza now s = Returns None).
Proof.
  split; [|split].
  - intros ds Hne Hds n shift Hrange.
    split; [|split; [pose proof (parseInt_nonneg ds Hds); subst n; lia
                    | intros ->; rewrite Z.add_0_r; reflexivity]].
    unfold formatDeadline. rewrite (match_dday_countdown ds Hne Hds).
    fold n. cbv zeta.
    set (target := now + tza now true - n * msPerDay) in *.
    assert (Hu : target - tza target false = now + shift - n * msPerDay)
      by (subst shift target; lia).
    pose proof (setDate_back tza now n) as Hset. cbv zeta in Hset.
    fold target in Hset. rewrite Hu in Hset. rewrite (Hset Hrange).
    pose proof (date_of_ISO (now + shift - n * msPerDay)) as Hiso.
    destruct (toISOString _) as [iso|]; [|contradiction].
    rewrite Hiso. do 3 f_equal.
    unfold Day, msPerDay. div_lia.
  - intros m1 m2 d1 d2 w H1 H2 H3 H4 Hw month day year Hmonth Hday Hyear Htza.
    unfold formatDeadline.
    rewrite (match_dday_absolute m1 m2 d1 d2 w H1 H2 H3 H4).
    rewrite (match_date_absolute m1 m2 d1 d2 w H1 H2 H3 H4 Hw).
    fold month day year.
    pose proof (MakeDay_range year month day Hmonth Hday) as HD.
    pose proof (DayFromYear_bounds year) as HB.
    set (D := MakeDay year (month - 1) day) in *.
    set (off := tza (D * msPerDay) false) in *.
    assert (Hymd : Date_ymd tza year (month - 1) day = Some (D * msPerDay + - off)).
    { unfold Date_ymd, TimeClip, UTC, MakeDate.
      destruct (Z.leb_spec 0 year), (Z.leb_spec year 99); try lia. cbn [andb].
      fold D. rewrite Z.add_0_r. fold off.
      replace (D * msPerDay - off) with (D * msPerDay + - off) by lia.
      destruct (Z.ltb_spec maxTime (Z.abs (D * msPerDay + - off))); [|reflexivity].
      unfold msPerDay, maxTime in *. lia. }
    rewrite Hymd.
    pose proof (date_of_ISO (D * msPerDay + - off)) as Hiso.
    destruct (toISOString _) as [iso|]; [|contradiction].
    rewrite Hiso, Day_of_day by lia.
    unfold D. rewrite date_text_MakeDay by lia.
    apply is_digit_range in H1, H2, H3, H4.
    unfold month, day. rewrite !parseInt_two.
    rewrite !pad_two by lia.
    do 2 f_equal. simpl. repeat f_equal; lia.
  - intros s Hd Ha. unfold formatDeadline.
    destruct (match_dday s) as [g|] eqn:Ed;
      [exfalso; apply Hd, (match_dday_found s g Ed)|].
    destruct (match_date s) as [g|] eqn:Ea;
      [exfalso; apply Ha, (match_date_found s g Ea)|].
    reflexivity.
Qed.

(** At 2024-11-28T00:30Z it is 19:30 on the 27th in New York; thirty days
    back on the local clock the offset was an hour less, and "D-30" yields
    2024-10-28. *)
Lemma formatDeadline_normalises_witness :
  Z.abs (Samples.now - parseInt (units "3") * msPerDay) <= maxTime
  /\ formatDeadline Samples.KST Samples.now (units "D-3")
     = Returns (Some (units "2024-11-25"))
  /\ formatDeadline Samples.New_York 1732753800000 (units "D-30")
     = Returns (Some (units "2024-10-28"))
  /\ formatDeadline Samples.New_York Samples.now Samples.christmas
     = Returns (Some (units "2024-12-25"))
  /\ formatDeadline Samples.KST Samples.now (units "2024-12-25") = Returns None.
Proof.
  assert (Hr : Z.abs (Samples.now - parseInt (units "3") * msPerDay) <= maxTime)
    by (vm_compute; discriminate).
  split; [exact Hr|].
  split; [|split; [|split]].
  - exact (proj1 (proj1 (formatDeadline_normalises Samples.KST Samples.now)
                        (units "3") ltac:(discriminate) eq_refl Hr)).
  - refine (proj1 (proj1 (formatDeadline_normalises Samples.New_York 1732753800000)
                         (units "30") ltac:(discriminate) eq_refl _)).
    vm_compute. discriminate.
  - refine (proj1 (proj2 (formatDeadline_normalises Samples.New_York Samples.now))
                  49 50 50 53 49688 eq_refl eq_refl eq_refl eq_refl eq_refl _ _ _ _);
      vm_compute; split; first [reflexivity | discriminate].
  - refine (proj2 (proj2 (formatDeadline_normalises Samples.KST Samples.now))
                  (units "2024-12-25") _ _).
    + intros (p & h & ds & q & Hs & _).
      assert (Hin : In 68 (units "2024-12-25")) by (rewrite Hs; apply in_or_app; right; left; reflexivity).
      vm_compute in Hin. intuition discriminate.
    + intros (p & m1 & m2 & d1 & d2 & w & q & Hs & _).
      assert (Hin : In 126 (units "2024-12-25")) by (rewrite Hs; apply in_or_app; right; left; reflexivity).
      vm_compute in Hin. intuition discriminate.
Defined.

(** C9, as stated, fails.  At 2024-11-28T03:00Z on a host on Korean time,
    "~12.25(수)" yields 2024-12-24, not month 12 day 25 of the current year
    2024: midnight of the 25th in Seoul is still the 24th in UTC, which is
    what [toISOString] prints.  "D-n" does not yield a date for any digits
    [n]: for n = 200000000 the call throws.  And "~02.30(금)", a string of
    the second form, yields the first of March. *)
Lemma formatDeadline_not_as_stated :
  getFullYear Samples.KST Samples.now = 2024
  /\ formatDeadline Samples.KST Samples.now Samples.christmas
     = Returns (Some (units "2024-12-24"))
  /\ formatDeadline Samples.KST Samples.now Samples.christmas
     <> Returns (Some (units "2024-12-25"))
  /\ formatDeadline (fun _ _ => 0) Samples.now (units "D-200000000") = Throws
  /\ formatDeadline (fun _ _ => 0) Samples.now Samples.feb30
     = Returns (Some (units "2024-03-01")).
Proof.
  split; [vm_compute; reflexivity|].
  split; [vm_compute; reflexivity|].
  split; [vm_compute; discriminate|].
  split; vm_compute; reflexivity.
Qed.

End CrawlerFacts.

(** * Further properties *)

Section CrawlerMore.
Import Crawler.

(** ** More on the deadline normaliser *)

Lemma match_dday_no_D s : Forall (fun c => c <> 68) s -> match_dday s = None.
Proof.
  induction s as [|c s IH]; intros Hs; [reflexivity|].
  apply Forall_cons in Hs as [Hc Hs]. simpl.
  destruct (Z.eqb_spec c 68); [contradiction | apply IH, Hs].
Qed.

Lemma date_here_head c s g : date_here (c :: s) = Some g -> c = 126.
Proof.
  unfold date_here.
  do 8 (destruct s as [|? s]; [discriminate|]).
  destruct (Z.eqb_spec c 126); [auto | simpl; discriminate].
Qed.

Lemma match_date_no_tilde s : Forall (fun c => c <> 126) s -> match_date s = None.
Proof.
  induction s as [|c s IH]; intros Hs; [reflexivity|].
  apply Forall_cons in Hs as [Hc Hs].
  change (match_date (c :: s))
    with (match date_here (c :: s) with Some g => Some g | None => match_date s end).
  destruct (date_here (c :: s)) as [g|] eqn:Hg.
  - apply date_here_head in Hg. contradiction.
  - apply IH, Hs.
Qed.

Lemma digits_not c (ds : jsstring) :
  ~ (48 <= c <= 57) -> forallb is_digit ds = true -> Forall (fun d => d <> c) ds.
Proof.
  intros Hc Hds. apply Forall_forall. intros d Hd ->.
  apply Hc, is_digit_range.
  rewrite forallb_forall in Hds. apply Hds, list_elem_of_In, Hd.
Qed.

Lemma take_digits_app ds q :
  forallb is_digit ds = true ->
  match q with c :: _ => is_digit c = false | [] => True end ->
  take_digits (ds ++ q) = ds.
Proof.
  intros Hds Hq. induction ds as [|d ds IH]; simpl.
  - destruct q as [|c q]; [reflexivity|]. simpl. rewrite Hq. reflexivity.
  - simpl in Hds. apply andb_true_iff in Hds as [Hd Hds].
    rewrite Hd, IH by exact Hds. reflexivity.
Qed.

Lemma match_dday_prefix p s :
  Forall (fun c => c <> 68) p -> match_dday (p ++ s) = match_dday s.
Proof.
  induction p as [|c p IH]; intros Hp; [reflexivity|].
  apply Forall_cons in Hp as [Hc Hp]. simpl.
  destruct (Z.eqb_spec c 68); [contradiction | apply IH, Hp].
Qed.

Lemma match_dday_D_digit hyphen d rest ds :
  hyphen = [] \/ hyphen = [45] -> is_digit d = true -> take_digits rest = ds ->
  match_dday ([68] ++ hyphen ++ d :: rest) = Some (d :: ds).
Proof.
  intros Hh Hd <-. pose proof Hd as Hr. apply is_digit_range in Hr.
  destruct Hh as [-> | ->]; cbn -[is_digit].
  - destruct (Z.eqb_spec d 45); [lia|]. cbn -[is_digit]. rewrite Hd. reflexivity.
  - rewrite Hd. reflexivity.
Qed.

(** X1. The countdown is searched anywhere in the text, with or without the
    hyphen: text before it that holds no "D", and text after the digits,
    do not change the result, which is that of "D-n". *)
Theorem formatDeadline_countdown_unanchored (tza : Z -> bool -> Z) (now : Z)
        (p hyphen ds q : jsstring) :
  Forall (fun c => c <> 68) p ->
  hyphen = [] \/ hyphen = [45] ->
  ds <> [] -> forallb is_digit ds = true ->
  match q with c :: _ => is_digit c = false | [] => True end ->
  formatDeadline tza now (p ++ [68] ++ hyphen ++ ds ++ q)
  = formatDeadline tza now (units "D-" ++ ds).
Proof.
  intros Hp Hh Hne Hds Hq. unfold formatDeadline.
  rewrite (match_dday_countdown ds Hne Hds).
  rewrite (match_dday_prefix p _ Hp).
  assert (Hm : match_dday ([68] ++ hyphen ++ ds ++ q) = Some ds).
  { destruct ds as [|d ds']; [congruence|].
    simpl in Hds. apply andb_true_iff in Hds as [Hd Hds'].
    pose proof (take_digits_app ds' q Hds' Hq) as Ht.
    destruct Hh as [-> | ->].
    - apply (match_dday_D_digit [] d (ds' ++ q) ds'); auto.
    - apply (match_dday_D_digit [45] d (ds' ++ q) ds'); auto. }
  rewrite Hm. reflexivity.
Qed.

Lemma formatDeadline_countdown_unanchored_witness :
  formatDeadline Samples.KST Samples.now (units "~12.25(" ++ [49688] ++ units ") D3 left")
  = formatDeadline Samples.KST Samples.now (units "D-3").
Proof.
  apply (formatDeadline_countdown_unanchored Samples.KST Samples.now
           (units "~12.25(" ++ [49688] ++ units ") ") [] (units "3") (units " left")).
  - vm_compute. repeat (apply Forall_cons; split; [discriminate|]). apply Forall_nil_2.
  - left. reflexivity.
  - discriminate.
  - reflexivity.
  - reflexivity.
Defined.

(** X2. "D+n", which the comment of the function names, is not recognised:
    the result is null. *)
Theorem formatDeadline_plus_is_null (tza : Z -> bool -> Z) (now : Z) (ds : jsstring) :
  forallb is_digit ds = true ->
  formatDeadline tza now (units "D+" ++ ds) = Returns None.
Proof.
  intros Hds. unfold formatDeadline.
  assert (H1 : match_dday (units "D+" ++ ds) = None).
  { simpl. apply match_dday_no_D, (digits_not 68); [lia | exact Hds]. }
  assert (H2 : match_date (units "D+" ++ ds) = None).
  { apply match_date_no_tilde. simpl.
    apply Forall_cons. split; [lia|]. apply Forall_cons. split; [lia|].
    apply (digits_not 126); [lia | exact Hds]. }
  rewrite H1, H2. reflexivity.
Qed.

Lemma formatDeadline_plus_is_null_witness :
  formatDeadline Samples.KST Samples.now (units "D+3") = Returns None.
Proof. exact (formatDeadline_plus_is_null Samples.KST Samples.now (units "3") eq_refl). Defined.

(** X3. On a host that is ahead of UTC at the beginning of day DD of month
    MM, "~MM.DD(w)" yields the day before (for DD from the 2nd on): local
    midnight is still the previous day in UTC. *)
Theorem formatDeadline_ahead_of_UTC (tza : Z -> bool -> Z) (now : Z)
        (m1 m2 d1 d2 w : Z) :
  is_digit m1 = true -> is_digit m2 = true ->
  is_digit d1 = true -> is_digit d2 = true -> is_dot w = true ->
  let month := parseInt [m1; m2] in
  let day := parseInt [d1; d2] in
  let year := getFullYear tza now in
  1 <= month <= 12 -> 2 <= day <= DaysInMonth year month ->
  100 <= year <= 9999 ->
  0 < tza (MakeDay year (month - 1) day * msPerDay) false <= msPerDay ->
  formatDeadline tza now [126; m1; m2; 46; d1; d2; 40; w; 41]
  = Returns (Some (pad 4 year ++ [45; m1; m2; 45] ++ pad 2 (day - 1))).
Proof.
  intros H1 H2 H3 H4 Hw month day year Hmonth Hday Hyear Htza.
  unfold formatDeadline.
  rewrite (match_dday_absolute m1 m2 d1 d2 w H1 H2 H3 H4).
  rewrite (match_date_absolute m1 m2 d1 d2 w H1 H2 H3 H4 Hw).
  fold month day year.
  assert (Hday' : 1 <= day <= DaysInMonth year month) by lia.
  pose proof (MakeDay_range year month day Hmonth Hday') as HD.
  pose proof (DayFromYear_bounds year) as HB.
  assert (Hprev : MakeDay year (month - 1) day - 1 = MakeDay year (month - 1) (day - 1))
    by (unfold MakeDay; lia).
  set (D := MakeDay year (month - 1) day) in *.
  set (off := tza (D * msPerDay) false) in *.
  assert (Hymd : Date_ymd tza year (month - 1) day
                 = Some ((D - 1) * msPerDay + (msPerDay - off))).
  { unfold Date_ymd, TimeClip, UTC, MakeDate.
    destruct (Z.leb_spec 0 year), (Z.leb_spec year 99); try lia. cbn [andb].
    fold D. rewrite Z.add_0_r. fold off.
    replace (D * msPerDay - off) with ((D - 1) * msPerDay + (msPerDay - off)) by lia.
    destruct (Z.ltb_spec maxTime (Z.abs ((D - 1) * msPerDay + (msPerDay - off))));
      [|reflexivity].
    unfold msPerDay, maxTime in *. lia. }
  rewrite Hymd.
  pose proof (date_of_ISO ((D - 1) * msPerDay + (msPerDay - off))) as Hiso.
  destruct (toISOString _) as [iso|]; [|contradiction].
  rewrite Hiso, Day_of_day by lia.
  rewrite Hprev, date_text_MakeDay by lia.
  apply is_digit_range in H1, H2.
  unfold month. rewrite parseInt_two, pad_two by lia.
  do 2 f_equal. simpl. repeat f_equal; lia.
Qed.

Lemma formatDeadline_ahead_of_UTC_witness :
  (0 < Samples.KST (MakeDay 2024 11 25 * msPerDay) false <= msPerDay)
  /\ formatDeadline Samples.KST Samples.now Samples.christmas
     = Returns (Some (units "2024-12-24")).
Proof.
  assert (Hz : 0 < Samples.KST (MakeDay 2024 11 25 * msPerDay) false <= msPerDay)
    by (vm_compute; split; [reflexivity | discriminate]).
  split; [exact Hz|].
  refine (formatDeadline_ahead_of_UTC Samples.KST Samples.now 49 50 50 53 49688
            eq_refl eq_refl eq_refl eq_refl eq_refl _ _ _ _);
    vm_compute; split; first [reflexivity | discriminate].
Defined.

End CrawlerMore.

Section NormaliserFacts.
Import Crawler Normaliser.

(** ** validateAndNormalizeJobData *)

Lemma trimStart_head s :
  match trimStart s with
  | c :: _ => is_space c = false
  | [] => True
  end.
Proof.
  induction s as [|c s IH]; simpl; [exact I|].
  destruct (is_space c) eqn:E; [exact IH | exact E].
Qed.

Lemma trimStart_suffix s :
  exists pre, s = pre ++ trimStart s /\ forallb is_space pre = true.
Proof.
  induction s as [|c s [pre [Hs Hpre]]]; simpl.
  - exists []. split; reflexivity.
  - destruct (is_space c) eqn:E.
    + exists (c :: pre). split; [simpl; congruence | simpl; rewrite E; exact Hpre].
    + exists []. split; reflexivity.
Qed.

Lemma trimStart_id s :
  match s with c :: _ => is_space c = false | [] => True end -> trimStart s = s.
Proof. destruct s as [|c s]; simpl; [reflexivity | intros ->; reflexivity]. Qed.

Lemma trim_trimmed s : trimmed (trim s).
Proof.
  unfold trimmed, trim. rewrite rev_involutive. split; [|apply trimStart_head].
  pose proof (trimStart_head s) as Hhead.
  destruct (trimStart_suffix (rev (trimStart s))) as [pre [Hs _]].
  set (a := trimStart s) in *. set (c := trimStart (rev a)) in *.
  assert (Ha : a = rev c ++ rev pre).
  { rewrite <- rev_app_distr, <- Hs, rev_involutive. reflexivity. }
  destruct (rev c) as [|x xs]; [exact I|].
  rewrite Ha in Hhead. exact Hhead.
Qed.

Lemma trim_idempotent s : trim (trim s) = trim s.
Proof.
  destruct (trim_trimmed s) as [Hh Hl]. unfold trim at 1.
  rewrite (trimStart_id (trim s) Hh), (trimStart_id (rev (trim s)) Hl).
  apply rev_involutive.
Qed.

Lemma trim_spaces s : forallb is_space s = true -> trim s = [].
Proof.
  intros Hs. unfold trim.
  assert (H : trimStart s = []).
  { induction s as [|c s IH]; [reflexivity|]. simpl in *.
    apply andb_true_iff in Hs as [-> Hs]. apply IH, Hs. }
  rewrite H. reflexivity.
Qed.

Lemma or_null_text s : trimmed s -> null_or_text (or_null s).
Proof. intros Hs. destruct s; simpl; [exact I | split; [discriminate | exact Hs]]. Qed.

Lemma trimmed_or_null_text field : null_or_text (trimmed_or_null field).
Proof. destruct field; simpl; [apply or_null_text, trim_trimmed | exact I]. Qed.

Lemma part_or_null_text parts i :
  Forall trimmed parts -> null_or_text (part_or_null parts i).
Proof.
  intros Hp. unfold part_or_null.
  destruct (nth_error parts i) as [p|] eqn:E; [|exact I].
  apply or_null_text. rewrite Forall_forall in Hp.
  apply Hp, list_elem_of_In, (nth_error_In _ _ E).
Qed.

Lemma split_no_sep sep s : Forall (fun c => c <> sep) s -> split sep s = [s].
Proof.
  induction s as [|c s IH]; intros Hs; [reflexivity|].
  apply Forall_cons in Hs as [Hc Hs]. simpl.
  destruct (Z.eqb_spec c sep); [contradiction|]. rewrite IH by exact Hs. reflexivity.
Qed.

Lemma split_at_sep sep a b :
  Forall (fun c => c <> sep) a -> split sep (a ++ sep :: b) = a :: split sep b.
Proof.
  induction a as [|c a IH]; intros Ha; simpl.
  - rewrite Z.eqb_refl. reflexivity.
  - apply Forall_cons in Ha as [Hc Ha].
    destruct (Z.eqb_spec c sep); [contradiction|]. rewrite IH by exact Ha. reflexivity.
Qed.

(** What the function answers, case by case. *)
Lemma normalize_cases tza now raw :
  validateAndNormalizeJobData tza now raw
  = if bool_decide (raw_title raw = []) || bool_decide (raw_company raw = [])
       || bool_decide (raw_link raw = [])
    then Returns None
    else
      let careerParts := List.map trim (split 183 (raw_career raw)) in
      match formatDeadline tza now (raw_deadline raw) with
      | Throws => Throws
      | Returns deadline_ =>
          Returns
            (Some (mkNormalizedJob
                     (trim (raw_title raw)) (trim (raw_company raw))
                     (trim (raw_link raw))
                     (trimmed_or_null (raw_location raw))
                     (trimmed_or_null (raw_education raw))
                     (trimmed_or_null (raw_techStack raw))
                     (trim (raw_title raw))
                     (trimmed_or_null (raw_salary raw))
                     (part_or_null careerParts 0)
                     (part_or_null careerParts 1)
                     deadline_))
      end.
Proof.
  unfold validateAndNormalizeJobData.
  destruct (raw_title raw), (raw_company raw), (raw_link raw); reflexivity.
Qed.

(** X4. Every record the function returns is normalised: title, company and
    link carry no white space at either end; location, education, tech
    stack, salary, experience and employment type are null or a non-empty
    text with no white space at either end, never the empty string; and
    the description is the title, whatever the description of the item
    was. *)
Theorem normalized_fields (tza : Z -> bool -> Z) (now : Z) (raw : RawJob)
        (n : NormalizedJob) :
  validateAndNormalizeJobData tza now raw = Returns (Some n) ->
  trimmed (n_title n) /\ trimmed (n_company n) /\ trimmed (n_link n)
  /\ null_or_text (n_location n) /\ null_or_text (n_education n)
  /\ null_or_text (n_techStack n) /\ null_or_text (n_salary n)
  /\ null_or_text (n_experience n) /\ null_or_text (n_employmentType n)
  /\ n_description n = n_title n
  /\ n_title n = trim (raw_title raw).
Proof.
  rewrite normalize_cases.
  destruct (_ || _); [discriminate|]. cbv zeta.
  destruct (formatDeadline tza now (raw_deadline raw)); [|discriminate].
  intros [= <-]. simpl.
  assert (Hparts : Forall trimmed (List.map trim (split 183 (raw_career raw)))).
  { apply Forall_forall. intros x Hx. apply list_elem_of_In, in_map_iff in Hx.
    destruct Hx as [y [<- _]]. apply trim_trimmed. }
  repeat match goal with |- _ /\ _ => split end;
    try apply trim_trimmed; try apply trimmed_or_null_text;
    try (apply part_or_null_text; exact Hparts); reflexivity.
Qed.

Lemma normalized_fields_witness :
  exists n,
    validateAndNormalizeJobData Samples.KST Samples.now MoreSamples.item = Returns (Some n)
    /\ n_description n = n_title n
    /\ null_or_text (n_location n)
    /\ null_or_text (n_education n).
Proof.
  destruct (validateAndNormalizeJobData Samples.KST Samples.now MoreSamples.item)
    as [[n|]|] eqn:Hv; [| vm_compute in Hv; discriminate ..].
  exists n. split; [reflexivity|].
  destruct (normalized_fields Samples.KST Samples.now MoreSamples.item n Hv)
    as (_ & _ & _ & Hloc & Hedu & _ & _ & _ & _ & Hdesc & _).
  split; [exact Hdesc|]. split; [exact Hloc | exact Hedu].
Defined.

(** X5. The required fields are tested before they are trimmed: the answer is
    null exactly when the raw title, company or link is empty; a link built
    from an item is never empty; and a title made of white space only
    passes the test and is returned as the empty text. *)
Theorem required_fields_tested_raw (tza : Z -> bool -> Z) (now : Z) (raw : RawJob) :
  (validateAndNormalizeJobData tza now raw = Returns None
   <-> raw_title raw = [] \/ raw_company raw = [] \/ raw_link raw = [])
  /\ (forall href, link_of_href href <> [])
  /\ (forall n, raw_title raw <> [] -> forallb is_space (raw_title raw) = true ->
      validateAndNormalizeJobData tza now raw = Returns (Some n) ->
      n_title n = [] /\ n_description n = []).
Proof.
  split; [|split].
  - rewrite normalize_cases.
    destruct (raw_title raw), (raw_company raw), (raw_link raw); simpl;
      try (split; [intros _; auto | reflexivity]).
    destruct (formatDeadline _ _ _); split; try discriminate;
      intros [H | [H | H]]; discriminate.
  - intros href. unfold link_of_href. simpl. discriminate.
  - intros n Hne Hsp. rewrite normalize_cases.
    destruct (_ || _); [discriminate|]. cbv zeta.
    destruct (formatDeadline tza now (raw_deadline raw)); [|discriminate].
    intros [= <-]. simpl. split; apply trim_spaces, Hsp.
Qed.

Lemma required_fields_tested_raw_witness :
  raw_title MoreSamples.blank_title <> []
  /\ forallb is_space (raw_title MoreSamples.blank_title) = true
  /\ exists n,
      validateAndNormalizeJobData Samples.KST Samples.now MoreSamples.blank_title
      = Returns (Some n)
      /\ n_title n = [] /\ n_description n = [].
Proof.
  assert (H1 : raw_title MoreSamples.blank_title <> []) by discriminate.
  assert (H2 : forallb is_space (raw_title MoreSamples.blank_title) = true) by reflexivity.
  split; [exact H1|]. split; [exact H2|].
  destruct (validateAndNormalizeJobData Samples.KST Samples.now MoreSamples.blank_title)
    as [[n|]|] eqn:Hv; [| vm_compute in Hv; discriminate ..].
  exists n. split; [reflexivity|].
  exact (proj2 (proj2 (required_fields_tested_raw Samples.KST Samples.now
                         MoreSamples.blank_title)) n H1 H2 Hv).
Defined.

(** X6. The career text is cut at the middle dots: the text before the first
    dot is the experience and the text between the first and the second
    dot (or the end) is the employment type, each trimmed and null when
    blank; without a dot there is no employment type. *)
Theorem career_is_split_at_dots (tza : Z -> bool -> Z) (now : Z) (raw : RawJob)
        (n : NormalizedJob) :
  validateAndNormalizeJobData tza now raw = Returns (Some n) ->
  (Forall (fun c => c <> 183) (raw_career raw) ->
   n_experience n = or_null (trim (raw_career raw)) /\ n_employmentType n = None)
  /\ (forall a b rest,
        Forall (fun c => c <> 183) a -> Forall (fun c => c <> 183) b ->
        raw_career raw = a ++ 183 :: b ++ rest ->
        rest = [] \/ (exists rest', rest = 183 :: rest') ->
        n_experience n = or_null (trim a) /\ n_employmentType n = or_null (trim b)).
Proof.
  rewrite normalize_cases.
  destruct (_ || _); [discriminate|]. cbv zeta.
  destruct (formatDeadline tza now (raw_deadline raw)) as [dl|]; [|discriminate].
  intros [= <-]. simpl. split.
  - intros Hc. rewrite (split_no_sep 183 _ Hc). split; reflexivity.
  - intros a b rest Ha Hb -> Hrest. rewrite (split_at_sep 183 a _ Ha).
    destruct Hrest as [-> | [rest' ->]].
    + rewrite app_nil_r, (split_no_sep 183 _ Hb). split; reflexivity.
    + rewrite (split_at_sep 183 b _ Hb). split; reflexivity.
Qed.

Lemma career_is_split_at_dots_witness :
  exists n,
    validateAndNormalizeJobData Samples.KST Samples.now MoreSamples.item = Returns (Some n)
    /\ n_experience n = Some [44221; 47141; 32; 51; 45380]
    /\ n_employmentType n = Some [51221; 44508; 51649].
Proof.
  destruct (validateAndNormalizeJobData Samples.KST Samples.now MoreSamples.item)
    as [[n|]|] eqn:Hv; [| vm_compute in Hv; discriminate ..].
  exists n. split; [reflexivity|].
  destruct (career_is_split_at_dots Samples.KST Samples.now MoreSamples.item n Hv)
    as [_ H].
  apply (H [44221; 47141; 32; 51; 45380; 32] [32; 51221; 44508; 51649] []).
  - repeat (apply Forall_cons; split; [discriminate|]). apply Forall_nil_2.
  - repeat (apply Forall_cons; split; [discriminate|]). apply Forall_nil_2.
  - reflexivity.
  - left. reflexivity.
Defined.

End NormaliserFacts.

(** ** Tokens *)

Lemma Qle_bool_inject a b : Qle_bool (inject_Z a) (inject_Z b) = (a <=? b).
Proof.
  destruct (Z.leb_spec a b) as [H | H].
  - apply Qle_bool_iff. rewrite <- Zle_Qle. exact H.
  - apply not_true_is_false. rewrite Qle_bool_iff, <- Zle_Qle. lia.
Qed.

Lemma sign_claims payload secret ttl now k :
  claims (Some (Auth.sign payload secret ttl now)) !! k
  = if String.eqb k "exp" then Some (VNum (inject_Z (now + ttl)))
    else if String.eqb k "iat" then Some (VNum (inject_Z now))
    else match payload !! k with
         | Some VUndefined => None
         | o => o
         end.
Proof.
  unfold Auth.sign, claims.
  destruct (String.eqb_spec k "exp") as [-> | Hexp]; [apply lookup_insert_eq|].
  rewrite lookup_insert_ne by congruence.
  destruct (String.eqb_spec k "iat") as [-> | Hiat]; [apply lookup_insert_eq|].
  rewrite lookup_insert_ne by congruence.
  destruct (payload !! k) as [v|] eqn:Hk.
  - destruct v; try (apply map_lookup_filter_Some; split; [exact Hk | exact I]).
    apply map_lookup_filter_None. right. intros v Hv. rewrite Hk in Hv.
    injection Hv as <-. simpl. tauto.
  - apply map_lookup_filter_None. left. exact Hk.
Qed.

(** A token verifies under the key it was signed with until it expires. *)
Lemma verify_sign payload secret ttl now now' :
  Auth.verify (Auth.sign payload secret ttl now) secret now'
  = if now + ttl <=? now' then inl Auth.TokenExpiredError
    else inr (claims (Some (Auth.sign payload secret ttl now))).
Proof.
  pose proof (sign_claims payload secret ttl now "exp") as Hexp.
  unfold Auth.verify, Auth.sign, claims in *.
  rewrite String.eqb_refl. simpl negb. cbv iota.
  rewrite Hexp. simpl. rewrite Qle_bool_inject. reflexivity.
Qed.

Lemma verify_other_key payload secret secret' ttl now now' :
  secret' <> secret ->
  Auth.verify (Auth.sign payload secret ttl now) secret' now' = inl Auth.JsonWebTokenError.
Proof.
  intros Hne. unfold Auth.verify, Auth.sign.
  destruct (String.eqb_spec secret secret'); [congruence | reflexivity].
Qed.

Lemma login_success ext secret now db body :
  code (Auth.login ext secret now db body) = 200 ->
  exists user,
    findOne (fun u => String.eqb (email u) (Auth.l_email body)) (users db) = Some user
    /\ base64_decode ext (password user) = Auth.l_password body
    /\ 6 <= validator_length (Auth.l_password body)
    /\ data (Auth.login ext secret now db body)
       = Some (Auth.mkLoginData
                 (Auth.sign (Auth.login_payload user) secret 3600 now)
                 (Auth.sign (Auth.login_payload user) secret 604800 now)
                 (usr_id user, email user, name user)).
Proof.
  unfold Auth.login.
  destruct (is_email ext (Auth.l_email body)); simpl; [|discriminate].
  destruct (Z.leb_spec 6 (validator_length (Auth.l_password body))); simpl; [|discriminate].
  destruct (findOne _ _) as [user|]; [|discriminate].
  destruct (String.eqb_spec (base64_decode ext (password user)) (Auth.l_password body));
    simpl; [|discriminate].
  intros _. exists user. repeat split; auto.
Qed.

Lemma login_payload_claims user k :
  Auth.login_payload user !! k
  = if String.eqb k "id" then Some (VNum (inject_Z (usr_id user)))
    else if String.eqb k "email" then Some (VStr (email user))
    else if String.eqb k "name" then Some (VStr (name user))
    else if String.eqb k "role" then Some (VStr (role user))
    else None.
Proof.
  unfold Auth.login_payload.
  destruct (String.eqb_spec k "id") as [-> | H1]; [apply lookup_insert_eq|].
  rewrite lookup_insert_ne by congruence.
  destruct (String.eqb_spec k "email") as [-> | H2]; [apply lookup_insert_eq|].
  rewrite lookup_insert_ne by congruence.
  destruct (String.eqb_spec k "name") as [-> | H3]; [apply lookup_insert_eq|].
  rewrite lookup_insert_ne by congruence.
  destruct (String.eqb_spec k "role") as [-> | H4]; [apply lookup_insert_eq|].
  rewrite lookup_insert_ne by congruence. apply lookup_empty.
Qed.

(** X7. The tokens of a login.  The access token is accepted by authenticateJWT
    for the 3600 seconds after the login and answered 401 from then on, the
    refresh token likewise for 604800 seconds; under another key either is
    answered 403; and what authenticateJWT attaches to the request is the
    id, email, name and role of the account. *)
Theorem login_tokens_lifetime (ext : Externals) (secret : string) (now : Z)
        (db : Db) (body : Auth.LoginBody) :
  code (Auth.login ext secret now db body) = 200 ->
  exists user d,
    findOne (fun u => String.eqb (email u) (Auth.l_email body)) (users db) = Some user
    /\ data (Auth.login ext secret now db body) = Some d
    /\ (forall tok ttl,
          (tok = Auth.accessToken d /\ ttl = 3600)
          \/ (tok = Auth.refreshToken d /\ ttl = 604800) ->
          (forall now', now' < now + ttl ->
             Auth.authenticateJWT secret now' (Some tok) = inr (claims (Some tok)))
          /\ (forall now', now + ttl <= now' ->
                Auth.authenticateJWT secret now' (Some tok) = inl 401)
          /\ (forall secret' now', secret' <> secret ->
                Auth.authenticateJWT secret' now' (Some tok) = inl 403)
          /\ claims (Some tok) !! "id" = Some (VNum (inject_Z (usr_id user)))
          /\ claims (Some tok) !! "email" = Some (VStr (email user))
          /\ claims (Some tok) !! "name" = Some (VStr (name user))
          /\ claims (Some tok) !! "role" = Some (VStr (role user))).
Proof.
  intros Hcode.
  destruct (login_success ext secret now db body Hcode) as (user & Hfind & _ & _ & Hdata).
  eexists user, _. split; [exact Hfind|]. split; [exact Hdata|].
  intros tok ttl Htok.
  assert (Hs : tok = Auth.sign (Auth.login_payload user) secret ttl now)
    by (destruct Htok as [[-> ->] | [-> ->]]; reflexivity).
  clear Htok. subst tok. unfold Auth.authenticateJWT.
  split; [|split; [|split]].
  - intros now' Hn. rewrite verify_sign.
    destruct (Z.leb_spec (now + ttl) now'); [lia | reflexivity].
  - intros now' Hn. rewrite verify_sign.
    destruct (Z.leb_spec (now + ttl) now'); [reflexivity | lia].
  - intros secret' now' Hne. rewrite verify_other_key by exact Hne. reflexivity.
  - rewrite !sign_claims, !login_payload_claims. simpl. repeat split.
Qed.

Lemma login_tokens_lifetime_witness :
  code (Auth.login Samples.ext0 Samples.secret 1000 Samples.db2 MoreSamples.login_carol) = 200
  /\ exists d,
      data (Auth.login Samples.ext0 Samples.secret 1000 Samples.db2 MoreSamples.login_carol)
      = Some d
      /\ Auth.authenticateJWT Samples.secret 4600 (Some (Auth.accessToken d)) = inl 401
      /\ Auth.authenticateJWT Samples.secret 4600 (Some (Auth.refreshToken d))
         = inr (claims (Some (Auth.refreshToken d))).
Proof.
  assert (Hc : code (Auth.login Samples.ext0 Samples.secret 1000 Samples.db2
                       MoreSamples.login_carol) = 200) by (vm_compute; reflexivity).
  split; [exact Hc|].
  destruct (login_tokens_lifetime Samples.ext0 Samples.secret 1000 Samples.db2
              MoreSamples.login_carol Hc) as (user & d & _ & Hd & Htok).
  exists d. split; [exact Hd|]. split.
  - apply (Htok (Auth.accessToken d) 3600); [left; split; reflexivity | lia].
  - apply (Htok (Auth.refreshToken d) 604800); [right; split; reflexivity | lia].
Defined.

(** X8. POST /auth/refresh does not tell the two kinds of token apart: within
    its hour it accepts the access token of a login, and the access token
    it issued itself, and issues a new access token for either. *)
Theorem refresh_accepts_access_tokens (ext : Externals) (secret : string) (now : Z)
        (db : Db) (body : Auth.LoginBody) :
  code (Auth.login ext secret now db body) = 200 ->
  exists d,
    data (Auth.login ext secret now db body) = Some d
    /\ forall now1, now1 < now + 3600 ->
       code (Auth.refresh secret now1 (Some (Auth.accessToken d))) = 200
       /\ forall now2, now2 < now1 + 3600 ->
          code (Auth.refresh secret now2
                  (data (Auth.refresh secret now1 (Some (Auth.accessToken d))))) = 200.
Proof.
  intros Hcode.
  destruct (login_success ext secret now db body Hcode) as (user & _ & _ & _ & Hdata).
  eexists. split; [exact Hdata|]. intros now1 H1. cbn [Auth.accessToken].
  unfold Auth.refresh. rewrite verify_sign.
  destruct (Z.leb_spec (now + 3600) now1); [lia|]. cbn [data success code].
  split; [reflexivity|]. intros now2 H2.
  rewrite verify_sign.
  destruct (Z.leb_spec (now1 + 3600) now2); [lia | reflexivity].
Qed.

Lemma refresh_accepts_access_tokens_witness :
  code (Auth.login Samples.ext0 Samples.secret 1000 Samples.db2 MoreSamples.login_carol) = 200
  /\ exists d,
      data (Auth.login Samples.ext0 Samples.secret 1000 Samples.db2 MoreSamples.login_carol)
      = Some d
      /\ code (Auth.refresh Samples.secret 2000 (Some (Auth.accessToken d))) = 200.
Proof.
  assert (Hc : code (Auth.login Samples.ext0 Samples.secret 1000 Samples.db2
                       MoreSamples.login_carol) = 200) by (vm_compute; reflexivity).
  split; [exact Hc|].
  destruct (refresh_accepts_access_tokens Samples.ext0 Samples.secret 1000 Samples.db2
              MoreSamples.login_carol Hc) as (d & Hd & Hr).
  exists d. split; [exact Hd|]. apply (Hr 2000). lia.
Defined.

Lemma refresh_payload_claims decoded k :
  Auth.refresh_payload decoded !! k
  = if String.eqb k "id" then Some (get decoded "id")
    else if String.eqb k "email" then Some (get decoded "email")
    else if String.eqb k "name" then Some (get decoded "name")
    else None.
Proof.
  unfold Auth.refresh_payload.
  destruct (String.eqb_spec k "id") as [-> | H1]; [apply lookup_insert_eq|].
  rewrite lookup_insert_ne by congruence.
  destruct (String.eqb_spec k "email") as [-> | H2]; [apply lookup_insert_eq|].
  rewrite lookup_insert_ne by congruence.
  destruct (String.eqb_spec k "name") as [-> | H3]; [apply lookup_insert_eq|].
  rewrite lookup_insert_ne by congruence. apply lookup_empty.
Qed.

Lemma refreshed_claim decoded secret now k v :
  k = "id" \/ k = "email" \/ k = "name" ->
  decoded !! k = Some v -> Auth.defined v = true ->
  claims (Some (Auth.sign (Auth.refresh_payload decoded) secret 3600 now)) !! k = Some v.
Proof.
  intros Hk Hv Hdef. rewrite sign_claims, refresh_payload_claims.
  unfold get. destruct Hk as [-> | [-> | ->]]; simpl; rewrite Hv; simpl;
    destruct v; try reflexivity; discriminate.
Qed.

(** X9. Whatever verified token is presented, the access token POST
    /auth/refresh issues expires 3600 seconds later, keeps the id, email
    and name claims, carries no role, and is therefore refused by
    authorizeRoles for every list of roles. *)
Theorem refreshed_token_claims (secret : string) (now : Z) (tok : Auth.token)
        (decoded : jsobject) :
  Auth.verify tok secret now = inr decoded ->
  let answer := Auth.refresh secret now (Some tok) in
  let new := claims (data answer) in
  code answer = 200
  /\ new !! "exp" = Some (VNum (inject_Z (now + 3600)))
  /\ new !! "role" = None
  /\ (forall k v, k = "id" \/ k = "email" \/ k = "name" ->
        decoded !! k = Some v -> Auth.defined v = true -> new !! k = Some v)
  /\ (forall roles, Auth.authorizeRoles roles new = false)
  /\ (forall now', now' < now + 3600 ->
        Auth.authenticateJWT secret now' (data answer) = inr new).
Proof.
  intros Hv answer new. subst answer new. rewrite (refresh_valid secret now tok decoded Hv).
  simpl data.
  split; [reflexivity|]. split; [rewrite sign_claims; reflexivity|].
  split; [apply refreshed_payload_has_no_role|].
  split; [intros k v; apply refreshed_claim|].
  split.
  - intros roles. unfold Auth.authorizeRoles, get.
    rewrite refreshed_payload_has_no_role. reflexivity.
  - intros now' Hn. unfold Auth.authenticateJWT. rewrite verify_sign.
    destruct (Z.leb_spec (now + 3600) now'); [lia | reflexivity].
Qed.

Lemma refreshed_token_claims_witness :
  let tok := Auth.refreshToken Samples.tokens in
  Auth.verify tok Samples.secret 2000 = inr (claims (Some tok))
  /\ claims (data (Auth.refresh Samples.secret 2000 (Some tok))) !! "role" = None
  /\ claims (data (Auth.refresh Samples.secret 2000 (Some tok))) !! "name"
     = Some (VStr "Carol").
Proof.
  intros tok.
  assert (Hv : Auth.verify tok Samples.secret 2000 = inr (claims (Some tok))).
  { unfold tok, Samples.tokens. cbn [Auth.refreshToken]. rewrite verify_sign.
    reflexivity. }
  split; [exact Hv|].
  destruct (refreshed_token_claims Samples.secret 2000 tok _ Hv)
    as (_ & _ & Hrole & Hkeep & _).
  split; [exact Hrole|].
  apply (Hkeep "name" (VStr "Carol")); [auto | vm_compute; reflexivity | reflexivity].
Defined.

(** ** Accounts *)

Section AccountFacts.
Variable encode : string -> string.

Lemma register_success ext t body :
  code (Accounts.register encode ext t body).2 = 201 ->
  let user := mkUser (next_id t) (Accounts.r_email body)
                     (encode (Accounts.r_password body)) (Accounts.r_name body) "user" in
  is_email ext (Accounts.r_email body) = true
  /\ 6 <= validator_length (Accounts.r_password body)
  /\ findOne (fun u => String.eqb (email u) (Accounts.r_email body)) t = None
  /\ Accounts.register encode ext t body
     = (Table (rows t ++ [user]) (next_id t + 1),
        success 201 (usr_id user, email user, name user, role user)).
Proof.
  unfold Accounts.register.
  destruct (is_email ext (Accounts.r_email body)); simpl; [|discriminate].
  destruct (Z.leb_spec 6 (validator_length (Accounts.r_password body))); simpl; [|discriminate].
  destruct (_ || _); [discriminate|].
  destruct (findOne _ _); [discriminate|].
  intros _. repeat split; auto.
Qed.

Lemma register_effect ext t body :
  (Accounts.register encode ext t body).1 = t
  \/ (findOne (fun u => String.eqb (email u) (Accounts.r_email body)) t = None
      /\ (Accounts.register encode ext t body).1
         = Table (rows t
                  ++ [mkUser (next_id t) (Accounts.r_email body)
                             (encode (Accounts.r_password body))
                             (Accounts.r_name body) "user"])
                 (next_id t + 1)).
Proof.
  unfold Accounts.register.
  destruct (negb _); [left; reflexivity|].
  destruct (_ || _); [left; reflexivity|].
  destruct (findOne _ _) eqn:E; [left; reflexivity|].
  right. split; reflexivity.
Qed.

Lemma update_profile_effect ext t user body :
  (Accounts.update_profile encode ext t user body).1 = t
  \/ ((match Accounts.p_email body with
       | Some e => findOne (fun u => String.eqb (email u) e
                                     && negb (usr_id u =? uid user)) t = None
       | None => True
       end)
      /\ (Accounts.update_profile encode ext t user body).1
         = update (uid user) (Accounts.apply_profile encode body) t).
Proof.
  unfold Accounts.update_profile.
  destruct (_ && _); [left; reflexivity|].
  destruct (match Accounts.p_email body with Some e => negb _ | None => false end);
    [left; reflexivity|].
  destruct (findByPk _ _); [|left; reflexivity].
  destruct (Accounts.p_email body) as [e|].
  - destruct (findOne _ _) eqn:E; simpl; [left; reflexivity|].
    right. split; reflexivity.
  - right. split; [exact I | reflexivity].
Qed.

Lemma delete_profile_effect t user :
  (Accounts.delete_profile t user).1 = t
  \/ (Accounts.delete_profile t user).1 = destroy (uid user) t.
Proof.
  unfold Accounts.delete_profile. destruct (findByPk _ _); [right | left]; reflexivity.
Qed.

Lemma handle_fst ext t r :
  (Accounts.handle encode ext t r).1
  = match r with
    | Accounts.Register b => (Accounts.register encode ext t b).1
    | Accounts.UpdateProfile u b => (Accounts.update_profile encode ext t u b).1
    | Accounts.DeleteProfile u => (Accounts.delete_profile t u).1
    end.
Proof.
  destruct r; simpl;
    [destruct (Accounts.register _ _ _ _) | destruct (Accounts.update_profile _ _ _ _ _)
     | destruct (Accounts.delete_profile _ _)]; reflexivity.
Qed.

(** X10. No request under /auth gives an account a role: an account is created
    with the role "user" and keeps its role through every change of its
    profile.  When every account has the role "user", this stays so
    whatever requests are served, and every token a login then issues
    carries the role "user", which the role check of the summary route
    refuses. *)
Theorem accounts_keep_role_user (ext : Externals) (db : Db) (rs : list Accounts.request) :
  Forall (fun u => role u = "user") (rows (users db)) ->
  let t' := Accounts.run encode ext (users db) rs in
  Forall (fun u => role u = "user") (rows t')
  /\ forall db' secret now body,
      users db' = t' ->
      code (Auth.login ext secret now db' body) = 200 ->
      exists d,
        data (Auth.login ext secret now db' body) = Some d
        /\ claims (Some (Auth.accessToken d)) !! "role" = Some (VStr "user")
        /\ Auth.authorizeRoles ["companyuser"; "admin"] (claims (Some (Auth.accessToken d)))
           = false.
Proof.
  intros Hinv t'.
  assert (Hrun : Forall (fun u => role u = "user") (rows t')).
  { subst t'. generalize dependent (users db). clear db.
    induction rs as [|r rs IH]; intros t Hinv; [exact Hinv|].
    simpl. apply IH. rewrite handle_fst. destruct r as [b | u b | u].
    - destruct (register_effect ext t b) as [-> | [_ ->]]; [exact Hinv|].
      simpl. apply Forall_app. split; [exact Hinv|].
      apply Forall_cons. split; [reflexivity | apply Forall_nil_2].
    - destruct (update_profile_effect ext t u b) as [-> | [_ ->]]; [exact Hinv|].
      simpl. apply Forall_forall. intros x Hx.
      apply list_elem_of_In, in_map_iff in Hx. destruct Hx as [y [<- Hy]].
      rewrite Forall_forall in Hinv. apply list_elem_of_In, Hinv in Hy.
      destruct (pk y =? uid u); [exact Hy | exact Hy].
    - destruct (delete_profile_effect t u) as [-> | ->]; [exact Hinv|].
      simpl. apply Forall_forall. intros x Hx.
      apply list_elem_of_In, filter_In in Hx. destruct Hx as [Hx _].
      rewrite Forall_forall in Hinv. apply Hinv, list_elem_of_In, Hx. }
  split; [exact Hrun|].
  intros db' secret now body Hdb' Hcode.
  destruct (login_success ext secret now db' body Hcode) as (user & Hfind & _ & _ & Hdata).
  eexists. split; [exact Hdata|]. cbn [Auth.accessToken].
  apply List.find_some in Hfind as [Hin _]. rewrite Hdb' in Hin.
  rewrite Forall_forall in Hrun. apply list_elem_of_In, Hrun in Hin.
  assert (Hrole : claims (Some (Auth.sign (Auth.login_payload user) secret 3600 now))
                  !! "role" = Some (VStr "user")).
  { rewrite sign_claims, login_payload_claims. simpl. rewrite Hin. reflexivity. }
  split; [exact Hrole|].
  unfold Auth.authorizeRoles, get. rewrite Hrole. reflexivity.
Qed.

(** X11. After a registration that answers 201, a login with the same email and
    password answers 200, and a login with the same email and any other
    password answers 400, provided decoding undoes the encoding of the
    password. *)
Theorem register_then_login (ext : Externals) (secret : string) (now : Z)
        (db db' : Db) (body : Accounts.RegisterBody) :
  (forall s, base64_decode ext (encode s) = s) ->
  code (Accounts.register encode ext (users db) body).2 = 201 ->
  users db' = (Accounts.register encode ext (users db) body).1 ->
  code (Auth.login ext secret now db'
          (Auth.mkLoginBody (Accounts.r_email body) (Accounts.r_password body))) = 200
  /\ forall p, p <> Accounts.r_password body ->
       code (Auth.login ext secret now db' (Auth.mkLoginBody (Accounts.r_email body) p))
       = 400.
Proof.
  intros Hround Hcode Hdb'.
  destruct (register_success ext (users db) body Hcode) as (Hmail & Hlen & Hnone & Hreg).
  rewrite Hreg in Hdb'. cbn [fst] in Hdb'.
  assert (Hfind : forall p,
            findOne (fun u => String.eqb (email u)
                                (Auth.l_email (Auth.mkLoginBody (Accounts.r_email body) p)))
                    (users db')
            = Some (mkUser (next_id (users db)) (Accounts.r_email body)
                           (encode (Accounts.r_password body)) (Accounts.r_name body) "user")).
  { intros p. rewrite Hdb'. unfold findOne. simpl. rewrite (find_app_none _ _ _ Hnone).
    simpl. rewrite String.eqb_refl. reflexivity. }
  split.
  - unfold Auth.login. cbn [Auth.l_email Auth.l_password] in *.
    rewrite Hmail. destruct (Z.leb_spec 6 (validator_length (Accounts.r_password body))); [|lia].
    cbn [andb negb]. rewrite (Hfind (Accounts.r_password body)).
    cbn [password]. rewrite Hround, String.eqb_refl. reflexivity.
  - intros p Hp. unfold Auth.login. cbn [Auth.l_email Auth.l_password] in *.
    rewrite Hmail. destruct (6 <=? validator_length p); [|reflexivity].
    cbn [andb negb]. rewrite (Hfind p). cbn [password]. rewrite Hround.
    destruct (String.eqb_spec (Accounts.r_password body) p); [congruence | reflexivity].
Qed.

End AccountFacts.

Lemma register_then_login_witness :
  let t' := (Accounts.register Base64.encode Samples.ext0 (users Samples.db2)
                               MoreSamples.register_erin).1 in
  let db' := mkDb t' (jobs Samples.db2) (applications Samples.db2)
                  (interviews Samples.db2) (jobreviews Samples.db2) in
  (forall s, base64_decode Samples.ext0 (Base64.encode s) = s)
  /\ code (Accounts.register Base64.encode Samples.ext0 (users Samples.db2)
                             MoreSamples.register_erin).2 = 201
  /\ code (Auth.login Samples.ext0 Samples.secret 1000 db'
             (Auth.mkLoginBody "erin@example.com" "hunter22")) = 200.
Proof.
  intros t' db'.
  assert (Hr : forall s, base64_decode Samples.ext0 (Base64.encode s) = s) by (intros s; apply decode_encode).
  assert (Hc : code (Accounts.register Base64.encode Samples.ext0 (users Samples.db2)
                       MoreSamples.register_erin).2 = 201) by (vm_compute; reflexivity).
  split; [exact Hr|]. split; [exact Hc|].
  exact (proj1 (register_then_login Base64.encode Samples.ext0 Samples.secret 1000
                  Samples.db2 db' MoreSamples.register_erin Hr Hc eq_refl)).
Defined.

Lemma accounts_keep_role_user_witness :
  let db := mkDb (Table [Samples.user_alice] 2) (jobs Samples.db0)
                 empty_table empty_table empty_table in
  let rs := [Accounts.Register MoreSamples.register_erin;
             Accounts.UpdateProfile (mkAuthUser 2 (Some "user"))
               (Accounts.mkProfileBody None (Some "Erin K.") None)] in
  Forall (fun u => role u = "user") (rows (users db))
  /\ Forall (fun u => role u = "user")
            (rows (Accounts.run Base64.encode Samples.ext0 (users db) rs)).
Proof.
  intros db rs.
  assert (H : Forall (fun u => role u = "user") (rows (users db))).
  { apply Forall_cons. split; [reflexivity | apply Forall_nil_2]. }
  split; [exact H|].
  exact (proj1 (accounts_keep_role_user Base64.encode Samples.ext0 db rs H)).
Defined.

Section TableMore.
Context {R : Type} `{Model R}.

Lemma findByPk_exists (id : Z) (t : table R) (r : R) :
  In r (rows t) -> pk r = id -> is_Some (findByPk id t).
Proof.
  intros Hin Hpk. unfold findByPk, findOne.
  destruct (List.find _ _) eqn:E; [eexists; reflexivity|].
  apply (List.find_none _ _ E) in Hin. lia.
Qed.

Lemma NoDup_map_filter {B} (f : R -> B) (p : R -> bool) (l : list R) :
  NoDup (List.map f l) -> NoDup (List.map f (List.filter p l)).
Proof.
  induction l as [|x l IH]; simpl; intros Hnd; [exact Hnd|].
  apply NoDup_cons in Hnd as [Hx Hnd].
  destruct (p x); [|apply IH, Hnd]. simpl. apply NoDup_cons. split; [|apply IH, Hnd].
  intros Hin. apply Hx. apply list_elem_of_In, in_map_iff in Hin.
  destruct Hin as [y [Hy Hin]]. apply filter_In in Hin as [Hin _].
  apply list_elem_of_In, in_map_iff. exists y. split; assumption.
Qed.

Lemma keys_issued_create (mk : Z -> R) (t : table R) :
  (forall id, pk (mk id) = id) -> keys_issued t -> keys_issued (create mk t).1.
Proof.
  intros Hmk [Hnd Hlt]. unfold keys_issued, create. simpl. split.
  - rewrite map_app. simpl. rewrite Hmk. apply NoDup_app. split; [exact Hnd|].
    split; [|apply NoDup_singleton].
    intros x Hx Hx'. apply list_elem_of_singleton in Hx'. subst x.
    apply list_elem_of_In, in_map_iff in Hx. destruct Hx as [y [Hy Hin]].
    rewrite Forall_forall in Hlt. apply list_elem_of_In, Hlt in Hin. lia.
  - apply Forall_app. split.
    + eapply Forall_impl; [exact Hlt|]. simpl. intros. lia.
    + apply Forall_cons. split; [rewrite Hmk; lia | apply Forall_nil_2].
Qed.

Lemma keys_issued_update (id : Z) (f : R -> R) (t : table R) :
  (forall r, pk (f r) = pk r) -> keys_issued t -> keys_issued (update id f t).
Proof.
  intros Hf [Hnd Hlt]. unfold keys_issued, update. simpl.
  assert (Hmap : List.map pk (List.map (fun r => if pk r =? id then f r else r) (rows t))
                 = List.map pk (rows t)).
  { rewrite List.map_map. apply map_ext. intros r. destruct (pk r =? id); auto. }
  split; [rewrite Hmap; exact Hnd|].
  apply Forall_forall. intros x Hx. apply list_elem_of_In, in_map_iff in Hx.
  destruct Hx as [y [<- Hy]]. rewrite Forall_forall in Hlt.
  apply list_elem_of_In, Hlt in Hy. destruct (pk y =? id); [rewrite Hf|]; exact Hy.
Qed.

Lemma keys_issued_destroy (id : Z) (t : table R) :
  keys_issued t -> keys_issued (destroy id t).
Proof.
  intros [Hnd Hlt]. unfold keys_issued, destroy. simpl. split.
  - apply NoDup_map_filter, Hnd.
  - apply Forall_forall. intros x Hx. apply list_elem_of_In, filter_In in Hx.
    rewrite Forall_forall in Hlt. apply Hlt, list_elem_of_In, Hx.
Qed.

(** With unique keys, the row found by key is the only row with that key. *)
Lemma NoDup_pk_unique (l : list R) (a b : R) :
  NoDup (List.map pk l) -> In a l -> In b l -> pk a = pk b -> a = b.
Proof.
  induction l as [|x l IH]; simpl; [tauto|].
  intros Hnd [-> | Ha] [-> | Hb] Heq; try reflexivity.
  - apply NoDup_cons in Hnd as [Hx _]. exfalso. apply Hx.
    rewrite Heq. apply list_elem_of_In, in_map, Hb.
  - apply NoDup_cons in Hnd as [Hx _]. exfalso. apply Hx.
    rewrite <- Heq. apply list_elem_of_In, in_map, Ha.
  - apply NoDup_cons in Hnd as [_ Hnd]. eauto.
Qed.
End TableMore.

Section AccountFacts2.
Variable encode : string -> string.

Lemma emails_after_update body uid_ (l : list User) :
  NoDup (List.map usr_id l) -> NoDup (List.map email l) ->
  (forall e, Accounts.p_email body = Some e ->
     forall x, In x l -> usr_id x <> uid_ -> email x <> e) ->
  NoDup (List.map email
           (List.map (fun r => if usr_id r =? uid_
                               then Accounts.apply_profile encode body r else r) l)).
Proof.
  intros Hid Hem Hother.
  destruct (Accounts.p_email body) as [e|] eqn:He.
  2:{ replace (List.map email (List.map _ l)) with (List.map email l); [exact Hem|].
      rewrite List.map_map. apply map_ext. intros r.
      destruct (usr_id r =? uid_); [|reflexivity].
      unfold Accounts.apply_profile. rewrite He. reflexivity. }
  specialize (Hother e eq_refl).
  induction l as [|x l IH]; simpl; [apply NoDup_nil_2|].
  simpl in Hid, Hem. apply NoDup_cons in Hid as [Hx Hid]. apply NoDup_cons in Hem as [Hxe Hem].
  apply NoDup_cons. split.
  2:{ apply IH; auto. intros y Hy. apply Hother. right. exact Hy. }
  intros Hin. apply list_elem_of_In, in_map_iff in Hin. destruct Hin as [y' [Hy' Hin]].
  apply in_map_iff in Hin. destruct Hin as [y [<- Hy]].
  assert (Hxy : usr_id y <> usr_id x).
  { intros Heq. apply Hx. rewrite <- Heq. apply list_elem_of_In, in_map, Hy. }
  destruct (Z.eqb_spec (usr_id x) uid_) as [Ex | Ex];
    destruct (Z.eqb_spec (usr_id y) uid_) as [Ey | Ey]; try lia.
  - unfold Accounts.apply_profile in Hy'. rewrite He in Hy'. simpl in Hy'.
    apply (Hother y); [right; exact Hy | exact Ey | exact Hy'].
  - unfold Accounts.apply_profile in Hy'. rewrite He in Hy'. simpl in Hy'.
    apply (Hother x); [left; reflexivity | exact Ex | symmetry; exact Hy'].
  - apply Hxe. rewrite <- Hy'. apply list_elem_of_In, in_map, Hy.
Qed.

Lemma find_none_email e (l : list User) :
  List.find (fun u => String.eqb (email u) e) l = None -> e ∉ List.map email l.
Proof.
  intros Hnone Hin. apply list_elem_of_In, in_map_iff in Hin.
  destruct Hin as [u [Hu Hin]]. apply (List.find_none _ _ Hnone) in Hin.
  rewrite Hu, String.eqb_refl in Hin. discriminate.
Qed.

(** X12. Keys and emails of the accounts stay unique through every sequence of
    registrations, profile changes and deletions. *)
Theorem accounts_stay_unique (ext : Externals) (t : table User) (rs : list Accounts.request) :
  keys_issued t -> NoDup (List.map email (rows t)) ->
  let t' := Accounts.run encode ext t rs in
  keys_issued t' /\ NoDup (List.map email (rows t')).
Proof.
  intros Hk He t'. subst t'. revert t Hk He.
  induction rs as [|r rs IH]; intros t Hk He; [split; assumption|].
  simpl. rewrite handle_fst.
  destruct r as [b | u b | u].
  - destruct (register_effect encode ext t b) as [-> | [Hnone ->]]; [apply IH; assumption|].
    apply IH; simpl.
    + apply (keys_issued_create
               (fun id => mkUser id (Accounts.r_email b) (encode (Accounts.r_password b))
                                 (Accounts.r_name b) "user") t);
        [reflexivity | exact Hk].
    + rewrite map_app. simpl. apply NoDup_app. split; [exact He|].
      split; [|apply NoDup_singleton].
      intros x Hx Hx'. apply list_elem_of_singleton in Hx'. subst x.
      exact (find_none_email _ _ Hnone Hx).
  - destruct (update_profile_effect encode ext t u b) as [-> | [Hother ->]];
      [apply IH; assumption|].
    apply IH; simpl.
    + apply keys_issued_update; [reflexivity | exact Hk].
    + apply emails_after_update; [apply Hk | exact He|].
      intros e Hpe x Hx Hne Hmail. rewrite Hpe in Hother.
      apply (List.find_none _ _ Hother) in Hx.
      rewrite Hmail, String.eqb_refl in Hx. simpl in Hx.
      destruct (Z.eqb_spec (usr_id x) (uid u)); [contradiction | discriminate].
  - destruct (delete_profile_effect t u) as [-> | ->]; [apply IH; assumption|].
    apply IH; simpl.
    + apply keys_issued_destroy, Hk.
    + apply NoDup_map_filter, He.
Qed.

(** X13. A password shorter than six characters can be set through PUT
    /auth/profile, which does not validate it; afterwards no login to that
    account succeeds, since the login validation refuses the password that
    would match (decoding is assumed to undo the encoding). *)
Theorem short_password_locks_out (ext : Externals) (db db' : Db) (user : AuthUser)
        (row : User) (p : string) :
  (forall s, base64_decode ext (encode s) = s) ->
  p <> "" -> validator_length p < 6 ->
  findOne (fun u => String.eqb (email u) (email row)) (users db) = Some row ->
  usr_id row = uid user ->
  let body := Accounts.mkProfileBody None None (Some p) in
  users db' = (Accounts.update_profile encode ext (users db) user body).1 ->
  code (Accounts.update_profile encode ext (users db) user body).2 = 200
  /\ forall secret now p',
       code (Auth.login ext secret now db' (Auth.mkLoginBody (email row) p')) = 400.
Proof.
  intros Hround Hp Hlen Hfind Hid body Hdb'.
  assert (Hin : In row (rows (users db))) by (apply (List.find_some _ _ Hfind)).
  destruct (@findByPk_exists User User_model (uid user) (users db) row Hin Hid) as [r0 Hr0].
  assert (Hupd : Accounts.update_profile encode ext (users db) user body
                 = (update (uid user) (Accounts.apply_profile encode body) (users db),
                    Response 200 "success" (Some "회원 정보가 성공적으로 수정되었습니다.") None)).
  { unfold Accounts.update_profile. cbv zeta.
    cbn [Accounts.p_email Accounts.p_name Accounts.p_password body Accounts.given].
    destruct (String.eqb_spec p ""); [contradiction|]. cbn [negb andb].
    rewrite Hr0. reflexivity. }
  rewrite Hupd in Hdb' |- *. cbn [fst snd code] in Hdb' |- *. split; [reflexivity|].
  intros secret now p'. unfold Auth.login. cbn [Auth.l_email Auth.l_password].
  destruct (is_email ext (email row) && (6 <=? validator_length p')) eqn:Hvalid; [|reflexivity].
  cbn [negb]. apply andb_true_iff in Hvalid as [_ Hlen'].
  assert (Hf : findOne (fun u => String.eqb (email u) (email row)) (users db')
               = Some (Accounts.apply_profile encode body row)).
  { rewrite Hdb'. unfold findOne, update. cbn [users rows].
    rewrite (find_map_stable (fun u => String.eqb (email u) (email row))).
    - unfold findOne in Hfind. rewrite Hfind. simpl.
      change (pk row) with (usr_id row). rewrite Hid, Z.eqb_refl. reflexivity.
    - intros r. destruct (pk r =? uid user); reflexivity. }
  assert (Hpw : password (Accounts.apply_profile encode body row) = encode p).
  { unfold Accounts.apply_profile, body. cbn [password Accounts.given Accounts.p_password default].
    destruct (String.eqb_spec p ""); [contradiction | reflexivity]. }
  rewrite Hf, Hpw, Hround.
  destruct (String.eqb_spec p p') as [<- | Hne]; [lia | reflexivity].
Qed.

End AccountFacts2.

Lemma short_password_locks_out_witness :
  let db := mkDb (Accounts.register Base64.encode Samples.ext0 (users Samples.db2)
                                    MoreSamples.register_erin).1
                 (jobs Samples.db2) (applications Samples.db2)
                 (interviews Samples.db2) (jobreviews Samples.db2) in
  let body := Accounts.mkProfileBody None None (Some "abc") in
  let db' := mkDb (Accounts.update_profile Base64.encode Samples.ext0 (users db)
                                           MoreSamples.erin body).1
                  (jobs db) (applications db) (interviews db) (jobreviews db) in
  (forall s, base64_decode Samples.ext0 (Base64.encode s) = s)
  /\ validator_length "abc" < 6
  /\ code (Accounts.update_profile Base64.encode Samples.ext0 (users db)
                                   MoreSamples.erin body).2 = 200
  /\ code (Auth.login Samples.ext0 Samples.secret 1000 db'
             (Auth.mkLoginBody "erin@example.com" "abc")) = 400.
Proof.
  intros db body db'.
  assert (Hr : forall s, base64_decode Samples.ext0 (Base64.encode s) = s)
    by (intros s; apply decode_encode).
  assert (Hl : validator_length "abc" < 6) by reflexivity.
  split; [exact Hr|]. split; [exact Hl|].
  destruct (short_password_locks_out Base64.encode Samples.ext0 db db' MoreSamples.erin
              (mkUser 5 "erin@example.com" "aHVudGVyMjI=" "Erin" "user") "abc"
              Hr ltac:(discriminate) Hl eq_refl eq_refl eq_refl) as [H200 Hlogin].
  split; [exact H200|]. exact (Hlogin Samples.secret 1000 "abc").
Defined.

Lemma accounts_stay_unique_witness :
  let t := Table [Samples.user_alice] 2 in
  let rs := [Accounts.Register MoreSamples.register_erin;
             Accounts.UpdateProfile (mkAuthUser 2 (Some "user"))
               (Accounts.mkProfileBody (Some "alice@example.com") None None)] in
  keys_issued t
  /\ NoDup (List.map email (rows (Accounts.run Base64.encode Samples.ext0 t rs))).
Proof.
  intros t rs.
  assert (Hk : keys_issued t).
  { split; simpl.
    - apply NoDup_singleton.
    - apply Forall_cons. split; [reflexivity | apply Forall_nil_2]. }
  assert (He : NoDup (List.map email (rows t))) by apply NoDup_singleton.
  split; [exact Hk|].
  exact (proj2 (accounts_stay_unique Base64.encode Samples.ext0 t rs Hk He)).
Defined.

(** ** Interviews and the states the system reaches *)

Section InterviewFacts.
Import Interviews.

Lemma interviews_put_effect db user a f :
  (Interviews.put db user a f).1 = db
  \/ exists id, (Interviews.put db user a f).1
                = with_interviews (update id (set_feedback f) (interviews db)) db.
Proof.
  unfold Interviews.put. cbv zeta.
  destruct (findOne _ (interviews db)) as [i|]; [|left; reflexivity].
  destruct (joined db i); [|left; reflexivity].
  destruct (negb _); [left; reflexivity|].
  right. eexists. reflexivity.
Qed.

Lemma interviews_delete_cases db user id :
  Interviews.delete db user id
  = match findOne (fun i => (int_id i =? id) && (int_userId i =? uid user))
                  (interviews db) with
    | None => (db, error 404 "해당 인터뷰를 찾을 수 없거나 권한이 없습니다.")
    | Some _ =>
        (with_interviews (destroy id (interviews db)) db,
         Response 200 "success" (Some "인터뷰가 삭제되었습니다.") None)
    end.
Proof.
  unfold Interviews.delete.
  destruct (findOne _ _) as [i|] eqn:Hi; [|reflexivity].
  apply List.find_some in Hi as [_ Hc]. apply andb_true_iff in Hc as [Hid _].
  apply Z.eqb_eq in Hid. rewrite Hid. reflexivity.
Qed.

(** The handlers of the other routes leave the interviews table alone. *)
Lemma handle_interviews ext db r :
  match r with
  | InterviewsPost _ _ | InterviewsPut _ _ _ | InterviewsDelete _ _ => True
  | _ => interviews (handle ext db r).1 = interviews db
  end.
Proof.
  destruct r; simpl; try exact I; try reflexivity.
  - unfold Applications.post.
    destruct (Applications.missing _); [reflexivity|].
    destruct (findByPk _ (jobs db)); [|reflexivity].
    destruct (findOne _ _) as [a|].
    + destruct (String.eqb _ _); reflexivity.
    + destruct (bool_decide _); reflexivity.
  - rewrite delete_cases. destruct (findOne _ _); reflexivity.
  - unfold Jobs.post. destruct (Jobs.validate ext body); [|reflexivity].
    destruct (Jobs.job_of_body ext body); reflexivity.
  - rewrite put_cases. destruct (Jobs.validate ext body); [|reflexivity].
    destruct (findByPk id (jobs db)); reflexivity.
  - unfold Jobs.get_by_id. destruct (findByPk id (jobs db)); reflexivity.
  - unfold Jobs.delete. destruct (findByPk id (jobs db)); reflexivity.
  - destruct (jobreviews_post_effect ext db user body) as [E | [stored E]];
      destruct (JobReviews.post ext db user body) as [d' res];
      simpl in E; subst; reflexivity.
Qed.

Lemma handle_fst_interviews ext db r :
  (handle ext db r).1
  = match r with
    | InterviewsPost u b => (Interviews.post ext db u b).1
    | InterviewsPut u a f => (Interviews.put db u a f).1
    | InterviewsDelete u i => (Interviews.delete db u i).1
    | _ => (handle ext db r).1
    end.
Proof.
  destruct r; try reflexivity; simpl.
  - destruct (Interviews.post ext db user body); reflexivity.
  - destruct (Interviews.put db user applicationId_ feedback_); reflexivity.
  - destruct (Interviews.delete db user id); reflexivity.
Qed.

(** What a request does to the interviews table. *)
Lemma interviews_effect ext db r :
  interviews (handle ext db r).1 = interviews db
  \/ (exists i,
        int_id i = next_id (interviews db)
        /\ (exists a, In a (rows (applications db))
                      /\ app_id a = applicationId i /\ app_userId a = int_userId i
                      /\ interview_status i = app_status a)
        /\ interviews (handle ext db r).1
           = Table (rows (interviews db) ++ [i]) (next_id (interviews db) + 1))
  \/ (exists id f,
        interviews (handle ext db r).1 = update id (set_feedback f) (interviews db))
  \/ (exists id, interviews (handle ext db r).1 = destroy id (interviews db)).
Proof.
  pose proof (handle_interviews ext db r) as Hr.
  rewrite handle_fst_interviews.
  destruct r; try (left; rewrite <- Hr; reflexivity).
  - destruct (interviews_post_effect ext db user body)
      as [-> | (a & date & Hin & Hid & Hu & _ & _ & ->)]; [left; reflexivity|].
    right. left.
    exists (mkInterview (next_id (interviews db)) (b_applicationId body)
                        (uid user) date (app_status a) (b_feedback body)).
    split; [reflexivity|]. split; [|reflexivity].
    exists a. simpl. repeat split; auto.
  - destruct (interviews_put_effect db user applicationId_ feedback_) as [-> | [id ->]];
      [left; reflexivity|].
    right. right. left. exists id, feedback_. reflexivity.
  - rewrite interviews_delete_cases. destruct (findOne _ _); [|left; reflexivity].
    right. right. right. exists id. reflexivity.
Qed.

(** What a request does to the applications table. *)
Lemma applications_effect ext db r :
  applications (handle ext db r).1 = applications db
  \/ (exists id s, applications (handle ext db r).1
                   = update id (Applications.set_status s) (applications db))
  \/ (exists a, app_id a = next_id (applications db)
                /\ applications (handle ext db r).1
                   = Table (rows (applications db) ++ [a]) (next_id (applications db) + 1)).
Proof.
  pose proof (handle_applications ext db r) as Hr.
  destruct r; try (left; exact Hr).
  - rewrite handle_fst_post. unfold Applications.post.
    destruct (Applications.missing _); [left; reflexivity|].
    destruct (findByPk _ (jobs db)); [|left; reflexivity].
    destruct (findOne _ _) as [a|].
    + destruct (String.eqb _ _); [|left; reflexivity].
      right. left. eexists _, _. reflexivity.
    + destruct (bool_decide _); [|left; reflexivity].
      right. right. eexists. split; [|reflexivity]. reflexivity.
  - rewrite handle_fst_delete, delete_cases.
    destruct (findOne _ _); [|left; reflexivity].
    right. left. eexists _, _. reflexivity.
Qed.

(** No request removes an application or changes its key or its owner. *)
Lemma applications_kept ext db r a :
  In a (rows (applications db)) ->
  exists a', In a' (rows (applications (handle ext db r).1))
             /\ app_id a' = app_id a /\ app_userId a' = app_userId a.
Proof.
  intros Hin.
  destruct (applications_effect ext db r) as [-> | [(id & s & ->) | (n & _ & ->)]].
  - exists a. auto.
  - exists (if pk a =? id then Applications.set_status s a else a). split.
    + simpl. apply in_map_iff. exists a. auto.
    + destruct (pk a =? id); auto.
  - exists a. simpl. split; [apply in_or_app; left; exact Hin | auto].
Qed.

Lemma consistent_step ext db r i :
  interview_consistent db i -> interview_consistent (handle ext db r).1 i.
Proof.
  intros [(a & Hin & Hid & Hu) Hst]. split; [|exact Hst].
  destruct (applications_kept ext db r a Hin) as (a' & Hin' & Hid' & Hu').
  exists a'. split; [exact Hin'|]. split; congruence.
Qed.

Lemma keys_issued_applications_step ext db r :
  keys_issued (applications db) -> keys_issued (applications (handle ext db r).1).
Proof.
  intros Hk.
  destruct (applications_effect ext db r) as [-> | [(id & s & ->) | (a & Ha & ->)]].
  - exact Hk.
  - apply keys_issued_update; [reflexivity | exact Hk].
  - change (Table (rows (applications db) ++ [a]) (next_id (applications db) + 1))
      with (create (fun _ => a) (applications db)).1.
    destruct Hk as [Hnd Hlt]. split; simpl.
    + rewrite map_app. simpl. apply NoDup_app. split; [exact Hnd|].
      split; [|apply NoDup_singleton].
      intros x Hx Hx'. apply list_elem_of_singleton in Hx'. subst x.
      apply list_elem_of_In, in_map_iff in Hx. destruct Hx as [y [Hy Hin]].
      rewrite Forall_forall in Hlt. apply list_elem_of_In, Hlt in Hin.
      change (pk a) with (app_id a) in Hy. lia.
    + apply Forall_app. split.
      * eapply Forall_impl; [exact Hlt|]. simpl. intros. lia.
      * apply Forall_cons. split; [change (pk a) with (app_id a); lia | apply Forall_nil_2].
Qed.

Lemma keys_issued_interviews_step ext db r :
  keys_issued (interviews db) -> keys_issued (interviews (handle ext db r).1).
Proof.
  intros Hk.
  destruct (interviews_effect ext db r)
    as [-> | [(i & Hi & _ & ->) | [(id & f & ->) | (id & ->)]]].
  - exact Hk.
  - destruct Hk as [Hnd Hlt]. split; simpl.
    + rewrite map_app. simpl. apply NoDup_app. split; [exact Hnd|].
      split; [|apply NoDup_singleton].
      intros x Hx Hx'. apply list_elem_of_singleton in Hx'. subst x.
      apply list_elem_of_In, in_map_iff in Hx. destruct Hx as [y [Hy Hin]].
      rewrite Forall_forall in Hlt. apply list_elem_of_In, Hlt in Hin.
      change (pk i) with (int_id i) in Hy. lia.
    + apply Forall_app. split.
      * eapply Forall_impl; [exact Hlt|]. simpl. intros. lia.
      * apply Forall_cons. split; [change (pk i) with (int_id i); lia | apply Forall_nil_2].
  - apply keys_issued_update; [reflexivity | exact Hk].
  - apply keys_issued_destroy, Hk.
Qed.

(** X14. In every state the system reaches from start-up, the keys of the
    applications and of the interviews are pairwise different, and every
    stored interview points to a stored application of the interview's own
    user and records "지원 완료" or "지원 취소" as its status. *)
Theorem reachable_store_consistent (ext : Externals) (db : Db) :
  reachable ext db ->
  keys_issued (applications db)
  /\ keys_issued (interviews db)
  /\ Forall (interview_consistent db) (rows (interviews db)).
Proof.
  intros Hreach.
  induction Hreach as [db [Happ Hint] | db r Hreach (Hka & Hki & Hc)].
  - unfold keys_issued. rewrite Happ, Hint. simpl.
    repeat split; try apply NoDup_nil_2; apply Forall_nil_2.
  - split; [apply keys_issued_applications_step, Hka|].
    split; [apply keys_issued_interviews_step, Hki|].
    pose proof (reachable_two_states ext db Hreach) as Htwo.
    assert (Hold : Forall (interview_consistent (handle ext db r).1) (rows (interviews db))).
    { eapply Forall_impl; [exact Hc|]. intros i. apply consistent_step. }
    destruct (interviews_effect ext db r)
      as [-> | [(i & Hi & (a & Hin & Hid & Hu & Hst) & ->) | [(id & f & ->) | (id & ->)]]].
    + exact Hold.
    + simpl. apply Forall_app. split; [exact Hold|].
      apply Forall_cons. split; [|apply Forall_nil_2].
      apply consistent_step. split.
      * exists a. auto.
      * rewrite Hst. unfold two_states in Htwo. rewrite Forall_forall in Htwo.
        apply Htwo, list_elem_of_In, Hin.
    + simpl. apply Forall_forall. intros x Hx.
      apply list_elem_of_In, in_map_iff in Hx. destruct Hx as [y [<- Hy]].
      rewrite Forall_forall in Hold. apply list_elem_of_In, Hold in Hy.
      destruct (pk y =? id); exact Hy.
    + simpl. apply Forall_forall. intros x Hx.
      apply list_elem_of_In, filter_In in Hx. destruct Hx as [Hx _].
      rewrite Forall_forall in Hold. apply Hold, list_elem_of_In, Hx.
Qed.

Lemma reachable_store_consistent_witness :
  let r1 := ApplicationsPost Samples.alice (Applications.mkApplyBody (Some 7) None) in
  let r2 := InterviewsPost Samples.alice
              (Interviews.mkCreateBody 1 (Some "2024-12-20") None) in
  let db := (handle Samples.ext0 (handle Samples.ext0 Samples.db0 r1).1 r2).1 in
  reachable Samples.ext0 db
  /\ length (rows (interviews db)) = 1%nat
  /\ Forall (interview_consistent db) (rows (interviews db)).
Proof.
  intros r1 r2 db.
  assert (Hreach : reachable Samples.ext0 db).
  { apply reachable_step, reachable_step, reachable_initial. split; reflexivity. }
  split; [exact Hreach|]. split; [reflexivity|].
  exact (proj2 (proj2 (reachable_store_consistent Samples.ext0 db Hreach))).
Defined.

(** X15. Whatever request is served, an interview that stays stored keeps its
    application, its user, its date and its status: the status is the
    application's at the time the interview was created and does not follow
    the application afterwards.  Only the feedback can change. *)
Theorem interview_status_is_snapshot (ext : Externals) (db : Db) (r : request)
        (i i' : Interview) :
  keys_issued (interviews db) ->
  In i (rows (interviews db)) ->
  In i' (rows (interviews (handle ext db r).1)) ->
  int_id i' = int_id i ->
  applicationId i' = applicationId i /\ int_userId i' = int_userId i
  /\ interview_date i' = interview_date i /\ interview_status i' = interview_status i.
Proof.
  intros [Hnd Hlt] Hin Hin' Hid.
  assert (Hsame : In i' (rows (interviews db)) ->
                  applicationId i' = applicationId i /\ int_userId i' = int_userId i
                  /\ interview_date i' = interview_date i
                  /\ interview_status i' = interview_status i).
  { intros Hold.
    rewrite (NoDup_pk_unique (rows (interviews db)) i' i Hnd Hold Hin Hid). auto. }
  destruct (interviews_effect ext db r)
    as [E | [(n & Hn & _ & E) | [(id & f & E) | (id & E)]]]; rewrite E in Hin'.
  - apply Hsame, Hin'.
  - simpl in Hin'. apply in_app_or in Hin' as [Hold | [<- | []]]; [apply Hsame, Hold|].
    rewrite Forall_forall in Hlt. apply list_elem_of_In, Hlt in Hin.
    change (pk i) with (int_id i) in Hin. lia.
  - simpl in Hin'. apply in_map_iff in Hin' as [y [Hy Hold]].
    assert (Hyi : y = i).
    { apply (NoDup_pk_unique (rows (interviews db)) y i Hnd Hold Hin).
      change (int_id y = int_id i). rewrite <- Hid, <- Hy.
      destruct (pk y =? id); reflexivity. }
    subst y. rewrite <- Hy. destruct (pk i =? id); auto.
  - simpl in Hin'. apply filter_In in Hin' as [Hold _]. apply Hsame, Hold.
Qed.

Lemma interview_status_is_snapshot_witness :
  let r1 := ApplicationsPost Samples.alice (Applications.mkApplyBody (Some 7) None) in
  let r2 := InterviewsPost Samples.alice
              (Interviews.mkCreateBody 1 (Some "2024-12-20") None) in
  let db := (handle Samples.ext0 (handle Samples.ext0 Samples.db0 r1).1 r2).1 in
  let withdraw := ApplicationsDelete Samples.alice 7 in
  let i := mkInterview 1 1 1 "2024-12-20T00:00:00.000Z" submitted None in
  keys_issued (interviews db)
  /\ List.map app_status (rows (applications (handle Samples.ext0 db withdraw).1))
     = [withdrawn]
  /\ interview_status i = submitted
  /\ forall i', In i' (rows (interviews (handle Samples.ext0 db withdraw).1)) ->
                int_id i' = 1 -> interview_status i' = interview_status i.
Proof.
  intros r1 r2 db withdraw i.
  assert (Hk : keys_issued (interviews db)).
  { split; simpl.
    - apply NoDup_singleton.
    - apply Forall_cons. split; [reflexivity | apply Forall_nil_2]. }
  split; [exact Hk|]. split; [reflexivity|]. split; [reflexivity|].
  intros i' Hin' Hid.
  exact (proj2 (proj2 (proj2
    (interview_status_is_snapshot Samples.ext0 db withdraw i i' Hk
       (or_introl eq_refl) Hin' Hid)))).
Defined.

(** X16. DELETE /interviews/:id removes the interview with that key when it is
    the caller's and answers 200; otherwise it answers 404 and removes
    nothing.  No other interview is removed, and no other table changes. *)
Theorem interviews_delete_own_only (db : Db) (user : AuthUser) (id : Z) :
  NoDup (List.map int_id (rows (interviews db))) ->
  let res := Interviews.delete db user id in
  let mine i := int_id i = id /\ int_userId i = uid user in
  (code res.2 = 200 <-> exists i, In i (rows (interviews db)) /\ mine i)
  /\ (code res.2 = 200 \/ (code res.2 = 404 /\ res.1 = db))
  /\ (forall i, In i (rows (interviews res.1))
                <-> In i (rows (interviews db)) /\ ~ mine i)
  /\ applications res.1 = applications db /\ jobs res.1 = jobs db
  /\ users res.1 = users db /\ jobreviews res.1 = jobreviews db.
Proof.
  intros Hnd res mine. subst res mine. rewrite interviews_delete_cases.
  destruct (findOne _ (interviews db)) as [i0|] eqn:Hf; cbn [fst snd code].
  - apply List.find_some in Hf as [Hin0 Hc].
    apply andb_true_iff in Hc as [Hid0 Hu0]. apply Z.eqb_eq in Hid0, Hu0.
    split; [split; [intros _; exists i0; auto | reflexivity]|].
    split; [left; reflexivity|].
    split; [|repeat split].
    intros i. simpl. rewrite filter_In. change (pk i) with (int_id i). split.
    + intros [Hin Hne]. split; [exact Hin|]. intros [Hid _].
      apply Z.eqb_eq in Hid. rewrite Hid in Hne. discriminate.
    + intros [Hin Hnot]. split; [exact Hin|].
      destruct (Z.eqb_spec (int_id i) id) as [Hid|]; [|reflexivity].
      exfalso. apply Hnot. split; [exact Hid|].
      assert (Hi : i = i0)
        by (apply (NoDup_pk_unique (rows (interviews db)) i i0 Hnd Hin Hin0);
            change (int_id i = int_id i0); lia).
      subst i. exact Hu0.
  - split.
    { split; [discriminate|]. intros (i & Hin & Hid & Hu).
      apply (List.find_none _ _ Hf) in Hin. lia. }
    split; [right; split; reflexivity|].
    split; [|repeat split].
    intros i. split; [|tauto]. intros Hin. split; [exact Hin|].
    intros [Hid Hu]. apply (List.find_none _ _ Hf) in Hin. lia.
Qed.

Lemma interviews_delete_own_only_witness :
  let r1 := ApplicationsPost Samples.alice (Applications.mkApplyBody (Some 7) None) in
  let r2 := InterviewsPost Samples.alice
              (Interviews.mkCreateBody 1 (Some "2024-12-20") None) in
  let db := (handle Samples.ext0 (handle Samples.ext0 Samples.db0 r1).1 r2).1 in
  NoDup (List.map int_id (rows (interviews db)))
  /\ (Interviews.delete db Samples.bob 1).1 = db
  /\ rows (interviews (Interviews.delete db Samples.alice 1).1) = [].
Proof.
  intros r1 r2 db.
  assert (Hnd : NoDup (List.map int_id (rows (interviews db)))) by apply NoDup_singleton.
  split; [exact Hnd|].
  destruct (interviews_delete_own_only db Samples.bob 1 Hnd) as (_ & [Hc | [_ Hdb]] & _).
  - vm_compute in Hc. discriminate.
  - split; [exact Hdb | reflexivity].
Defined.

Lemma interviews_post_created ext db user body :
  code (Interviews.post ext db user body).2 = 201 ->
  exists a date,
    findOne (fun a => (app_id a =? b_applicationId body) && (app_userId a =? uid user))
            (applications db) = Some a
    /\ b_interview_date body ≫= date_column ext = Some date
    /\ Interviews.post ext db user body
       = (with_interviews
            (Table (rows (interviews db)
                    ++ [mkInterview (next_id (interviews db)) (b_applicationId body)
                                    (uid user) date (app_status a) (b_feedback body)])
                   (next_id (interviews db) + 1)) db,
          success 201
            (mkInterview (next_id (interviews db)) (b_applicationId body)
                         (uid user) date (app_status a) (b_feedback body))).
Proof.
  unfold Interviews.post. cbv zeta.
  destruct (findOne _ (applications db)) as [a|]; [|discriminate].
  destruct (b_interview_date body ≫= date_column ext) as [date|]; [|discriminate].
  destruct (bool_decide _); [|discriminate].
  intros _. exists a, date. repeat split.
Qed.

(** X17. An interview that POST /interviews stores is in the list GET
    /interviews answers to every authenticated user, not only to its
    owner; its status is the current state of the application it is
    about. *)
Theorem interviews_listed_to_everyone (ext : Externals) (db : Db) (user : AuthUser)
        (body : CreateBody) :
  code (Interviews.post ext db user body).2 = 201 ->
  exists i a,
    data (Interviews.post ext db user body).2 = Some i
    /\ int_userId i = uid user
    /\ In a (rows (applications db)) /\ app_id a = applicationId i
    /\ app_userId a = uid user /\ interview_status i = app_status a
    /\ forall other,
         exists l, data (Interviews.get_list (Interviews.post ext db user body).1 other)
                   = Some l
                   /\ In i l.
Proof.
  intros Hcode.
  destruct (interviews_post_created ext db user body Hcode) as (a & date & Ha & _ & ->).
  apply List.find_some in Ha as [Hin Hc]. apply andb_true_iff in Hc as [Hid Hu].
  cbn [fst snd data success]. eexists _, a. split; [reflexivity|].
  cbn [int_userId applicationId interview_status].
  split; [reflexivity|]. split; [exact Hin|]. split; [lia|]. split; [lia|].
  split; [reflexivity|].
  intros other. eexists. split; [reflexivity|].
  unfold findAll. simpl. rewrite List.filter_app. simpl.
  apply in_or_app. right. left. reflexivity.
Qed.

Lemma interviews_listed_to_everyone_witness :
  let db := (handle Samples.ext0 Samples.db0
               (ApplicationsPost Samples.alice (Applications.mkApplyBody (Some 7) None))).1 in
  let body := Interviews.mkCreateBody 1 (Some "2024-12-20") None in
  code (Interviews.post Samples.ext0 db Samples.alice body).2 = 201
  /\ exists i l,
       int_userId i = uid Samples.alice
       /\ data (Interviews.get_list (Interviews.post Samples.ext0 db Samples.alice body).1
                                    Samples.bob)
          = Some l
       /\ In i l.
Proof.
  intros db body.
  assert (Hc : code (Interviews.post Samples.ext0 db Samples.alice body).2 = 201)
    by (vm_compute; reflexivity).
  split; [exact Hc|].
  destruct (interviews_listed_to_everyone Samples.ext0 db Samples.alice body Hc)
    as (i & a & _ & Hu & _ & _ & _ & _ & Hl).
  destruct (Hl Samples.bob) as (l & Hd & Hin).
  exists i, l. split; [exact Hu|]. split; [exact Hd | exact Hin].
Defined.

(** X18. Withdrawing twice is the same as withdrawing once: DELETE
    /applications/:id does not look at the state of the application, so a
    second withdrawal answers as the first did and leaves the database as
    the first left it. *)
Theorem withdraw_is_idempotent (db : Db) (user : AuthUser) (id : Z) :
  let once := Applications.delete db user id in
  let twice := Applications.delete once.1 user id in
  twice.1 = once.1 /\ code twice.2 = code once.2
  /\ (code once.2 = 200 ->
      exists a, data twice.2 = Some a /\ data once.2 = Some a
                /\ app_status a = withdrawn).
Proof.
  intros once twice. subst once twice. rewrite !delete_cases.
  destruct (findOne _ (applications db)) as [a|] eqn:Ha; cbn [fst snd].
  - cbn [applications with_applications].
    rewrite findOne_pair_update, Ha. cbn [option_map].
    change (pk a) with (app_id a). rewrite Z.eqb_refl. cbn [fst snd code data].
    split; [|split; [reflexivity|]].
    + unfold with_applications. cbn. f_equal. unfold update. cbn [rows next_id]. f_equal.
      rewrite List.map_map. apply map_ext. intros r.
      destruct (pk r =? app_id a) eqn:E.
      * change (pk (Applications.set_status withdrawn r)) with (pk r). rewrite E. reflexivity.
      * rewrite E. reflexivity.
    + intros _. exists (Applications.set_status withdrawn a). repeat split.
  - rewrite Ha. cbn [fst snd code]. split; [reflexivity|]. split; [reflexivity|].
    discriminate.
Qed.

End InterviewFacts.

(** ** The summary of a posting *)

Section SummaryFacts.

Lemma filter_filter_ne (k s : string) (l : list Application) :
  s <> k ->
  List.filter (fun a => String.eqb (app_status a) s)
              (List.filter (fun a => negb (String.eqb (app_status a) k)) l)
  = List.filter (fun a => String.eqb (app_status a) s) l.
Proof.
  intros Hne. induction l as [|a l IH]; simpl; [reflexivity|].
  destruct (String.eqb_spec (app_status a) k) as [Ek | Ek]; simpl.
  - destruct (String.eqb_spec (app_status a) s); [congruence | exact IH].
  - destruct (String.eqb (app_status a) s); [rewrite IH|]; auto.
Qed.

Lemma filter_split_length (k : string) (l : list Application) :
  length l
  = (length (List.filter (fun a => String.eqb (app_status a) k) l)
     + length (List.filter (fun a => negb (String.eqb (app_status a) k)) l))%nat.
Proof.
  induction l as [|a l IH]; simpl; [reflexivity|].
  destruct (String.eqb (app_status a) k); simpl; lia.
Qed.

(** The groups of distinct statuses that cover a selection count each of
    its rows once. *)
Lemma groups_count_all (ks : list string) (l : list Application) :
  NoDup ks -> (forall a, In a l -> In (app_status a) ks) ->
  foldr Z.add 0
        (List.map (fun s => Z.of_nat (length (List.filter
                                                (fun a => String.eqb (app_status a) s) l)))
                  ks)
  = Z.of_nat (length l).
Proof.
  revert l. induction ks as [|k ks IH]; intros l Hnd Hall; simpl.
  - destruct l as [|a l]; [reflexivity|]. destruct (Hall a (or_introl eq_refl)).
  - apply NoDup_cons in Hnd as [Hk Hnd].
    rewrite (filter_split_length k l).
    rewrite Nat2Z.inj_add. f_equal.
    rewrite <- (IH (List.filter (fun a => negb (String.eqb (app_status a) k)) l) Hnd).
    + f_equal. apply map_ext_in. intros s Hs. rewrite filter_filter_ne; [reflexivity|].
      intros ->. apply Hk, list_elem_of_In, Hs.
    + intros a Ha. apply filter_In in Ha as [Ha Hne].
      destruct (Hall a Ha) as [Hk' | Hin]; [|exact Hin].
      simpl in Hne. rewrite Hk', String.eqb_refl in Hne. discriminate.
Qed.

(** X19. GET /applications/job/:jobId/summary answers 403 to a caller whose
    role is neither "companyuser" nor "admin" and 403 again when the posting
    does not exist.  Otherwise it answers 200 with the posting's company
    and, for the applications to that posting, one entry per status that
    occurs, with the number of applications in that status: no status is
    listed twice, no count is below 1, and the counts add up to the number
    of applications to the posting. *)
Theorem summary_counts_by_status (db : Db) (user : AuthUser) (jobId : Z) :
  let selected := findAll (fun a => app_jobId a =? jobId) (applications db) in
  (Summary.authorized user = false -> code (Summary.get db user jobId) = 403)
  /\ (findByPk jobId (jobs db) = None -> code (Summary.get db user jobId) = 403)
  /\ (forall job,
        Summary.authorized user = true -> findByPk jobId (jobs db) = Some job ->
        exists d,
          Summary.get db user jobId = success 200 d
          /\ Summary.companyName d = company job
          /\ NoDup (List.map fst (Summary.entries d))
          /\ (forall s n, In (s, n) (Summary.entries d) ->
                1 <= n
                /\ n = Z.of_nat (length (List.filter
                                           (fun a => String.eqb (app_status a) s) selected)))
          /\ (forall a, In a selected -> In (app_status a) (List.map fst (Summary.entries d)))
          /\ foldr Z.add 0 (List.map snd (Summary.entries d))
             = Z.of_nat (length selected)).
Proof.
  intros selected. unfold Summary.get. split; [|split].
  - intros ->. reflexivity.
  - intros ->. destruct (negb _); reflexivity.
  - intros job -> ->. cbn [negb]. eexists. split; [reflexivity|].
    cbn [Summary.companyName Summary.entries]. fold selected.
    unfold Summary.group_by_status.
    assert (Hfst : List.map fst
                     (List.map (fun s => (s, Z.of_nat (length (List.filter
                                   (fun a => String.eqb (app_status a) s) selected))))
                               (remove_dups (List.map app_status selected)))
                   = remove_dups (List.map app_status selected)).
    { rewrite List.map_map. simpl. apply map_id. }
    split; [reflexivity|]. split; [rewrite Hfst; apply NoDup_remove_dups|].
    split; [|split].
    + intros s n Hin. apply in_map_iff in Hin as [s' [[= <- <-] Hs]].
      split; [|reflexivity].
      apply list_elem_of_In, elem_of_remove_dups, list_elem_of_In, in_map_iff in Hs.
      destruct Hs as [a [Ha Hin]].
      assert (Hf : In a (List.filter (fun a => String.eqb (app_status a) s') selected)).
      { apply filter_In. split; [exact Hin|]. rewrite Ha. apply String.eqb_refl. }
      destruct (List.filter _ selected); [destruct Hf | simpl; lia].
    + intros a Ha. rewrite Hfst.
      apply list_elem_of_In, elem_of_remove_dups, list_elem_of_In, in_map, Ha.
    + rewrite List.map_map. simpl. apply groups_count_all.
      * apply NoDup_remove_dups.
      * intros a Ha.
        apply list_elem_of_In, elem_of_remove_dups, list_elem_of_In, in_map, Ha.
Qed.

Lemma summary_counts_by_status_witness :
  let db := (run Samples.ext0 Samples.db0
               [ApplicationsPost Samples.alice (Applications.mkApplyBody (Some 7) None);
                ApplicationsPost Samples.bob (Applications.mkApplyBody (Some 7) None);
                ApplicationsDelete Samples.bob 7]).1 in
  Summary.authorized Samples.alice = false
  /\ code (Summary.get db Samples.alice 7) = 403
  /\ Summary.authorized Samples.carol = true
  /\ exists d, Summary.get db Samples.carol 7 = success 200 d
               /\ foldr Z.add 0 (List.map snd (Summary.entries d)) = 2.
Proof.
  intros db.
  destruct (summary_counts_by_status db Samples.alice 7) as (Hno & _ & _).
  destruct (summary_counts_by_status db Samples.carol 7) as (_ & _ & Hyes).
  assert (Ha : Summary.authorized Samples.alice = false) by reflexivity.
  assert (Hc : Summary.authorized Samples.carol = true) by reflexivity.
  split; [exact Ha|]. split; [exact (Hno Ha)|]. split; [exact Hc|].
  destruct (Hyes Samples.job7 Hc eq_refl) as (d & Hd & _ & _ & _ & _ & Hsum).
  exists d. split; [exact Hd | exact Hsum].
Defined.

End SummaryFacts.

(** ** Reviews *)

Section ReviewFacts.

Lemma review_created ext db user body :
  code (JobReviews.post ext db user body).2 = 201 ->
  exists j text,
    JobReviews.b_jobId body = Some j
    /\ JobReviews.rating_out_of_range ext (JobReviews.b_rating body) = false
    /\ is_Some (findByPk (uid user) (users db)) /\ is_Some (findByPk j (jobs db))
    /\ string_column ext (JobReviews.b_review_text body) = Some text
    /\ JobReviews.post ext db user body
       = (with_jobreviews
            (Table (rows (jobreviews db)
                    ++ [mkJobReview (next_id (jobreviews db)) j (uid user)
                          (VNum (inject_Z (integer_column ext (JobReviews.b_rating body))))
                          (from_option VStr VNull text)])
                   (next_id (jobreviews db) + 1)) db,
          success 201 (mkJobReview (next_id (jobreviews db)) j (uid user)
                                   (JobReviews.b_rating body)
                                   (JobReviews.b_review_text body))).
Proof.
  unfold JobReviews.post.
  destruct (JobReviews.rating_out_of_range ext _); [discriminate|].
  unfold JobReviews.JobReview_create.
  destruct (JobReviews.b_jobId body) as [j|]; [|discriminate].
  destruct (JobReviews.b_rating body) eqn:Hr; try discriminate.
  all: destruct (rating_accepted ext _); [|discriminate].
  all: destruct (bool_decide (is_Some (findByPk (uid user) (users db)))) eqn:Hu;
    [|discriminate].
  all: destruct (bool_decide (is_Some (findByPk j (jobs db)))) eqn:Hj; [|discriminate].
  all: cbn [andb].
  all: destruct (string_column ext (JobReviews.b_review_text body)) as [text|];
    [|discriminate].
  all: intros _; exists j, text.
  all: apply bool_decide_eq_true_1 in Hu, Hj.
  all: repeat split; assumption.
Qed.

(** X20. When POST /jobreview answers 201, the caller has an account and
    the posting exists; the answer carries the next key, the posting, the
    caller and the rating as sent, which the range test let through.  GET
    /jobreview/:jobId then answers 200 to every caller with the reviews of
    that posting stored before, in their order, followed by the stored row:
    same key, posting and caller, and as its rating the integer the column
    made of the rating sent. *)
Theorem review_posted_then_listed (ext : Externals) (db : Db) (user : AuthUser)
        (body : JobReviews.ReviewBody) :
  code (JobReviews.post ext db user body).2 = 201 ->
  exists j answered stored,
    JobReviews.b_jobId body = Some j
    /\ is_Some (findByPk (uid user) (users db)) /\ is_Some (findByPk j (jobs db))
    /\ data (JobReviews.post ext db user body).2 = Some answered
    /\ rev_id answered = next_id (jobreviews db)
    /\ rev_jobId answered = j /\ rev_userId answered = uid user
    /\ rating answered = JobReviews.b_rating body
    /\ JobReviews.rating_out_of_range ext (rating answered) = false
    /\ rev_id stored = next_id (jobreviews db)
    /\ rev_jobId stored = j /\ rev_userId stored = uid user
    /\ rating stored = VNum (inject_Z (integer_column ext (JobReviews.b_rating body)))
    /\ forall reader,
         Reviews.get (JobReviews.post ext db user body).1 reader j
         = success 200 (findAll (fun x => rev_jobId x =? j) (jobreviews db) ++ [stored]).
Proof.
  intros Hcode.
  destruct (review_created ext db user body Hcode)
    as (j & text & Hj & Hrange & Hu & Hjob & _ & ->).
  cbn [fst snd data success].
  exists j, (mkJobReview (next_id (jobreviews db)) j (uid user)
                         (JobReviews.b_rating body) (JobReviews.b_review_text body)),
         (mkJobReview (next_id (jobreviews db)) j (uid user)
                      (VNum (inject_Z (integer_column ext (JobReviews.b_rating body))))
                      (from_option VStr VNull text)).
  split; [exact Hj|].
  split; [exact Hu|]. split; [exact Hjob|].
  split; [reflexivity|]. cbn [rev_id rev_jobId rev_userId rating].
  do 4 (split; [reflexivity|]). split; [exact Hrange|]. do 4 (split; [reflexivity|]).
  intros reader. unfold Reviews.get, findAll. cbn [jobreviews with_jobreviews rows].
  rewrite List.filter_app. cbn [List.filter rev_jobId]. rewrite Z.eqb_refl.
  destruct (List.filter _ (rows (jobreviews db))); reflexivity.
Qed.

(** Alice rates posting 7 with [true]: the answer carries [true], the
    listing the integer 1. *)
Lemma review_posted_then_listed_witness :
  let body := Samples.review (VBool true) in
  code (JobReviews.post Samples.ext0 Samples.db0 Samples.alice body).2 = 201
  /\ exists answered stored,
       data (JobReviews.post Samples.ext0 Samples.db0 Samples.alice body).2 = Some answered
       /\ rating answered = VBool true
       /\ rating stored = VNum 1
       /\ Reviews.get (JobReviews.post Samples.ext0 Samples.db0 Samples.alice body).1
                      Samples.bob 7
          = success 200 [stored].
Proof.
  intros body.
  assert (Hc : code (JobReviews.post Samples.ext0 Samples.db0 Samples.alice body).2 = 201)
    by (vm_compute; reflexivity).
  split; [exact Hc|].
  destruct (review_posted_then_listed Samples.ext0 Samples.db0 Samples.alice body Hc)
    as (j & answered & stored & Hj & _ & _ & Hd & _ & _ & _ & Hr & _ & _ & _ & _ & Hs & Hget).
  injection Hj as <-.
  exists answered, stored. split; [exact Hd|]. split; [exact Hr|].
  split; [exact Hs|]. exact (Hget Samples.bob).
Defined.

End ReviewFacts.

(** ** Postings *)

Section JobFacts.

Lemma findByPk_destroy {R} `{Model R} (id : Z) (t : table R) :
  findByPk id (destroy id t) = None.
Proof.
  unfold findByPk, findOne, destroy. simpl.
  induction (rows t) as [|x l IH]; simpl; [reflexivity|].
  destruct (pk x =? id) eqn:E; simpl; [exact IH|]. rewrite E. exact IH.
Qed.

(** X21. Once DELETE /jobs/:id has answered 200, the posting is gone for every
    route and every caller: reading it and deleting it again answer 404,
    editing it answers 400 or 404, and applying to it answers 404; none of
    these requests changes the database. *)
Theorem job_deleted_then_gone (ext : Externals) (db : Db) (user : AuthUser) (id : Z) :
  code (Jobs.delete db user id).2 = 200 ->
  let db' := (Jobs.delete db user id).1 in
  findByPk id (jobs db') = None
  /\ forall other,
       Jobs.get_by_id ext db' other id = (db', error 404 "해당 공고를 찾을 수 없습니다.")
       /\ Jobs.delete db' other id = (db', error 404 "해당 채용 공고를 찾을 수 없습니다.")
       /\ (forall body, (Jobs.put ext db' other id body).1 = db'
                        /\ (code (Jobs.put ext db' other id body).2 = 400
                            \/ code (Jobs.put ext db' other id body).2 = 404))
       /\ (forall r, (Applications.post db' other (Applications.mkApplyBody (Some id) r)).1 = db'
                     /\ (code (Applications.post db' other
                                 (Applications.mkApplyBody (Some id) r)).2 = 400
                         \/ code (Applications.post db' other
                                    (Applications.mkApplyBody (Some id) r)).2 = 404)).
Proof.
  intros Hcode db'.
  assert (Hgone : findByPk id (jobs db') = None).
  { subst db'. revert Hcode. unfold Jobs.delete.
    destruct (findByPk id (jobs db)) as [job|] eqn:Hf; [|discriminate].
    intros _. apply findByPk_pk in Hf. change (pk job) with (job_id job) in Hf.
    rewrite Hf. cbn [fst jobs with_jobs]. apply findByPk_destroy. }
  split; [exact Hgone|]. intros other. split; [|split; [|split]].
  - unfold Jobs.get_by_id. rewrite Hgone. reflexivity.
  - unfold Jobs.delete at 1. rewrite Hgone. reflexivity.
  - intros body. unfold Jobs.put.
    destruct (Jobs.validate ext body); [|split; [reflexivity | left; reflexivity]].
    rewrite Hgone. split; [reflexivity | right; reflexivity].
  - intros r. unfold Applications.post. cbn [Applications.jobId from_option Datatypes.id].
    destruct (Applications.missing (Some id)); [split; [reflexivity | left; reflexivity]|].
    rewrite Hgone. split; [reflexivity | right; reflexivity].
Qed.

Lemma job_deleted_then_gone_witness :
  code (Jobs.delete Samples.db0 Samples.bob 7).2 = 200
  /\ code (Jobs.get_by_id Samples.ext0 (Jobs.delete Samples.db0 Samples.bob 7).1
                          Samples.alice 7).2 = 404.
Proof.
  assert (Hc : code (Jobs.delete Samples.db0 Samples.bob 7).2 = 200) by reflexivity.
  split; [exact Hc|].
  destruct (job_deleted_then_gone Samples.ext0 Samples.db0 Samples.bob 7 Hc) as [_ H].
  destruct (H Samples.alice) as [-> _]. reflexivity.
Defined.

(** X22. POST /jobs never stores a posting.  The schema lets the tech
    stack through only as an array, which the STRING column does not take:
    a body without error is answered 500, a body with errors is answered
    400 with all their messages, and either way the database is as it
    was. *)
Theorem jobs_post_never_stores (ext : Externals) (db : Db) (user : AuthUser)
        (body : jsobject) :
  (Jobs.post ext db user body).1 = db
  /\ (Jobs.validate ext body = [] -> code (Jobs.post ext db user body).2 = 500)
  /\ (Jobs.validate ext body <> [] ->
      code (Jobs.post ext db user body).2 = 400
      /\ message (Jobs.post ext db user body).2
         = Some (Jobs.join ", " (Jobs.validate ext body))).
Proof.
  unfold Jobs.post. destruct (Jobs.validate ext body) as [|e es] eqn:Hv.
  - destruct (validate_techStack ext body Hv) as [items Ht].
    rewrite (job_of_body_array ext body items Ht).
    split; [reflexivity|]. split; [reflexivity | intros H; contradiction].
  - split; [reflexivity|]. split; [discriminate|]. intros _. split; reflexivity.
Qed.

Lemma jobs_post_never_stores_witness :
  Jobs.validate Samples.ext0 Samples.edit = []
  /\ Jobs.post Samples.ext0 Samples.db0 Samples.alice Samples.edit
     = (Samples.db0, error 500 "채용 공고 등록 중 오류가 발생했습니다.")
  /\ message (Jobs.post Samples.ext0 Samples.db0 Samples.alice Samples.bad_link).2
     = Some "링크는 유효한 URL 형식이어야 합니다.".
Proof.
  assert (Hv : Jobs.validate Samples.ext0 Samples.edit = []) by (vm_compute; reflexivity).
  split; [exact Hv|].
  destruct (jobs_post_never_stores Samples.ext0 Samples.db0 Samples.alice Samples.edit)
    as (Hdb & H500 & _).
  destruct (jobs_post_never_stores Samples.ext0 Samples.db0 Samples.alice Samples.bad_link)
    as (_ & _ & H400).
  split.
  - destruct (Jobs.post Samples.ext0 Samples.db0 Samples.alice Samples.edit) as [d res] eqn:E.
    vm_compute in E. injection E as <- <-. reflexivity.
  - destruct H400 as [_ Hm]; [vm_compute; discriminate|]. rewrite Hm.
    vm_compute. reflexivity.
Defined.

Lemma run_reads ext db id job (readers : list AuthUser) :
  findByPk id (jobs db) = Some job ->
  exists job',
    findByPk id (jobs (run ext db (List.map (fun u => JobsGetById u id) readers)).1)
    = Some job'
    /\ views job' = views job + Z.of_nat (length readers)
    /\ title job' = title job /\ link job' = link job
    /\ (run ext db (List.map (fun u => JobsGetById u id) readers)).2
       = List.map (fun _ => 200) readers.
Proof.
  revert db job. induction readers as [|u readers IH]; intros db job Hf.
  - exists job. simpl. repeat split; [exact Hf | lia].
  - cbn [List.map]. rewrite run_cons. cbn [fst snd handle].
    destruct (get_by_id_found ext db u id job Hf) as [Hdb Hcode].
    destruct (Jobs.get_by_id ext db u id) as [d res] eqn:Hget.
    cbn [fst snd] in *. subst d.
    assert (Hf' : findByPk id (jobs (with_jobs (update id Jobs.increment_views (jobs db)) db))
                  = Some (Jobs.increment_views job))
      by (cbn [jobs with_jobs]; apply findByPk_update; [auto | exact Hf]).
    destruct (IH _ _ Hf') as (job' & Hfind & Hviews & Htitle & Hlink & Hcodes).
    exists job'. split; [exact Hfind|]. cbn [views Jobs.increment_views] in Hviews.
    split; [cbn [length]; lia|]. split; [exact Htitle|]. split; [exact Hlink|].
    rewrite Hcodes, Hcode. reflexivity.
Qed.

(** X23. Every GET /jobs/:id counts: after any number of reads of a posting, by
    whichever callers and however often each, all answered 200, the stored
    view counter has grown by the number of reads. *)
Theorem views_count_every_read (ext : Externals) (db : Db) (id : Z) (job : Job)
        (readers : list AuthUser) :
  findByPk id (jobs db) = Some job ->
  let after := run ext db (List.map (fun u => JobsGetById u id) readers) in
  after.2 = List.map (fun _ => 200) readers
  /\ exists job', findByPk id (jobs after.1) = Some job'
                  /\ views job' = views job + Z.of_nat (length readers).
Proof.
  intros Hf after. subst after.
  destruct (run_reads ext db id job readers Hf) as (job' & Hfind & Hviews & _ & _ & Hcodes).
  split; [exact Hcodes|]. exists job'. split; [exact Hfind | exact Hviews].
Qed.

Lemma views_count_every_read_witness :
  findByPk 7 (jobs Samples.db0) = Some Samples.job7
  /\ exists job', findByPk 7 (jobs (run Samples.ext0 Samples.db0
                                        [JobsGetById Samples.alice 7;
                                         JobsGetById Samples.alice 7;
                                         JobsGetById Samples.bob 7]).1) = Some job'
                  /\ views job' = views Samples.job7 + 3.
Proof.
  assert (Hf : findByPk 7 (jobs Samples.db0) = Some Samples.job7) by reflexivity.
  split; [exact Hf|].
  destruct (views_count_every_read Samples.ext0 Samples.db0 7 Samples.job7
              [Samples.alice; Samples.alice; Samples.bob] Hf) as [_ H].
  exact H.
Defined.

End JobFacts.

(** ** The catalogue listing *)

Section CatalogFacts.
Variable order_by : string -> string -> list Job -> option (list Job).
Variable limit_offset : Z -> Z -> list Job -> option (list Job).

(** X24. GET /jobs, for a page number of at least 1 and a database that sorts
    the selection without losing or adding rows and cuts the page out of it:
    the answer is 200; [totalItems] is the number of postings that match
    the filters; the page holds 20 postings, or what is left of the
    selection after the pages before it, or nothing; [totalPages] is the
    least number of pages of 20 that hold the selection, and a page is
    empty exactly when its number is above it. *)
Theorem catalog_pages (ext : Externals) (db : Db) (user : AuthUser)
        (q : Catalog.ListQuery) (p : Z) (sorted : list Job) :
  let selected := findAll (Catalog.matches ext q) (jobs db) in
  let count := Z.of_nat (length selected) in
  default 1 (Catalog.page q) = p -> 1 <= p ->
  order_by (default "id" (Catalog.sortBy q)) (default "ASC" (Catalog.sortOrder q)) selected
  = Some sorted ->
  length sorted = length selected ->
  limit_offset 20 ((p - 1) * 20) sorted
  = Some (firstn 20 (skipn (Z.to_nat ((p - 1) * 20)) sorted)) ->
  exists d,
    Catalog.get_list order_by limit_offset ext db user q = success 200 d
    /\ Catalog.totalItems d = count /\ Catalog.currentPage d = p
    /\ Z.of_nat (length (Catalog.items d)) = Z.min 20 (Z.max 0 (count - (p - 1) * 20))
    /\ count <= 20 * Catalog.totalPages d < count + 20
    /\ (Catalog.items d <> [] <-> p <= Catalog.totalPages d).
Proof.
  intros selected count Hp Hge Hsort Hlen Hlim.
  unfold Catalog.get_list. cbv zeta. fold selected. rewrite Hp, Hsort.
  cbn [mbind option_bind]. unfold Catalog.pageSize. rewrite Hlim.
  eexists. split; [reflexivity|].
  cbn [Catalog.totalItems Catalog.currentPage Catalog.items Catalog.totalPages].
  fold count. split; [reflexivity|]. split; [reflexivity|].
  assert (Hitems : Z.of_nat (length (firstn 20 (skipn (Z.to_nat ((p - 1) * 20)) sorted)))
                   = Z.min 20 (Z.max 0 (count - (p - 1) * 20))).
  { rewrite length_take, length_drop, Hlen. subst count. lia. }
  assert (Hceil : count <= 20 * Catalog.ceil_div count 20 < count + 20).
  { unfold Catalog.ceil_div. assert (0 <= count) by (subst count; lia). div_lia. }
  rewrite length_map. split; [exact Hitems|]. split; [exact Hceil|].
  assert (Hne : forall (A B : Type) (f : A -> B) (l : list A),
            List.map f l <> [] <-> (0 < Z.of_nat (length l))).
  { intros A B f l. destruct l; simpl; split; try congruence; lia. }
  rewrite Hne. lia.
Qed.

End CatalogFacts.

Lemma catalog_pages_witness :
  let order_by := fun (_ _ : string) (l : list Job) => Some l in
  let limit_offset := fun (n o : Z) (l : list Job) =>
                        Some (firstn (Z.to_nat n) (skipn (Z.to_nat o) l)) in
  let q := Catalog.mkListQuery None None None None None None None None None None in
  exists d,
    Catalog.get_list order_by limit_offset Samples.ext0 Samples.db0 Samples.alice q
    = success 200 d
    /\ Catalog.totalItems d = Z.of_nat (length (rows (jobs Samples.db0)))
    /\ Catalog.currentPage d = 1.
Proof.
  intros order_by limit_offset q.
  destruct (catalog_pages order_by limit_offset Samples.ext0 Samples.db0 Samples.alice q 1
              (findAll (Catalog.matches Samples.ext0 q) (jobs Samples.db0))
              eq_refl ltac:(lia) eq_refl eq_refl eq_refl)
    as (d & Hd & Htotal & Hpage & _).
  exists d. split; [exact Hd|]. split; [|exact Hpage].
  rewrite Htotal. vm_compute. reflexivity.
Defined.

(** ** Bookmarks *)

Section BookmarkFacts.
Import Bookmarks.

Lemma filter_at_most_one {A} (p : A -> bool) (l : list A) (x y : A) :
  (length (List.filter p l) <= 1)%nat ->
  In x l -> In y l -> p x = true -> p y = true -> x = y.
Proof.
  induction l as [|z l IH]; simpl; [tauto|].
  intros Hlen Hx Hy Hpx Hpy.
  assert (Hnil : forall w, p z = true -> In w l -> p w = true -> False).
  { intros w Hz Hw Hpw. rewrite Hz in Hlen. simpl in Hlen.
    assert (Hin : In w (List.filter p l)) by (apply filter_In; auto).
    destruct (List.filter p l); [destruct Hin | simpl in Hlen; lia]. }
  destruct Hx as [-> | Hx], Hy as [-> | Hy]; try reflexivity.
  - exfalso. eapply Hnil; eauto.
  - exfalso. eapply Hnil; eauto.
  - apply IH; auto. destruct (p z); simpl in Hlen; lia.
Qed.

Lemma destroy_last (t : table Bookmark) (b : Bookmark) :
  Forall (fun r => pk r < bm_id b) (rows t) ->
  List.filter (fun r => negb (pk r =? bm_id b)) (rows t ++ [b]) = rows t.
Proof.
  intros Hlt. rewrite List.filter_app. simpl.
  change (pk b) with (bm_id b). rewrite Z.eqb_refl. simpl. rewrite app_nil_r.
  induction (rows t) as [|x l IH]; simpl; [reflexivity|].
  apply Forall_cons in Hlt as [Hx Hl].
  destruct (Z.eqb_spec (pk x) (bm_id b)); [lia|]. simpl. f_equal. apply IH, Hl.
Qed.

Lemma bookmarks_post_cases db (t : table Bookmark) user j :
  j <> 0 ->
  Bookmarks.post db t user (Some j)
  = match findOne (same_pair (uid user) j) t with
    | Some b => (destroy (bm_id b) t,
                 Response 200 "success" (Some "북마크가 제거되었습니다.") None)
    | None =>
        if bool_decide (is_Some (findByPk (uid user) (users db)))
           && bool_decide (is_Some (findByPk j (jobs db)))
        then (Table (rows t ++ [mkBookmark (next_id t) (uid user) j]) (next_id t + 1),
              success 201 (mkBookmark (next_id t) (uid user) j))
        else (t, error 500 "북마크 처리 중 오류가 발생했습니다.")
    end.
Proof.
  intros Hj. unfold Bookmarks.post. cbn [Applications.missing from_option Datatypes.id].
  destruct (Z.eqb_spec j 0) as [|_]; [contradiction|]. reflexivity.
Qed.

(** X25. POST /bookmarks toggles.  From a table with at most one bookmark of the
    caller on the posting: when the request answers 201 there was none, now
    there is one, and the same request again answers 200 and leaves the
    rows that were there before the first; when it answers 200 there was
    one, now there is none, and every bookmark of another user or posting
    is still there.  The only other answer is 500, with the table
    unchanged. *)
Theorem bookmark_toggles (db : Db) (t : table Bookmark) (user : AuthUser) (j : Z) :
  j <> 0 -> keys_issued t ->
  (length (findAll (same_pair (uid user) j) t) <= 1)%nat ->
  let first := Bookmarks.post db t user (Some j) in
  let second := Bookmarks.post db first.1 user (Some j) in
  (code first.2 = 201 ->
   bookmarked t (uid user) j = false /\ bookmarked first.1 (uid user) j = true
   /\ code second.2 = 200 /\ rows second.1 = rows t)
  /\ (code first.2 = 200 ->
      bookmarked t (uid user) j = true /\ bookmarked first.1 (uid user) j = false
      /\ forall b, In b (rows t) -> same_pair (uid user) j b = false -> In b (rows first.1))
  /\ (code first.2 = 201 \/ code first.2 = 200
      \/ (code first.2 = 500 /\ first.1 = t)).
Proof.
  intros Hj [Hnd Hlt] Hone first second. subst second first.
  rewrite (bookmarks_post_cases db t user j Hj).
  destruct (findOne (same_pair (uid user) j) t) as [b|] eqn:Hfind.
  - cbn [fst snd code]. split; [intros [=]|]. split; [|right; left; reflexivity].
    intros _. apply List.find_some in Hfind as Hb. destruct Hb as [Hin Hpair].
    split; [unfold bookmarked; rewrite Hfind; reflexivity|]. split.
    + unfold bookmarked. apply bool_decide_eq_false. intros [b' Hb'].
      apply List.find_some in Hb' as [Hin' Hpair']. simpl in Hin'.
      apply filter_In in Hin' as [Hin' Hne].
      rewrite (filter_at_most_one _ _ b' b Hone Hin' Hin Hpair' Hpair) in Hne.
      change (pk b) with (bm_id b) in Hne. rewrite Z.eqb_refl in Hne. discriminate.
    + intros b' Hin' Hpair'. simpl. apply filter_In. split; [exact Hin'|].
      destruct (Z.eqb_spec (pk b') (bm_id b)) as [E|]; [|reflexivity].
      rewrite (NoDup_pk_unique (rows t) b' b Hnd Hin' Hin E), Hpair in Hpair'.
      discriminate.
  - destruct (bool_decide _ && bool_decide _) eqn:Hfk; cbn [fst snd code].
    + split; [|split; [intros [=] | left; reflexivity]].
      intros _. split; [unfold bookmarked; rewrite Hfind; reflexivity|].
      set (b := mkBookmark (next_id t) (uid user) j).
      assert (Hfind' : findOne (same_pair (uid user) j) (Table (rows t ++ [b]) (next_id t + 1))
                       = Some b).
      { unfold findOne. cbn [rows]. rewrite (find_app_none _ _ _ Hfind).
        unfold same_pair, b. cbn [bm_userId bm_jobId]. rewrite !Z.eqb_refl. reflexivity. }
      split; [unfold bookmarked; rewrite Hfind'; reflexivity|].
      rewrite (bookmarks_post_cases db _ user j Hj), Hfind'. cbn [fst snd code].
      split; [reflexivity|].
      cbn [destroy rows]. apply destroy_last. exact Hlt.
    + split; [intros [=]|]. split; [intros [=]|]. right. right. split; reflexivity.
Qed.

Lemma bookmark_toggles_witness :
  let t : table Bookmark := empty_table in
  let first := Bookmarks.post Samples.db2 t Samples.alice (Some 7) in
  keys_issued t
  /\ code first.2 = 201
  /\ code (Bookmarks.post Samples.db2 first.1 Samples.alice (Some 7)).2 = 200.
Proof.
  intros t first.
  assert (Hk : keys_issued t) by (split; [apply NoDup_nil_2 | apply Forall_nil_2]).
  assert (Hc : code first.2 = 201) by (vm_compute; reflexivity).
  split; [exact Hk|]. split; [exact Hc|].
  destruct (bookmark_toggles Samples.db2 t Samples.alice 7 ltac:(lia) Hk ltac:(simpl; lia))
    as [H201 _].
  destruct (H201 Hc) as (_ & _ & H200 & _). exact H200.
Defined.

End BookmarkFacts.

(** ** Companies *)

Section CompanyFacts.
Import Companies.

Lemma digits_app (ds rest : Crawler.jsstring) :
  forallb Crawler.is_digit ds = true -> digits (length ds) (ds ++ rest) = Some rest.
Proof.
  induction ds as [|c ds IH]; simpl; [reflexivity|].
  intros H. apply andb_true_iff in H as [Hc Hds].
  unfold Crawler.is_digit in Hc. rewrite Hc. apply IH, Hds.
Qed.

Lemma digits_inv (n : nat) (s rest : Crawler.jsstring) :
  digits n s = Some rest ->
  exists ds, s = ds ++ rest /\ length ds = n /\ forallb Crawler.is_digit ds = true.
Proof.
  revert s. induction n as [|n IH]; intros s; simpl.
  - intros [= ->]. exists []. repeat split.
  - destruct s as [|c s]; [discriminate|].
    destruct ((48 <=? c) && (c <=? 57)) eqn:Hc; [|discriminate].
    intros H. destruct (IH s H) as (ds & -> & Hlen & Hds).
    exists (c :: ds). simpl. unfold Crawler.is_digit at 1. rewrite Hc, Hlen, Hds.
    repeat split.
Qed.

Lemma digits_between_inv counts k s :
  digits_between counts k s = true ->
  exists ds rest, s = ds ++ rest /\ In (length ds) counts
                  /\ forallb Crawler.is_digit ds = true /\ k rest = true.
Proof.
  unfold digits_between. intros H. apply existsb_exists in H as (n & Hn & H).
  destruct (digits n s) as [rest|] eqn:E; [|discriminate].
  destruct (digits_inv n s rest E) as (ds & -> & <- & Hds).
  exists ds, rest. auto.
Qed.

Lemma digits_between_intro counts k ds rest :
  In (length ds) counts -> forallb Crawler.is_digit ds = true -> k rest = true ->
  digits_between counts k (ds ++ rest) = true.
Proof.
  intros Hin Hds Hk. unfold digits_between. apply existsb_exists.
  exists (length ds). split; [exact Hin|]. rewrite digits_app by exact Hds. exact Hk.
Qed.

Lemma hyphen_cons k rest : hyphen k ([45] ++ rest) = k rest.
Proof. reflexivity. Qed.

(** The pattern accepts exactly: two or three digits, a hyphen, three or
    four digits, a hyphen, four digits. *)
Lemma contactNumberPattern_spec (s : Crawler.jsstring) :
  contactNumberPattern s = true
  <-> exists a b c,
        s = a ++ [45] ++ b ++ [45] ++ c
        /\ forallb Crawler.is_digit (a ++ b ++ c) = true
        /\ (length a = 2 \/ length a = 3)%nat /\ (length b = 3 \/ length b = 4)%nat
        /\ length c = 4%nat.
Proof.
  unfold contactNumberPattern. split.
  - intros H.
    apply digits_between_inv in H as (a & r1 & -> & Ha & Hda & H).
    destruct r1 as [|h1 r1]; [discriminate|]. cbn [hyphen] in H.
    apply andb_true_iff in H as [Hh1 H]. apply Z.eqb_eq in Hh1. subst h1.
    apply digits_between_inv in H as (b & r2 & -> & Hb & Hdb & H).
    destruct r2 as [|h2 r2]; [discriminate|]. cbn [hyphen] in H.
    apply andb_true_iff in H as [Hh2 H]. apply Z.eqb_eq in Hh2. subst h2.
    apply digits_between_inv in H as (c & r3 & -> & Hc & Hdc & H).
    destruct r3; [|discriminate].
    exists a, b, c. rewrite app_nil_r. split; [reflexivity|].
    rewrite !forallb_app, Hda, Hdb, Hdc. simpl in Ha, Hb, Hc.
    repeat split; lia.
  - intros (a & b & c & -> & Hd & Ha & Hb & Hc).
    rewrite !forallb_app in Hd. apply andb_true_iff in Hd as [Hda Hd].
    apply andb_true_iff in Hd as [Hdb Hdc].
    apply digits_between_intro; [simpl; lia | exact Hda|].
    rewrite hyphen_cons. apply digits_between_intro; [simpl; lia | exact Hdb|].
    rewrite hyphen_cons. rewrite <- (app_nil_r c).
    apply digits_between_intro; [simpl; lia | exact Hdc | reflexivity].
Qed.

(** X26. POST /companies with the name, the location and the industry given:
    the contact number passes the format test exactly when it is two or
    three digits, a hyphen, three or four digits, a hyphen and four digits;
    then the company is stored under the next key with the number as sent.
    Every other number, the missing and the empty one included, is answered
    400 and nothing is stored. *)
Theorem companies_post_contact_number (t : table Company) (user : AuthUser)
        (body : CompanyBody) :
  Accounts.given (c_name body) = true -> Accounts.given (c_location body) = true ->
  Accounts.given (c_industry body) = true ->
  let s := default [] (c_contact_number body) in
  let shaped :=
    exists a b c,
      s = a ++ [45] ++ b ++ [45] ++ c
      /\ forallb Crawler.is_digit (a ++ b ++ c) = true
      /\ (length a = 2 \/ length a = 3)%nat /\ (length b = 3 \/ length b = 4)%nat
      /\ length c = 4%nat in
  (shaped ->
   exists company_,
     Companies.post t user body
     = (Table (rows t ++ [company_]) (next_id t + 1), success 201 company_)
     /\ co_id company_ = next_id t /\ co_contact_number company_ = s)
  /\ (~ shaped ->
      (Companies.post t user body).1 = t /\ code (Companies.post t user body).2 = 400).
Proof.
  intros Hn Hl Hi s shaped. unfold Companies.post. rewrite Hn, Hl, Hi. cbn [negb orb].
  fold s. split.
  - intros Hs. pose proof (proj2 (contactNumberPattern_spec s) Hs) as Hpat.
    destruct (c_contact_number body) as [[|c0 n]|] eqn:Hc;
      try (subst s; cbn in Hpat; discriminate).
    rewrite Hpat. cbn [negb create]. eexists. split; [reflexivity|].
    split; reflexivity.
  - intros Hs.
    destruct (match c_contact_number body with Some (_ :: _) => false | _ => true end);
      [split; reflexivity|].
    destruct (contactNumberPattern s) eqn:Hpat; [|split; reflexivity].
    exfalso. apply Hs, contactNumberPattern_spec, Hpat.
Qed.

Lemma companies_post_contact_number_witness :
  let body := mkCompanyBody (Some "Acme") (Some "Seoul") (Some "IT") None
                            (Some (Crawler.units "02-123-4567")) in
  Accounts.given (c_name body) = true
  /\ exists company_,
       Companies.post empty_table Samples.alice body
       = (Table [company_] 2, success 201 company_)
       /\ co_contact_number company_ = Crawler.units "02-123-4567".
Proof.
  intros body.
  assert (Hg : Accounts.given (c_name body) = true) by reflexivity.
  split; [exact Hg|].
  destruct (companies_post_contact_number empty_table Samples.alice body Hg eq_refl eq_refl)
    as [Hyes _].
  destruct Hyes as (company_ & Hpost & _ & Hnum).
  { exists (Crawler.units "02"), (Crawler.units "123"), (Crawler.units "4567").
    repeat split; auto. }
  exists company_. split; [exact Hpost | exact Hnum].
Defined.

End CompanyFacts.
